(** * Toji Launcher: installation orchestrator and bundle downloader

    A shallow embedding of the launcher's main-process logic:

    - [InstallScriptBuilder]   main/install-script-builder.ts
    - [PlatformService]        main/platform/platform-service.ts
    - [LinuxPlatformService]   main/platform/linux-platform-service.ts
    - [WindowsPlatformService], [MacOSPlatformService]   the two placeholders
    - [ClaudeAuthManager]      main/claude-auth.ts ([checkAuthentication])
    - [SystemSetup]            main/system-setup.ts
    - [BotDownloader]          main/bot-downloader.ts
    - [LinuxInstallers]        the probes and single installers of the Linux service
    - [ClaudeLogin]            main/claude-auth.ts ([startAuthentication])
    - [AuthManager]            main/auth.ts (the stored session)
    - [SetupFlow]              renderer/components/SetupFlow.tsx (the listeners)

    and of what they lean on: JavaScript's string functions ([Js]), Node's
    [path.extname] ([NodePath]) and bash running a generated script
    ([Shell]).

    TypeScript strings are [string]; arrays are [list]; [async] methods are
    computations in the state-and-exception monad [Eff.M], whose world
    records what the method sends to the renderer, which commands it runs
    and what it leaves on disk.  External collaborators (child processes,
    the network, the file system) are oracles supplied by an environment
    record: every awaited call either returns a value or throws, and
    [webContents.send] delivers.  The first part of the file is the model,
    the second part ("Properties") its theorems. *)

From Stdlib Require Import String Ascii List ZArith QArith Qround Qminmax Lia Bool Arith.
From Stdlib Require Import DecimalString DecimalNat.
From stdpp Require Import base strings gmap sets list.
Import ListNotations.
Open Scope string_scope.
Open Scope list_scope.

(** ** JavaScript strings and numbers *)

Module Js.

Definition dq : string := String (ascii_of_nat 34) EmptyString.
Definition LF : string := String (ascii_of_nat 10) EmptyString.

(** [String(n)] for a non-negative integer. *)
Definition showNat (n : nat) : string := NilEmpty.string_of_uint (Nat.to_uint n).

Definition showZ (z : Z) : string :=
  match z with
  | Zneg p => "-" +:+ showNat (Pos.to_nat p)
  | _ => showNat (Z.to_nat z)
  end.

(** A [Date], by its UTC fields. *)
Record Instant : Type := mkInstant {
  year : nat;
  month : nat;
  day : nat;
  hours : nat;
  minutes : nat;
  seconds : nat;
  milliseconds : nat
}.

Fixpoint zeros (k : nat) : string :=
  match k with
  | O => EmptyString
  | S k' => String "0" (zeros k')
  end.

(** [String(n).padStart(width, '0')] *)
Definition pad (width n : nat) : string :=
  zeros (width - String.length (showNat n)) +:+ showNat n.

(** [date.toISOString()]: YYYY-MM-DDTHH:mm:ss.sssZ *)
Definition toISOString (t : Instant) : string :=
  pad 4 (year t) +:+ "-" +:+ pad 2 (month t) +:+ "-" +:+ pad 2 (day t) +:+ "T"
  +:+ pad 2 (hours t) +:+ ":" +:+ pad 2 (minutes t) +:+ ":" +:+ pad 2 (seconds t)
  +:+ "." +:+ pad 3 (milliseconds t) +:+ "Z".

(** [Math.round]: the nearest integer, halves rounded up. *)
Definition Math_round (q : Q) : Z := Qfloor (q + (1 # 2)).

(** [arr.includes(x)] on an array of strings. *)
Definition includes (arr : list string) (x : string) : bool :=
  existsb (String.eqb x) arr.

(** [s.split('\n')]. *)
Fixpoint splitLF (s : string) : list string :=
  match s with
  | EmptyString => [EmptyString]
  | String c rest =>
      if Ascii.eqb c (ascii_of_nat 10) then EmptyString :: splitLF rest
      else match splitLF rest with
           | first :: others => String c first :: others
           | [] => [String c EmptyString]
           end
  end.


(** [path.join(a, b)] for a directory [a] and a relative name [b]. *)
Definition path_join (a b : string) : string := a +:+ "/" +:+ b.

(** White space as [trim] sees it (the ASCII part). *)
Definition isSpace (c : ascii) : bool :=
  let n := nat_of_ascii c in
  (n =? 32)%nat || ((9 <=? n)%nat && (n <=? 13)%nat).

Fixpoint trimStart (s : string) : string :=
  match s with
  | String c rest => if isSpace c then trimStart rest else s
  | EmptyString => EmptyString
  end.

(** Drops trailing white space: a suffix of blanks becomes empty. *)
Fixpoint trimEnd (s : string) : string :=
  match s with
  | EmptyString => EmptyString
  | String c rest =>
      match trimEnd rest with
      | EmptyString => if isSpace c then EmptyString else String c EmptyString
      | kept => String c kept
      end
  end.

Definition trim (s : string) : string := trimEnd (trimStart s).

(** [!!s]: a string is truthy when it is not empty. *)
Definition truthy (s : string) : bool :=
  match s with EmptyString => false | _ => true end.

(** [s.includes(sub)] *)
Fixpoint includesSub (sub s : string) : bool :=
  String.prefix sub s ||
  match s with
  | EmptyString => false
  | String _ rest => includesSub sub rest
  end.

(** [s.split('.')[0]]: the text before the first dot. *)
Fixpoint beforeDot (s : string) : string :=
  match s with
  | EmptyString => EmptyString
  | String c rest => if Ascii.eqb c "."%char then EmptyString else String c (beforeDot rest)
  end.

(** [s.substring(1)] *)
Definition substring1 (s : string) : string :=
  match s with EmptyString => EmptyString | String _ rest => rest end.

Definition digitValue (c : ascii) : option N :=
  let n := N_of_ascii c in
  if ((48 <=? n) && (n <=? 57))%N then Some (n - 48)%N else None.

(** The longest prefix of decimal digits, read as a number, and what
    follows it; [None] when the text does not start with a digit. *)
Fixpoint readDigits (acc : option N) (s : string) : option N * string :=
  match s with
  | String c rest =>
      match digitValue c with
      | Some d =>
          readDigits (Some (match acc with Some a => a * 10 + d | None => d end)%N) rest
      | None => (acc, s)
      end
  | EmptyString => (acc, s)
  end.

Definition hexValue (c : ascii) : option N :=
  let n := N_of_ascii c in
  match digitValue c with
  | Some d => Some d
  | None =>
      if ((97 <=? n) && (n <=? 102))%N then Some (n - 87)%N
      else if ((65 <=? n) && (n <=? 70))%N then Some (n - 55)%N
      else None
  end.

Fixpoint readHex (acc : option N) (s : string) : option N :=
  match s with
  | String c rest =>
      match hexValue c with
      | Some d => readHex (Some (match acc with Some a => a * 16 + d | None => d end)%N) rest
      | None => acc
      end
  | EmptyString => acc
  end.

Definition parseUnsigned (s : string) : option N :=
  match s with
  | String "0" (String "x" rest) | String "0" (String "X" rest) => readHex None rest
  | _ => fst (readDigits None s)
  end.

(** [parseInt(s)]: leading white space, a sign, then a hexadecimal
    ([0x]) or decimal numeral; [None] is [NaN]. *)
Definition parseInt (s : string) : option Z :=
  match trimStart s with
  | String "-" rest => option_map (fun n => (- Z.of_N n)%Z) (parseUnsigned rest)
  | String "+" rest => option_map Z.of_N (parseUnsigned rest)
  | rest => option_map Z.of_N (parseUnsigned rest)
  end.

Definition isLineTerminator (c : ascii) : bool :=
  Ascii.eqb c (ascii_of_nat 10) || Ascii.eqb c (ascii_of_nat 13).

(** The text up to the end of the line: what [.+] can take. *)
Fixpoint restOfLine (s : string) : string :=
  match s with
  | String c rest => if isLineTerminator c then EmptyString else String c (restOfLine rest)
  | EmptyString => EmptyString
  end.

Fixpoint dropString (n : nat) (s : string) : string :=
  match n, s with
  | S k, String _ rest => dropString k rest
  | _, _ => s
  end.

Fixpoint digitsOf (s : string) : string :=
  match s with
  | String c rest =>
      match digitValue c with Some _ => String c (digitsOf rest) | None => EmptyString end
  | EmptyString => EmptyString
  end.

(** [/PROGRESS:(\d+):(.+)/] anchored at the start of [s]: the two groups. *)
Definition sentinelAt (s : string) : option (string * string) :=
  if String.prefix "PROGRESS:" s then
    let digits := digitsOf (dropString 9 s) in
    match digits, dropString (9 + String.length digits) s with
    | String _ _, String ":" tail =>
        match restOfLine tail with
        | EmptyString => None
        | label => Some (digits, label)
        end
    | _, _ => None
    end
  else None.

(** [text.match(/PROGRESS:(\d+):(.+)/)]: the leftmost match. *)
Fixpoint matchSentinel (text : string) : option (string * string) :=
  match sentinelAt text with
  | Some groups => Some groups
  | None =>
      match text with
      | String _ rest => matchSentinel rest
      | EmptyString => None
      end
  end.

End Js.

(** ** Promises with side effects

    [M W A] is an [async] computation over a world [W]: it ends by
    returning a value or by throwing, and the effects it had on the world
    up to that point stay. *)

Module Eff.

Inductive outcome (A : Type) : Type :=
| Return (a : A)
| Throw (msg : string).
Arguments Return {A} a.
Arguments Throw {A} msg.

Definition M (W A : Type) : Type := W -> outcome A * W.

Definition ret {W A} (a : A) : M W A := fun w => (Return a, w).

Definition throw {W A} (msg : string) : M W A := fun w => (Throw msg, w).

Definition bind {W A B} (m : M W A) (k : A -> M W B) : M W B :=
  fun w =>
    match m w with
    | (Return a, w') => k a w'
    | (Throw msg, w') => (Throw msg, w')
    end.

(** [await] of a collaborator whose result the environment fixes. *)
Definition settle {W A} (o : outcome A) : M W A := fun w => (o, w).

Definition modify {W} (f : W -> W) : M W unit := fun w => (Return tt, f w).

(** [try { body } catch (error) { handler(error.message) }] *)
Definition tryCatch {W A} (body : M W A) (handler : string -> M W A) : M W A :=
  fun w =>
    match body w with
    | (Return a, w') => (Return a, w')
    | (Throw msg, w') => handler msg w'
    end.

(** [try { body } finally { cleanup }]: an exception of the cleanup
    replaces the body's result. *)
Definition tryFinally {W A} (body : M W A) (cleanup : M W unit) : M W A :=
  fun w =>
    match body w with
    | (r, w') =>
        match cleanup w' with
        | (Return _, w'') => (r, w'')
        | (Throw msg, w'') => (Throw msg, w'')
        end
    end.

Definition when {W} (b : bool) (m : M W unit) : M W unit :=
  if b then m else ret tt.

(** [for (const x of xs) { await body(x) }] *)
Fixpoint forEachM {W A} (xs : list A) (body : A -> M W unit) : M W unit :=
  match xs with
  | [] => ret tt
  | x :: rest => bind (body x) (fun _ => forEachM rest body)
  end.

(** A loop that carries a local variable along. *)
Fixpoint foldM {W A B} (body : B -> A -> M W B) (xs : list A) (acc : B) : M W B :=
  match xs with
  | [] => ret acc
  | x :: rest => bind (body acc x) (fun acc' => foldM body rest acc')
  end.

(** A method's local variable of type [L], next to the world. *)
Definition liftW {W L A} (m : M W A) : M (W * L) A :=
  fun s =>
    match m (fst s) with
    | (o, w') => (o, (w', snd s))
    end.

Definition getLocal {W L} : M (W * L) L := fun s => (Return (snd s), s).

Definition modifyLocal {W L} (f : L -> L) : M (W * L) unit :=
  fun s => (Return tt, (fst s, f (snd s))).

(** Runs a method body that owns the local [l] and returns it at the end. *)
Definition withLocal {W L} (l : L) (body : M (W * L) unit) : M W L :=
  fun w =>
    match body (w, l) with
    | (Return _, (w', l')) => (Return l', w')
    | (Throw msg, (w', _)) => (Throw msg, w')
    end.

(** [wp m Q w]: run from [w], [m] ends in an outcome and a world that
    satisfy [Q]. *)
Definition wp {W A} (m : M W A) (Q : outcome A -> W -> Prop) (w : W) : Prop :=
  Q (fst (m w)) (snd (m w)).

Definition resolved {A} (o : outcome A) : bool :=
  match o with Return _ => true | Throw _ => false end.

Definition rejected {A} (o : outcome A) : bool := negb (resolved o).

End Eff.

Declare Scope eff_scope.
Delimit Scope eff_scope with eff.
Notation "x <- c1 ;; c2" := (Eff.bind c1 (fun x => c2))
  (at level 100, c1 at next level, right associativity) : eff_scope.
Notation "c1 ;; c2" := (Eff.bind c1 (fun _ => c2))
  (at level 100, right associativity) : eff_scope.

(** ** main/install-script-builder.ts *)

Module InstallScriptBuilder.
Import Js.

Record InstallCommand : Type := mkCommand {
  command : string;
  description : string;
  requiresSudo : bool
}.

(** The builder's private [commands] array. *)
Definition Builder : Type := list InstallCommand.

Definition create : Builder := [].

Definition addCommand (cmd desc : string) (sudo : bool) (commands : Builder) : Builder :=
  commands ++ [mkCommand cmd desc sudo].

(** [arr.forEach((cmd, index) => { ...push... })], collecting the pushes. *)
Fixpoint forEachIndexed {A} (f : A -> nat -> list string) (arr : list A) (index : nat)
  : list string :=
  match arr with
  | [] => []
  | x :: rest => f x index ++ forEachIndexed f rest (S index)
  end.

Definition header (now : Instant) : list string :=
  [ "#!/bin/bash";
    "set -e";
    EmptyString;
    "# Toji Launcher Installation Script";
    "# Generated at " +:+ toISOString now;
    EmptyString;
    "progress() {";
    "  echo " +:+ dq +:+ "PROGRESS:$1:$2" +:+ dq;
    "}";
    EmptyString ].

Definition regularStep (cmd : InstallCommand) (index : nat) : list string :=
  [ "progress " +:+ showNat (index * 10) +:+ " " +:+ dq +:+ description cmd +:+ dq;
    "echo " +:+ dq +:+ ">>> " +:+ description cmd +:+ dq;
    command cmd;
    EmptyString ].

Definition regularBlock (regularCommands : list InstallCommand) : list string :=
  match regularCommands with
  | [] => []
  | _ => "# Commands that do not require sudo"
         :: forEachIndexed regularStep regularCommands 0
  end.

Definition sudoStep (cmd : InstallCommand) (index : nat) : list string :=
  let progress := 50 + index * 10 in
  [ "echo " +:+ dq +:+ "PROGRESS:" +:+ showNat progress +:+ ":" +:+ description cmd +:+ dq;
    "echo " +:+ dq +:+ ">>> " +:+ description cmd +:+ dq;
    command cmd;
    EmptyString ].

Definition elevationLine : string := "pkexec bash " +:+ dq +:+ "$SUDO_SCRIPT" +:+ dq.
Definition cleanupLine : string := "rm -f " +:+ dq +:+ "$SUDO_SCRIPT" +:+ dq.
Definition mktempLine : string := "SUDO_SCRIPT=$(mktemp /tmp/toji-sudo-XXXXXX.sh)".
Definition heredocLine : string := "cat > " +:+ dq +:+ "$SUDO_SCRIPT" +:+ dq +:+ " << 'EOF'".

Definition sudoBlock (sudoCommands : list InstallCommand) : list string :=
  match sudoCommands with
  | [] => []
  | _ =>
      [ "# Commands that require sudo";
        "echo " +:+ dq +:+ "The following operations require administrator privileges:" +:+ dq ]
      ++ List.map (fun cmd => "echo " +:+ dq +:+ "  - " +:+ description cmd +:+ dq) sudoCommands
      ++ [ EmptyString;
           "# Create temporary sudo script";
           mktempLine;
           heredocLine;
           "#!/bin/bash";
           "set -e" ]
      ++ forEachIndexed sudoStep sudoCommands 0
      ++ [ "EOF";
           EmptyString;
           "# Run with pkexec for GUI password prompt";
           elevationLine;
           cleanupLine ]
  end.

(** The mark in front of the closing message, byte for byte as the source
    file has it. *)
Definition doneMark : string :=
  string_of_list_ascii
    (List.map ascii_of_nat [195; 162; 197; 147; 226; 128; 156]%nat).

Definition trailer : list string :=
  [ EmptyString;
    "progress 100 " +:+ dq +:+ "Installation complete" +:+ dq;
    "echo " +:+ dq +:+ doneMark +:+ " All installations completed successfully" +:+ dq ].

(** The [script] array of [buildScript]; [now] is [new Date()]. *)
Definition buildScriptLines (now : Instant) (commands : Builder) : list string :=
  let regularCommands := List.filter (fun cmd => negb (requiresSudo cmd)) commands in
  let sudoCommands := List.filter (fun cmd => requiresSudo cmd) commands in
  header now ++ regularBlock regularCommands ++ sudoBlock sudoCommands ++ trailer.

Definition buildScript (now : Instant) (commands : Builder) : string :=
  String.concat LF (buildScriptLines now commands).

(** *** Reading a script back

    A line of the script invokes the elevation mechanism when its command
    word is one of the elevation tools the capability prober looks for. *)

Definition elevationTools : list string := ["pkexec"; "sudo"].

Definition invokesElevation (line : string) : bool :=
  existsb (fun tool => String.prefix (tool +:+ " ") (trimStart line)) elevationTools.

Definition elevationInvocations (text : string) : nat :=
  length (List.filter invokesElevation (splitLF text)).


(** The builder after a sequence of [addCommand] calls. *)
Definition addAll (cmds : list InstallCommand) : Builder :=
  fold_left (fun builder cmd =>
               addCommand (command cmd) (description cmd) (requiresSudo cmd) builder)
            cmds create.

(** N: the commands added with [requiresSudo = true]. *)
Definition privilegedCount (commands : Builder) : nat :=
  length (List.filter (fun cmd => requiresSudo cmd) commands).


End InstallScriptBuilder.



(** ** main/platform/platform-service.ts: the data it declares *)

Module PlatformService.

Record OSInfo : Type := mkOSInfo {
  supported : bool;
  platform : string;
  os_version : string;
  os_details : string
}.

(** The result of [checkNodeJS] and [checkClaudeCode]. *)
Record ToolInfo : Type := mkToolInfo {
  found : bool;
  tool_version : option string;
  tool_details : option string
}.

(** [InstallProgress]; as the service builds it from partial updates,
    every field may still be unset. *)
Record InstallProgress : Type := mkProgress {
  step : option string;
  progress : option N;
  currentCommand : option string;
  ip_details : option string;
  ip_error : option string;
  logOutput : option (list string)
}.

Definition noUpdate : InstallProgress := mkProgress None None None None None None.

Definition override {A} (old new : option A) : option A :=
  match new with Some _ => new | None => old end.

(** [{ ...current, ...update }] *)
Definition spread (current : option InstallProgress) (update : InstallProgress)
  : InstallProgress :=
  match current with
  | None => update
  | Some cur =>
      mkProgress (override (step cur) (step update))
                 (override (progress cur) (progress update))
                 (override (currentCommand cur) (currentCommand update))
                 (override (ip_details cur) (ip_details update))
                 (override (ip_error cur) (ip_error update))
                 (override (logOutput cur) (logOutput update))
  end.

End PlatformService.

(** ** The launcher's main process: what it talks to and what it leaves *)

Module Main.
Import Eff PlatformService.

Inductive Status : Type := checking | found_ | missing | error_ | skipped.

Definition Status_eqb (a b : Status) : bool :=
  match a, b with
  | checking, checking | found_, found_ | missing, missing
  | error_, error_ | skipped, skipped => true
  | _, _ => false
  end.

Record SystemRequirement : Type := mkRequirement {
  name : string;
  status : Status;
  req_version : option string;
  req_details : option string;
  required : bool
}.

Inductive Method : Type := apt | npm | download | manual.

Record InstallationItem : Type := mkItem {
  item_name : string;
  method : Method;
  size : string;
  estimatedTime : string;
  item_description : string
}.

Record InstallationPlan : Type := mkPlan {
  items : list InstallationItem;
  totalTime : string;
  requiresSudo : bool;
  canAutoInstall : bool
}.

(** What the machine answers when the launcher looks at it. *)
Record Host : Type := mkHost {
  os_platform : string;                   (* os.platform() *)
  os_release : string;                    (* os.release() *)
  prettyName : outcome (option string);   (* PRETTY_NAME of /etc/os-release *)
  exec : string -> outcome string         (* execAsync(cmd): its stdout *)
}.

(** [webContents.send(channel, payload)] *)
Inductive IpcMessage : Type :=
| RequirementsUpdate (requirements : list SystemRequirement)
| InstallationProgress (p : InstallProgress)
| InstallationComplete (success : bool) (requirements : list SystemRequirement)
| InstallationError (error : string) (canRetry : bool).

(** Calls that leave the process, in the order they are made. *)
Inductive Call : Type :=
| Exec (cmd : string)
| Spawn (program : string) (arg : string).

Record World : Type := mkWorld {
  host : Host;
  disk : gmap string string;               (* files written: path and content *)
  ipc : list IpcMessage;                   (* oldest first *)
  calls : list Call;                       (* oldest first *)
  currentProgress : option InstallProgress;
  onProgressCallback : bool                (* a progress subscriber is registered *)
}.

Definition deliver (msg : IpcMessage) (w : World) : World :=
  mkWorld (host w) (disk w) (ipc w ++ [msg]) (calls w)
          (currentProgress w) (onProgressCallback w).

Definition send (msg : IpcMessage) : M World unit := modify (deliver msg).

Definition logCall (c : Call) (w : World) : World :=
  mkWorld (host w) (disk w) (ipc w) (calls w ++ [c])
          (currentProgress w) (onProgressCallback w).

Definition record (c : Call) : M World unit := modify (logCall c).

Definition setHost (h : Host) : M World unit :=
  modify (fun w => mkWorld h (disk w) (ipc w) (calls w)
                           (currentProgress w) (onProgressCallback w)).

Definition setDisk (d : gmap string string) : M World unit :=
  modify (fun w => mkWorld (host w) d (ipc w) (calls w)
                           (currentProgress w) (onProgressCallback w)).

Definition setCurrentProgress (p : InstallProgress) : M World unit :=
  modify (fun w => mkWorld (host w) (disk w) (ipc w) (calls w)
                           (Some p) (onProgressCallback w)).

(** [onProgress(callback)]: the single subscriber slot. *)
Definition onProgress : M World unit :=
  modify (fun w => mkWorld (host w) (disk w) (ipc w) (calls w)
                           (currentProgress w) true).

Definition ask {A} (f : World -> A) : M World A := fun w => (Return (f w), w).

(** The machine and the disk of [w] are those of [w0]. *)
Definition sameMachine (w0 w : World) : Prop := host w = host w0 /\ disk w = disk w0.

(** [await execAsync(cmd)] *)
Definition execAsync (cmd : string) : M World string :=
  (record (Exec cmd) ;;
   h <- ask host ;;
   settle (exec h cmd))%eff.

(** A child process, as its parent sees it: the chunks it writes, then
    how it ends. *)
Inductive Chunk : Type := Stdout (text : string) | Stderr (text : string).

(** The [close] event carries the exit code, or [null] when a signal
    ended the process; the [error] event carries a message. *)
Inductive Ending : Type := Closed (code : option Z) | Failed (message : string).

(** [code === 0] *)
Definition exitedZero (e : Ending) : bool :=
  match e with
  | Closed (Some code) => (code =? 0)%Z
  | _ => false
  end.

(** The exit code inside a template string. *)
Definition showCode (code : option Z) : string :=
  match code with
  | Some z => Js.showZ z
  | None => "null"
  end.

Record ScriptRun : Type := mkRun {
  output : list Chunk;
  ending : Ending
}.

(** What does not depend on the machine's state: the clock, the temporary
    directory, the file system's willingness, and what running a script
    does to the machine. *)
Record Env : Type := mkEnv {
  newDate : Js.Instant;                    (* new Date() *)
  dateNow : N;                             (* Date.now() *)
  tmpdir : string;                         (* os.tmpdir() *)
  writeFile : string -> outcome unit;      (* fs.promises.writeFile(path, ..) *)
  unlink : string -> outcome unit;         (* fs.promises.unlink(path) *)
  bash : string -> Host -> ScriptRun * Host  (* the script's text, the machine before *)
}.

(** The abstract class [PlatformService] of platform-service.ts, by the
    methods the setup calls; [onProgress] is the concrete method above. *)
Class PlatformService : Type := {
  getOSInfo : M World OSInfo;
  checkNodeJS : M World ToolInfo;
  checkClaudeCode : M World ToolInfo;
  installAllDependencies : list string -> M World unit
}.

(** The main process: the world its platform service acts on, and how
    often [ClaudeAuthManager.checkAuthentication] has been entered. *)
Record Session : Type := mkSession {
  world : World;
  authChecks : nat
}.

(** A computation of the platform's world, run inside the session. *)
Definition onWorld {A} (m : M World A) : M Session A :=
  fun s =>
    match m (world s) with
    | (o, w') => (o, mkSession w' (authChecks s))
    end.

End Main.

(** ** main/platform/linux-platform-service.ts *)

Module LinuxPlatformService.
Import Js Eff PlatformService Main InstallScriptBuilder.
Local Open Scope eff_scope.

Definition okMark : string :=
  string_of_list_ascii (List.map ascii_of_nat [226; 156; 147]%nat).
Definition failMark : string :=
  string_of_list_ascii (List.map ascii_of_nat [226; 156; 151]%nat).

Definition updateProgress (update : InstallProgress) : M World unit :=
  current <- ask currentProgress ;;
  let merged := spread current update in
  setCurrentProgress merged ;;
  subscribed <- ask onProgressCallback ;;
  when subscribed (send (InstallationProgress merged)).

Definition getOSInfo : M World OSInfo :=
  h <- ask host ;;
  let platform := os_platform h in
  let release := os_release h in
  if negb (platform =? "linux")%string then
    ret (mkOSInfo false platform release ("Expected Linux platform, got " +:+ platform))
  else
    let distroInfo :=
      match prettyName h with
      | Return (Some pretty) => pretty
      | _ => "Linux"
      end in
    ret (mkOSInfo true "linux" release (distroInfo +:+ " (" +:+ release +:+ ")")).

Definition checkNodeJS : M World ToolInfo :=
  tryCatch
    (versionOutput <- execAsync "node --version" ;;
     let version := trim versionOutput in
     let versionNumber := parseInt (beforeDot (substring1 version)) in
     let isAcceptableVersion :=
       match versionNumber with Some n => (14 <=? n)%Z | None => false end in
     if negb isAcceptableVersion then
       ret (mkToolInfo false (Some version)
              (Some ("Found Node.js " +:+ version +:+ " but v14+ is required")))
     else
       ret (mkToolInfo true (Some version)
              (Some ("Node.js " +:+ version +:+ " is installed"))))
    (fun _ => ret (mkToolInfo false None (Some "Node.js is not installed"))).

Definition checkClaudeCode : M World ToolInfo :=
  tryCatch
    (versionOutput <- execAsync "claude --version" ;;
     let version := trim versionOutput in
     ret (mkToolInfo true (Some version)
            (Some ("Claude Code CLI " +:+ version +:+ " is installed"))))
    (fun _ => ret (mkToolInfo false None (Some "Claude Code CLI is not installed"))).

Section Installing.
Variable env : Env.

Definition scriptPath : string :=
  path_join (tmpdir env) ("toji-install-" +:+ showNat (N.to_nat (dateNow env)) +:+ ".sh").

(** [InstallScriptBuilder.saveToFile] *)
Definition saveToFile (builder : Builder) : M World string :=
  let scriptContent := buildScript (newDate env) builder in
  settle (writeFile env scriptPath) ;;
  d <- ask disk ;;
  setDisk (<[scriptPath := scriptContent]> d) ;;
  ret scriptPath.

(** [fs.promises.unlink(path)] *)
Definition unlinkFile (path : string) : M World unit :=
  settle (unlink env path) ;;
  d <- ask disk ;;
  setDisk (delete path d).

Definition logUpdate (log : list string) : InstallProgress :=
  mkProgress None None None None None (Some log).

(** The [stdout] handler of [runInstallScript]; [logOutput] is the local
    array the handlers push to. *)
Definition onStdout (text : string) (logOutput : list string) : M World (list string) :=
  match matchSentinel text with
  | Some (percent, label) =>
      updateProgress
        (mkProgress None (option_map Z.to_N (parseInt percent)) (Some label) None None None)
  | None => ret tt
  end ;;
  let lines := List.filter (fun line => truthy (trim line)) (splitLF text) in
  foldM (fun log line =>
           if String.prefix "PROGRESS:" line then ret log
           else
             let log' := log ++ [line] in
             updateProgress (logUpdate log') ;;
             ret log')
        lines logOutput.

(** The [stderr] handler. *)
Definition onStderr (text : string) (logOutput : list string) : M World (list string) :=
  if truthy (trim text) && negb (includesSub "[sudo]" text) then
    let log' := logOutput ++ ["stderr: " +:+ trim text] in
    updateProgress (logUpdate log') ;;
    ret log'
  else ret logOutput.

Definition onChunk (state : list string * string) (chunk : Chunk)
  : M World (list string * string) :=
  match chunk with
  | Stdout text =>
      log' <- onStdout text (fst state) ;;
      ret (log', snd state)
  | Stderr text =>
      log' <- onStderr text (fst state) ;;
      ret (log', snd state +:+ text)
  end.

Definition runInstallScript (scriptPath description : string) : M World unit :=
  current <- ask currentProgress ;;
  let logOutput :=
    match current with
    | Some p => match PlatformService.logOutput p with Some log => log | None => [] end
    | None => []
    end in
  updateProgress
    (mkProgress None None (Some description) None None
       (Some (logOutput ++ [">>> " +:+ description]))) ;;
  record (Spawn "bash" scriptPath) ;;
  h <- ask host ;;
  d <- ask disk ;;
  let '(run, h') :=
    match d !! scriptPath with
    | Some text => bash env text h
    | None => (mkRun [] (Closed (Some 127%Z)), h)
    end in
  setHost h' ;;
  state <- foldM onChunk (output run) (logOutput, EmptyString) ;;
  let '(logOutput, stderr) := state in
  match ending run with
  | Closed code =>
      if exitedZero (Closed code) then
        updateProgress
          (logUpdate (logOutput ++ [okMark +:+ " " +:+ description +:+ " completed successfully"]))
      else
        let error := "Installation failed with code " +:+ showCode code +:+ ": " +:+ stderr in
        updateProgress
          (mkProgress None None None None (Some error)
             (Some (logOutput ++ [failMark +:+ " " +:+ error]))) ;;
        throw error
  | Failed message =>
      updateProgress
        (mkProgress None None None None (Some message)
           (Some (logOutput ++ [failMark +:+ " Script error: " +:+ message]))) ;;
      throw message
  end.

(** The commands [installAllDependencies] hands to the builder. *)
Definition installCommands (missingDeps : list string) : Builder :=
  let builder := create in
  let builder :=
    if includes missingDeps "Node.js" then
      addCommand "apt-get install -y nodejs npm" "Installing Node.js and npm" true
        (addCommand "apt-get update" "Updating package list" true builder)
    else builder in
  if includes missingDeps "Claude Code CLI" then
    addCommand "npm install -g @anthropic-ai/claude-code" "Installing Claude Code CLI" true
      builder
  else builder.

(** [try { await execAsync(probe) } catch { throw new Error(message) }] *)
Definition verify (probe message : string) : M World unit :=
  tryCatch (_ <- execAsync probe ;; ret tt) (fun _ => throw message).

Definition installAllDependencies (missingDeps : list string) : M World unit :=
  updateProgress
    (mkProgress (Some "Preparing installation") (Some 0%N) None
       (Some "Building installation script...") None (Some [])) ;;
  scriptPath <- saveToFile (installCommands missingDeps) ;;
  tryFinally
    (runInstallScript scriptPath "Installing all dependencies" ;;
     when (includes missingDeps "Node.js")
       (verify "node --version" "Node.js installation verification failed") ;;
     when (includes missingDeps "Claude Code CLI")
       (verify "claude --version" "Claude Code CLI installation verification failed") ;;
     updateProgress
       (mkProgress (Some "Installation complete") (Some 100%N) None
          (Some "All dependencies installed successfully") None None))
    (unlinkFile scriptPath).

End Installing.

(** [new LinuxPlatformService()] *)
Definition service (env : Env) : PlatformService :=
  Build_PlatformService getOSInfo checkNodeJS checkClaudeCode (installAllDependencies env).

End LinuxPlatformService.

(** ** main/platform/windows-platform-service.ts (a placeholder) *)

Module WindowsPlatformService.
Import Eff PlatformService Main.

Definition service : PlatformService :=
  Build_PlatformService
    (ret (mkOSInfo false "win32" "unknown"
            "Windows support not yet implemented (coming in Phase 2)"))
    (ret (mkToolInfo false None (Some "Windows Node.js detection not yet implemented")))
    (ret (mkToolInfo false None (Some "Windows Claude Code detection not yet implemented")))
    (fun _ => throw "Windows dependency installation not yet implemented").

End WindowsPlatformService.

(** ** main/platform/macos-platform-service.ts (a placeholder) *)

Module MacOSPlatformService.
Import Eff PlatformService Main.

Definition service : PlatformService :=
  Build_PlatformService
    (ret (mkOSInfo false "darwin" "unknown"
            "macOS support not yet implemented (coming in Phase 3)"))
    (ret (mkToolInfo false None (Some "macOS Node.js detection not yet implemented")))
    (ret (mkToolInfo false None (Some "macOS Claude Code detection not yet implemented")))
    (fun _ => throw "macOS dependency installation not yet implemented").

End MacOSPlatformService.

(** [getPlatformService()], by [process.platform]. *)
Definition getPlatformService (env : Main.Env) (processPlatform : string)
  : Eff.outcome Main.PlatformService :=
  if (processPlatform =? "linux")%string then Eff.Return (LinuxPlatformService.service env)
  else if (processPlatform =? "win32")%string then Eff.Return WindowsPlatformService.service
  else if (processPlatform =? "darwin")%string then Eff.Return MacOSPlatformService.service
  else Eff.Throw ("Unsupported platform: " +:+ processPlatform
                  +:+ ". Supported platforms: linux, win32, darwin").

(** ** main/claude-auth.ts *)

Module ClaudeAuthManager.
Import Js Eff Main.
Local Open Scope eff_scope.

Record AuthInfo : Type := mkAuth {
  authenticated : bool;
  auth_details : option string
}.

Definition sayYes : string :=
  "echo " +:+ dq +:+ dq +:+ " | claude -p " +:+ dq +:+ "say yes" +:+ dq +:+ " --print".

(** The body of [checkAuthentication]. *)
Definition probeAuthentication : M World AuthInfo :=
  tryCatch
    (installed <- tryCatch (_ <- execAsync "claude --version" ;; ret true)
                           (fun _ => ret false) ;;
     if negb installed then
       ret (mkAuth false (Some "Claude Code CLI is not installed"))
     else
       tryCatch
         (stdout <- execAsync sayYes ;;
          if truthy stdout then
            ret (mkAuth true (Some "Claude Code CLI is authenticated and working"))
          else
            ret (mkAuth false (Some "Claude Code CLI is installed but not authenticated")))
         (fun errorMessage =>
            if includesSub "login" errorMessage || includesSub "auth" errorMessage then
              ret (mkAuth false
                     (Some "Claude Code CLI requires authentication - please log in"))
            else
              ret (mkAuth false
                     (Some "Claude Code CLI is installed but not authenticated"))))
    (fun message =>
       ret (mkAuth false (Some ("Error checking Claude authentication: " +:+ message)))).

Definition checkAuthentication : M Session AuthInfo :=
  modify (fun s => mkSession (world s) (S (authChecks s))) ;;
  onWorld probeAuthentication.

End ClaudeAuthManager.

(** ** main/system-setup.ts *)

Module SystemSetup.
Import Js Eff PlatformService Main.
Local Open Scope eff_scope.

Definition initialRequirements : list SystemRequirement :=
  [ mkRequirement "Operating System" checking None None true;
    mkRequirement "Node.js" checking None None true;
    mkRequirement "Claude Code CLI" checking None None true;
    mkRequirement "Claude Authentication" checking None None true ].

Definition withStatus (s : Status) (r : SystemRequirement) : SystemRequirement :=
  mkRequirement (name r) s (req_version r) (req_details r) (required r).

Definition withVersion (v : option string) (r : SystemRequirement) : SystemRequirement :=
  mkRequirement (name r) (status r) v (req_details r) (required r).

Definition withDetails (d : option string) (r : SystemRequirement) : SystemRequirement :=
  mkRequirement (name r) (status r) (req_version r) d (required r).

(** The state of [checkAllRequirements]: the session and the method's
    [requirements] array, whose elements the loop mutates in place. *)
Definition Checking : Type := (Session * list SystemRequirement)%type.

(** [requirements[i].field = value] *)
Definition assign (i : nat) (change : SystemRequirement -> SystemRequirement)
  : M Checking unit :=
  modifyLocal (fun requirements : list SystemRequirement =>
                 match requirements !! i with
                 | Some req => <[i := change req]> requirements
                 | None => requirements
                 end).

(** [webContents.send('system-setup:requirements-update', [...requirements])] *)
Definition sendUpdate : M Checking unit :=
  requirements <- getLocal ;;
  liftW (onWorld (send (RequirementsUpdate requirements))).

Definition toolStatus (info : ToolInfo) : Status :=
  if PlatformService.found info then found_ else missing.

Section Checking.
Context {platformService : PlatformService}.

(** The [switch (req.name)] of the loop body, inside its [try]. *)
Definition checkRequirement (i : nat) (reqName : string) : M Checking unit :=
  if (reqName =? "Operating System")%string then
    osInfo <- liftW (onWorld getOSInfo) ;;
    assign i (withStatus (if supported osInfo then found_ else error_)) ;;
    assign i (withVersion (Some (os_version osInfo))) ;;
    assign i (withDetails (Some (os_details osInfo)))
  else if (reqName =? "Node.js")%string then
    nodeInfo <- liftW (onWorld checkNodeJS) ;;
    assign i (withStatus (toolStatus nodeInfo)) ;;
    assign i (withVersion (tool_version nodeInfo)) ;;
    assign i (withDetails (tool_details nodeInfo))
  else if (reqName =? "Claude Code CLI")%string then
    claudeInfo <- liftW (onWorld checkClaudeCode) ;;
    assign i (withStatus (toolStatus claudeInfo)) ;;
    assign i (withVersion (tool_version claudeInfo)) ;;
    assign i (withDetails (tool_details claudeInfo))
  else if (reqName =? "Claude Authentication")%string then
    requirements <- getLocal ;;
    let claudeReq :=
      List.find (fun r => (name r =? "Claude Code CLI")%string) requirements in
    let claudeFound :=
      match claudeReq with
      | Some r => Status_eqb (status r) found_
      | None => false
      end in
    if negb claudeFound then
      assign i (withStatus skipped) ;;
      assign i (withDetails (Some "Skipped - Claude Code CLI not installed"))
    else
      assign i (withDetails
                  (Some "Verifying Claude authentication (this may take up to 30 seconds)...")) ;;
      sendUpdate ;;
      authInfo <- liftW ClaudeAuthManager.checkAuthentication ;;
      assign i (withStatus
                  (if ClaudeAuthManager.authenticated authInfo then found_ else missing)) ;;
      assign i (withDetails (ClaudeAuthManager.auth_details authInfo))
  else ret tt.

(** One turn of [for (let i = 0; i < requirements.length; i++)]. *)
Definition checkAt (i : nat) : M Checking unit :=
  requirements <- getLocal ;;
  match requirements !! i with
  | None => ret tt
  | Some req =>
      tryCatch (checkRequirement i (name req))
        (fun message =>
           assign i (withStatus error_) ;;
           assign i (withDetails (Some ("Check failed: " +:+ message)))) ;;
      sendUpdate
  end.

Definition checkAllRequirements : M Session (list SystemRequirement) :=
  withLocal initialRequirements
    (sendUpdate ;;
     forEachM (seq 0 (length initialRequirements)) checkAt).

End Checking.

Definition nodeItem : InstallationItem :=
  mkItem "Node.js" apt "~15MB" "2-3 minutes"
    "JavaScript runtime required for Claude Code CLI".

Definition claudeItem : InstallationItem :=
  mkItem "Claude Code CLI" npm "~5MB" "1-2 minutes"
    "Anthropic's command-line interface for Claude".

(** The locals of [createInstallationPlan] after one turn of its loop. *)
Definition planStep (acc : list InstallationItem * bool * nat) (req : SystemRequirement)
  : list InstallationItem * bool * nat :=
  let '(items, requiresSudo, totalTimeMinutes) := acc in
  if (name req =? "Node.js")%string then
    (items ++ [nodeItem], true, totalTimeMinutes + 3)%nat
  else if (name req =? "Claude Code CLI")%string then
    (items ++ [claudeItem], requiresSudo, totalTimeMinutes + 2)%nat
  else acc.

Definition createInstallationPlan (missingRequirements : list SystemRequirement)
  : InstallationPlan :=
  let '(items, requiresSudo, totalTimeMinutes) :=
    fold_left planStep
      (List.filter (fun r => Status_eqb (status r) missing) missingRequirements)
      ([], false, 0%nat) in
  mkPlan items
    (showNat totalTimeMinutes +:+ "-" +:+ showNat (totalTimeMinutes + 2) +:+ " minutes")
    requiresSudo
    (0 <? length items)%nat.

(** The status of the requirement called [reqName]. *)
Definition statusOf (reqName : string) (requirements : list SystemRequirement)
  : option Status :=
  option_map status (List.find (fun r => (name r =? reqName)%string) requirements).

(** *** Reading a plan *)

(** The names the planner has an installation method for. *)
Definition knownName (reqName : string) : bool :=
  (reqName =? "Node.js")%string || (reqName =? "Claude Code CLI")%string.

(** The item one missing requirement adds. *)
Definition itemFor (req : SystemRequirement) : list InstallationItem :=
  if (name req =? "Node.js")%string then [nodeItem]
  else if (name req =? "Claude Code CLI")%string then [claudeItem]
  else [].

Definition isApt (item : InstallationItem) : bool :=
  match method item with apt => true | _ => false end.

Section Executing.
Context {platformService : PlatformService}.

Definition executeInstallationPlan (plan : InstallationPlan) : M Session bool :=
  onWorld onProgress ;;
  tryCatch
    (let missingDeps := List.map item_name (items plan) in
     onWorld (installAllDependencies missingDeps) ;;
     (* this.installationAttempted = true: a flag nothing reads *)
     finalCheck <- checkAllRequirements ;;
     let allInstalled :=
       forallb (fun req => Status_eqb (status req) found_
                           || Status_eqb (status req) skipped
                           || negb (required req))
               finalCheck in
     onWorld (send (InstallationComplete allInstalled finalCheck)) ;;
     ret allInstalled)
    (fun message =>
       onWorld (send (InstallationError message true)) ;;
       ret false).

End Executing.

End SystemSetup.

(** ** Node's [path.extname] (POSIX), as lib/path.js computes it: one scan
    of the path from its last character to its first. *)

Module NodePath.

Record Scan : Type := mkScan {
  startDot : Z;
  startPart : Z;
  endAt : Z;
  matchedSlash : bool;
  preDotState : Z;
  stopped : bool
}.

Definition scanStart : Scan := mkScan (-1) 0 (-1) true 0 false.

(** The body of the loop at index [i], whose character is [code]. *)
Definition scanStep (st : Scan) (i : Z) (code : ascii) : Scan :=
  if stopped st then st
  else if Ascii.eqb code "/"%char then
    if negb (matchedSlash st) then
      mkScan (startDot st) (i + 1) (endAt st) (matchedSlash st) (preDotState st) true
    else st
  else
    let st :=
      if (endAt st =? -1)%Z then
        mkScan (startDot st) (startPart st) (i + 1) false (preDotState st) false
      else st in
    if Ascii.eqb code "."%char then
      if (startDot st =? -1)%Z then
        mkScan i (startPart st) (endAt st) (matchedSlash st) (preDotState st) false
      else if negb (preDotState st =? 1)%Z then
        mkScan (startDot st) (startPart st) (endAt st) (matchedSlash st) 1 false
      else st
    else if negb (startDot st =? -1)%Z then
      mkScan (startDot st) (startPart st) (endAt st) (matchedSlash st) (-1) false
    else st.

(** Characters with their indices, last first. *)
Fixpoint indexedRev (s : string) (i : Z) (acc : list (Z * ascii)) : list (Z * ascii) :=
  match s with
  | EmptyString => acc
  | String c rest => indexedRev rest (i + 1) ((i, c) :: acc)
  end.

(** [s.slice(from, to)] for [0 <= from <= to]. *)
Definition slice (s : string) (from to : Z) : string :=
  String.substring (Z.to_nat from) (Z.to_nat (to - from)) s.

Definition extname (path : string) : string :=
  let st := fold_left (fun st ic => scanStep st (fst ic) (snd ic))
                      (indexedRev path 0 []) scanStart in
  if (startDot st =? -1)%Z
     || (endAt st =? -1)%Z
     || (preDotState st =? 0)%Z
     || ((preDotState st =? 1)%Z
         && (startDot st =? endAt st - 1)%Z
         && (startDot st =? startPart st + 1)%Z)
  then EmptyString
  else slice path (startDot st) (endAt st).

End NodePath.

(** ** main/bot-downloader.ts *)

Module BotDownloader.
Import Js Eff.
Local Open Scope eff_scope.

Inductive Stage : Type :=
| checking | downloading | extracting | verifying | complete | error.

Definition Stage_eqb (a b : Stage) : bool :=
  match a, b with
  | checking, checking | downloading, downloading | extracting, extracting
  | verifying, verifying | complete, complete | error, error => true
  | _, _ => false
  end.

Record DownloadProgress : Type := mkDownloadProgress {
  stage : Stage;
  progress : Q;
  totalBytes : option N;
  downloadedBytes : option N;
  message : string;
  dp_error : option string
}.

Record BotRelease : Type := mkRelease {
  version : string;
  downloadUrl : string;
  size : N;
  checksum : option string
}.

(** How a stream that is piped into the destination file ends: the
    file's [finish] event, or an [error] event the source listens to. *)
Inductive TransferEnd : Type := Finished | Errored (message : string).

(** The lengths of the chunks the [data] handler sees (a stream hands over
    no empty chunk), then the end. *)
Record Transfer : Type := mkTransfer {
  chunks : list positive;
  transferEnd : TransferEnd
}.

Record Response : Type := mkResponse {
  statusCode : nat;
  location : option string;
  body : Transfer
}.

Inductive HttpResult : Type :=
| RequestError (message : string)
| Answered (response : Response).

(** The collaborators of one download.  The request that follows a
    redirect has no [error] listener in the source; the environment
    answers it.  The [error] listeners remove the partial file with
    [fs.unlinkSync]; the file was created by the same call, and the removal
    is taken to succeed. *)
Record Env : Type := mkEnv {
  dirname : string;                                   (* __dirname *)
  homedir : string;                                   (* os.homedir() *)
  tmpdir : string;                                    (* os.tmpdir() *)
  statLocalBundle : string -> option N;               (* fs.statSync(path).size *)
  mkdir : string -> outcome unit;                     (* mkdir(dir, recursive) *)
  readLocal : string -> Transfer;                     (* createReadStream(path) *)
  httpsGet : string -> HttpResult;                    (* https.get(url) *)
  httpsGetRedirect : string -> Response;              (* https.get(redirectUrl) *)
  tarExtract : string -> string -> list (string * bool) * outcome unit;
                                                      (* tar.extract: what it wrote under cwd
                                                         (name, executable bit), how it ended *)
  unlinkSync : string -> outcome unit;
  chmodSync : string -> outcome unit
}.

(** What a download leaves behind: the progress events sent to the
    renderer, oldest first, and the files on disk with their executable
    bit. *)
Record World : Type := mkWorld {
  sent : list DownloadProgress;
  files : gmap string bool
}.

Definition updateProgress (p : DownloadProgress) : M World unit :=
  modify (fun w => mkWorld (sent w ++ [p]) (files w)).

Definition setFiles (f : gmap string bool -> gmap string bool) : M World unit :=
  modify (fun w => mkWorld (sent w) (f (files w))).

Definition ask {A} (f : World -> A) : M World A := fun w => (Return (f w), w).

Section Downloading.
Variable env : Env.

Definition botDirectory : string := path_join (path_join (homedir env) ".toji") "bot".

Definition botExecutable : string := path_join botDirectory "toji-bot".

(** [accessAsync(botExecutable, X_OK)] succeeds on an executable file. *)
Definition checkBotInstalled : M World bool :=
  present <- ask files ;;
  ret (match present !! botExecutable with Some true => true | _ => false end).

Definition getLatestRelease : M World BotRelease :=
  let localBundlePath :=
    path_join (path_join (dirname env) "bot") "toji-bot-linux-x64.tar.gz" in
  match statLocalBundle env localBundlePath with
  | Some bytes => ret (mkRelease "v1.0.0-local" ("file://" +:+ localBundlePath) bytes None)
  | None =>
      ret (mkRelease "v1.0.0"
             "https://github.com/yourusername/toji/releases/download/v1.0.0/toji-bot-linux.tar.gz"
             (14 * 1024 * 1024)%N None)
  end.

Definition bytesQ (n : N) : Q := inject_Z (Z.of_N n).

(** [Math.round(bytes / 1024 / 1024)] *)
Definition megabytes (bytes : N) : string :=
  showZ (Math_round (bytesQ bytes / 1024 / 1024)).

(** [Math.min(Math.round((downloadedBytes / totalSize) * 100) * 0.5, 50)];
    with [totalSize = 0] the quotient is [Infinity] and the minimum 50. *)
Definition downloadPercent (downloadedBytes totalSize : N) : Q :=
  if (totalSize =? 0)%N then 50
  else
    let progress := Math_round (bytesQ downloadedBytes / bytesQ totalSize * 100) in
    Qmin (inject_Z progress * (1 # 2)) 50.

(** The [data] handlers: one progress event per chunk. *)
Definition onData (verb : string) (totalSize : N) (downloadedBytes : N) (chunk : positive)
  : M World N :=
  let downloadedBytes := (downloadedBytes + Npos chunk)%N in
  updateProgress
    (mkDownloadProgress downloading
       (downloadPercent downloadedBytes totalSize)
       (Some totalSize) (Some downloadedBytes)
       (verb +:+ " " +:+ megabytes downloadedBytes +:+ "MB / " +:+ megabytes totalSize +:+ "MB")
       None) ;;
  ret downloadedBytes.

Definition handleDownloadResponse (response : Response) (destination : string)
  (totalSize : N) : M World unit :=
  _ <- foldM (onData "Downloading..." totalSize) (chunks (body response)) 0%N ;;
  match transferEnd (body response) with
  | Finished => ret tt
  | Errored message =>
      setFiles (delete destination) ;;
      throw message
  end.

Definition downloadFile (url destination : string) (totalSize : N) : M World unit :=
  if String.prefix "file://" url then
    let sourcePath := dropString 7 url in
    let stream := readLocal env sourcePath in
    setFiles (insert destination false) ;;
    _ <- foldM (onData "Copying local bundle..." totalSize) (chunks stream) 0%N ;;
    match transferEnd stream with
    | Finished => ret tt
    | Errored message => throw message
    end
  else
    setFiles (insert destination false) ;;
    match httpsGet env url with
    | RequestError message =>
        setFiles (delete destination) ;;
        throw message
    | Answered response =>
        if ((statusCode response =? 301) || (statusCode response =? 302))%nat then
          match location response with
          | Some redirectUrl =>
              handleDownloadResponse (httpsGetRedirect env redirectUrl) destination totalSize
          | None => throw "Redirect without location header"
          end
        else if (statusCode response =? 200)%nat then
          handleDownloadResponse response destination totalSize
        else
          throw ("Download failed with status " +:+ showNat (statusCode response))
    end.

Definition extractArchive (archivePath destination : string) : M World unit :=
  let extension := NodePath.extname archivePath in
  if ((extension =? ".gz") || (extension =? ".tar"))%string then
    let '(written, result) := tarExtract env archivePath destination in
    setFiles (fun present =>
                fold_left (fun acc entry => <[path_join destination (fst entry) := snd entry]> acc)
                          written present) ;;
    settle result
  else if (extension =? ".zip")%string then
    throw "ZIP extraction not yet implemented"
  else
    throw ("Unsupported archive format: " +:+ extension).

Definition downloadPath : string := path_join (tmpdir env) "toji-bot-download.tar.gz".

Definition completeEvent : DownloadProgress :=
  mkDownloadProgress complete 100 None None "Bot installed successfully!" None.

Definition errorEvent (message : string) : DownloadProgress :=
  mkDownloadProgress error 0 None None "Bot download failed" (Some message).

(** The [try] block of [downloadBot]. *)
Definition pipeline : M World bool :=
  updateProgress
    (mkDownloadProgress checking 0 None None "Checking for latest bot version..." None) ;;
  release <- getLatestRelease ;;
  settle (mkdir env botDirectory) ;;
  updateProgress
    (mkDownloadProgress downloading 0 (Some (size release)) (Some 0%N)
       ("Downloading bot " +:+ version release +:+ " (" +:+ megabytes (size release)
          +:+ "MB)...")
       None) ;;
  downloadFile (downloadUrl release) downloadPath (size release) ;;
  updateProgress (mkDownloadProgress extracting 50 None None "Extracting bot files..." None) ;;
  extractArchive downloadPath botDirectory ;;
  settle (unlinkSync env downloadPath) ;;
  setFiles (delete downloadPath) ;;
  updateProgress
    (mkDownloadProgress verifying 90 None None "Verifying bot installation..." None) ;;
  isInstalled <- checkBotInstalled ;;
  if negb isInstalled then throw "Bot verification failed - executable not found"
  else
    settle (chmodSync env botExecutable) ;;
    setFiles (insert botExecutable true) ;;
    updateProgress completeEvent ;;
    ret true.

Definition downloadBot : M World bool :=
  tryCatch pipeline
    (fun message =>
       updateProgress (errorEvent message) ;;
       ret false).

(** One run of [downloadBot], started with no event sent yet. *)
Definition downloadEvents (present : gmap string bool) : list DownloadProgress :=
  sent (snd (downloadBot (mkWorld [] present))).

(** The events the [data] handlers send for a stream of chunks, the
    first of which arrives after [downloadedBytes] bytes. *)
Fixpoint chunkEvents (verb : string) (totalSize downloadedBytes : N) (chunks : list positive)
  : list DownloadProgress :=
  match chunks with
  | [] => []
  | chunk :: rest =>
      let downloadedBytes := (downloadedBytes + Npos chunk)%N in
      mkDownloadProgress downloading
        (downloadPercent downloadedBytes totalSize)
        (Some totalSize) (Some downloadedBytes)
        (verb +:+ " " +:+ megabytes downloadedBytes +:+ "MB / " +:+ megabytes totalSize +:+ "MB")
        None
      :: chunkEvents verb totalSize downloadedBytes rest
  end.

End Downloading.

(** *** Reading a run *)

Definition percents (events : list DownloadProgress) : list Q := List.map progress events.

(** Each value is at least [floor] and at least the one before it. *)
Fixpoint climbs (floor : Q) (qs : list Q) : Prop :=
  match qs with
  | [] => True
  | q :: rest => (floor <= q)%Q /\ climbs q rest
  end.

Definition nondecreasing (qs : list Q) : Prop :=
  match qs with
  | [] => True
  | q :: rest => climbs q rest
  end.

Definition isError (e : DownloadProgress) : bool := Stage_eqb (stage e) error.

(** What [m] sends: nothing. *)
Definition silent {A} (m : M World A) : Prop :=
  forall w, sent (snd (m w)) = sent w.

(** The events of a run other than its [error] event. *)
Definition beforeError (events : list DownloadProgress) : list DownloadProgress :=
  List.filter (fun e => negb (isError e)) events.

(** A [downloading] event is the opening one (nothing downloaded, 0) or
    carries the scaled ratio of its own byte counts. *)
Definition scaled (e : DownloadProgress) : Prop :=
  (downloadedBytes e = Some 0%N /\ (progress e == 0)%Q)
  \/ (exists received total,
        downloadedBytes e = Some received /\ totalBytes e = Some total
        /\ progress e = downloadPercent received total).

(** What holds of every event a run sends before it fails or completes. *)
Definition wellStaged (e : DownloadProgress) : Prop :=
  stage e <> error
  /\ (0 <= progress e)%Q
  /\ ((progress e == 100)%Q -> stage e = complete)
  /\ (stage e = downloading -> (progress e <= 50)%Q /\ scaled e)
  /\ ((50 < progress e)%Q -> stage e = verifying \/ stage e = complete).

(** The events sent so far climb from 0, stay within [ceiling], and are
    well staged. *)
Definition Ascending (ceiling : Q) (events : list DownloadProgress) : Prop :=
  (0 <= ceiling)%Q
  /\ climbs 0 (percents events)
  /\ Forall (fun e => (progress e <= ceiling)%Q) events
  /\ Forall wellStaged events.

End BotDownloader.

(** ** Running a generated script

    What bash does with the constructs the builder emits: comments, the
    [progress] function, [echo], [set -e], [mktemp], a here-document,
    the elevated run of the sub-script and its removal.  Every other line
    is a command of the caller's, whose exit status the machine decides.
    Under [set -e] the script ends at the first command that fails. *)

Module Shell.
Import Js InstallScriptBuilder.

Record Machine : Type := mkMachine {
  freshTemp : string;             (* the name mktemp hands out *)
  elevated : nat;                 (* exit status of the elevated sub-script run *)
  commandStatus : string -> nat   (* exit status of any other command line *)
}.

Record State : Type := mkState {
  errexit : bool;                 (* set -e is in force *)
  inFunction : bool;              (* between "progress() {" and its closing brace *)
  inHeredoc : bool;               (* between the here-document line and EOF *)
  sudoScript : option string;     (* $SUDO_SCRIPT *)
  tempFiles : gset string;        (* temporary files that exist *)
  exited : option nat             (* the script is over, with this status *)
}.

Definition initial (existing : gset string) : State :=
  mkState false false false None existing None.

(** A simple command has run with status [status]. *)
Definition afterCommand (st : State) (status : nat) : State :=
  if negb (status =? 0)%nat && errexit st then
    mkState (errexit st) (inFunction st) (inHeredoc st) (sudoScript st) (tempFiles st)
            (Some status)
  else st.

Definition step (m : Machine) (st : State) (line : string) : State :=
  match exited st with
  | Some _ => st
  | None =>
      if inHeredoc st then
        if (line =? "EOF")%string then
          mkState (errexit st) (inFunction st) false (sudoScript st) (tempFiles st) None
        else st
      else if inFunction st then
        if (line =? "}")%string then
          mkState (errexit st) false (inHeredoc st) (sudoScript st) (tempFiles st) None
        else st
      else if (line =? EmptyString)%string || String.prefix "#" line then st
      else if (line =? "set -e")%string then
        mkState true (inFunction st) (inHeredoc st) (sudoScript st) (tempFiles st) None
      else if (line =? "progress() {")%string then
        mkState (errexit st) true (inHeredoc st) (sudoScript st) (tempFiles st) None
      else if (line =? mktempLine)%string then
        mkState (errexit st) (inFunction st) (inHeredoc st) (Some (freshTemp m))
                (tempFiles st ∪ {[ freshTemp m ]}) None
      else if (line =? heredocLine)%string then
        mkState (errexit st) (inFunction st) true (sudoScript st) (tempFiles st) None
      else if (line =? elevationLine)%string then afterCommand st (elevated m)
      else if (line =? cleanupLine)%string then
        match sudoScript st with
        | Some path =>
            mkState (errexit st) (inFunction st) (inHeredoc st) (sudoScript st)
                    (tempFiles st ∖ {[ path ]}) None
        | None => st
        end
      else if String.prefix "echo " line || String.prefix "progress " line then st
      else afterCommand st (commandStatus m line)
  end.

(** [bash script]: the exit status and the temporary files left. *)
Definition run (m : Machine) (script : string) (existing : gset string) : nat * gset string :=
  let final := fold_left (step m) (splitLF script) (initial existing) in
  (match exited final with Some status => status | None => 0%nat end, tempFiles final).

End Shell.

(** ** Example inputs *)

Module Examples.
Import Js Eff.

Definition now : Instant := mkInstant 2024 1 15 10 30 0 0.

Definition aptUpdate : InstallScriptBuilder.InstallCommand :=
  InstallScriptBuilder.mkCommand "apt-get update" "Updating package list" true.


(** The consent dialog is dismissed: pkexec exits with 126. *)
Definition dismissed : Shell.Machine :=
  Shell.mkMachine "/tmp/toji-sudo-a1B2c3.sh" 126 (fun _ => 0%nat).

Definition consenting : Shell.Machine :=
  Shell.mkMachine "/tmp/toji-sudo-a1B2c3.sh" 0 (fun _ => 0%nat).


Definition claudeMissing : Main.SystemRequirement :=
  Main.mkRequirement "Claude Code CLI" Main.missing None
    (Some "Claude Code CLI is not installed") true.

Definition nodeMissing : Main.SystemRequirement :=
  Main.mkRequirement "Node.js" Main.missing None (Some "Node.js is not installed") true.

Definition authSkipped : Main.SystemRequirement :=
  Main.mkRequirement "Claude Authentication" Main.skipped None
    (Some "Skipped - Claude Code CLI not installed") true.

(** A machine with Node.js 20 and an authenticated Claude Code CLI. *)
Definition readyHost : Main.Host :=
  Main.mkHost "linux" "6.8.0-45-generic" (Return (Some "Ubuntu 24.04.1 LTS"))
    (fun cmd =>
       if (cmd =? "node --version")%string then Return ("v20.11.0" +:+ LF)
       else if (cmd =? "claude --version")%string then Return ("1.0.17 (Claude Code)" +:+ LF)
       else if (cmd =? ClaudeAuthManager.sayYes)%string then Return ("Yes" +:+ LF)
       else Throw "Command failed").

(** A machine with neither. *)
Definition bareHost : Main.Host :=
  Main.mkHost "linux" "6.8.0-45-generic" (Return (Some "Ubuntu 24.04.1 LTS"))
    (fun cmd => Throw ("Command failed: " +:+ cmd)).

(** A script that reports success and changes nothing on the machine. *)
Definition idleEnv : Main.Env :=
  Main.mkEnv now 1705314600000 "/tmp"
    (fun _ => Return tt) (fun _ => Return tt)
    (fun _ h =>
       (Main.mkRun [Main.Stdout ("PROGRESS:100:Installation complete" +:+ LF)]
                   (Main.Closed (Some 0%Z)), h)).

Definition freshWorld (h : Main.Host) : Main.World :=
  Main.mkWorld h ∅ [] [] None false.

Definition freshSession (h : Main.Host) : Main.Session :=
  Main.mkSession (freshWorld h) 0.

(** A pre-staged local bundle of 3 MiB, read in three chunks, that
    unpacks to an executable [toji-bot]. *)
Definition localEnv : BotDownloader.Env :=
  BotDownloader.mkEnv "/opt/toji-launcher/dist" "/home/user" "/tmp"
    (fun _ => Some 3145728%N)
    (fun _ => Return tt)
    (fun _ => BotDownloader.mkTransfer [1048576; 1048576; 1048576]%positive
                BotDownloader.Finished)
    (fun _ => BotDownloader.RequestError "getaddrinfo ENOTFOUND github.com")
    (fun _ => BotDownloader.mkResponse 404 None
                (BotDownloader.mkTransfer [] BotDownloader.Finished))
    (fun _ _ => ([("toji-bot", true)], Return tt))
    (fun _ => Return tt)
    (fun _ => Return tt).

(** The same bundle, but the archive does not unpack. *)
Definition corruptEnv : BotDownloader.Env :=
  BotDownloader.mkEnv "/opt/toji-launcher/dist" "/home/user" "/tmp"
    (fun _ => Some 3145728%N)
    (fun _ => Return tt)
    (fun _ => BotDownloader.mkTransfer [1048576; 1048576; 1048576]%positive
                BotDownloader.Finished)
    (fun _ => BotDownloader.RequestError "getaddrinfo ENOTFOUND github.com")
    (fun _ => BotDownloader.mkResponse 404 None
                (BotDownloader.mkTransfer [] BotDownloader.Finished))
    (fun _ _ => ([], Throw "TAR_BAD_ARCHIVE: Unrecognized archive format"))
    (fun _ => Return tt)
    (fun _ => Return tt).

(** No local bundle; the release server redirects once and then sends
    the 14 MiB bundle in two chunks. *)
Definition remoteEnv : BotDownloader.Env :=
  BotDownloader.mkEnv "/opt/toji-launcher/dist" "/home/user" "/tmp"
    (fun _ => None)
    (fun _ => Return tt)
    (fun _ => BotDownloader.mkTransfer [] (BotDownloader.Errored "ENOENT"))
    (fun _ => BotDownloader.Answered
                (BotDownloader.mkResponse 302 (Some "https://objects.example/toji-bot.tar.gz")
                   (BotDownloader.mkTransfer [] BotDownloader.Finished)))
    (fun _ => BotDownloader.mkResponse 200 None
                (BotDownloader.mkTransfer [7340032; 7340032]%positive BotDownloader.Finished))
    (fun _ _ => ([("toji-bot", true)], Return tt))
    (fun _ => Return tt)
    (fun _ => Return tt).

Definition emptyDisk : BotDownloader.World := BotDownloader.mkWorld [] ∅.

Definition osFound : Main.SystemRequirement :=
  Main.mkRequirement "Operating System" Main.found_ (Some "6.8.0") (Some "Ubuntu (6.8.0)") true.

End Examples.

(** ** main/install-script-builder.ts and the runner: the progress line

    The builder announces a step with the text [PROGRESS:<percent>:<label>]
    (the [progress] function of the script's header and the [echo] lines of
    the sub-script); [runInstallScript] reads it back from the script's
    output. *)

Module Sentinel.
Import Js.




End Sentinel.

(** ** main/platform/linux-platform-service.ts: the probes and installers
    besides [installAllDependencies] *)

Module LinuxInstallers.
Import Js Eff PlatformService Main InstallScriptBuilder LinuxPlatformService.
Local Open Scope eff_scope.

Record SystemCapabilities : Type := mkCapabilities {
  hasPackageManager : bool;
  hasPrivilegeEscalation : bool;
  canInstallSystemPackages : bool;
  packageManagerName : option string;
  elevationMethod : option string
}.

(** [capabilities.hasPackageManager = true; capabilities.packageManagerName = name] *)
Definition withPackageManager (managerName : string) (c : SystemCapabilities)
  : SystemCapabilities :=
  mkCapabilities true (hasPrivilegeEscalation c) (canInstallSystemPackages c)
                 (Some managerName) (elevationMethod c).

(** [capabilities.hasPrivilegeEscalation = true; capabilities.elevationMethod = tool] *)
Definition withElevation (tool : string) (c : SystemCapabilities) : SystemCapabilities :=
  mkCapabilities (hasPackageManager c) true (canInstallSystemPackages c)
                 (packageManagerName c) (Some tool).

Definition checkSystemCapabilities : M World SystemCapabilities :=
  let capabilities := mkCapabilities false false false None None in
  capabilities <-
    tryCatch (_ <- execAsync "which apt" ;;
              ret (withPackageManager "apt" capabilities))
             (fun _ => ret capabilities) ;;
  capabilities <-
    tryCatch (_ <- execAsync "which pkexec" ;;
              ret (withElevation "pkexec" capabilities))
             (fun _ =>
                tryCatch (_ <- execAsync "which sudo" ;;
                          ret (withElevation "sudo" capabilities))
                         (fun _ => ret capabilities)) ;;
  ret (mkCapabilities (hasPackageManager capabilities) (hasPrivilegeEscalation capabilities)
         (hasPackageManager capabilities && hasPrivilegeEscalation capabilities)
         (packageManagerName capabilities) (elevationMethod capabilities)).

(** [this.currentProgress?.logOutput || []] *)
Definition currentLog (w : World) : list string :=
  match currentProgress w with
  | Some p => match logOutput p with Some log => log | None => [] end
  | None => []
  end.


(** [stderr += text]: what its [stderr] variable holds after the chunks. *)
Definition gatherStderr (stderr : string) (chunks : list Chunk) : string :=
  fold_left (fun stderr chunk =>
               match chunk with
               | Stderr text => stderr +:+ text
               | Stdout _ => stderr
               end)
            chunks stderr.


Section Running.
Variable env : Env.

(** [spawn('sh', ['-c', command])]: what the command writes, how it ends
    and the machine it leaves. *)
Variable sh : string -> Host -> ScriptRun * Host.

(** The handlers of [runCommand]. *)
Definition onCommandChunk (state : list string * string) (chunk : Chunk)
  : M World (list string * string) :=
  match chunk with
  | Stdout text =>
      if truthy (trim text) then
        let log' := fst state ++ [trim text] in
        updateProgress (logUpdate log') ;;
        ret (log', snd state)
      else ret state
  | Stderr text => ret (fst state, snd state +:+ text)
  end.

(** In the call log the arguments of [sh] are written on one line. *)
Definition runCommand (command description : string) : M World unit :=
  logOutput <- ask currentLog ;;
  let logOutput := logOutput ++ ["> " +:+ command] in
  updateProgress (logUpdate logOutput) ;;
  record (Spawn "sh" ("-c " +:+ command)) ;;
  h <- ask host ;;
  let '(run, h') := sh command h in
  setHost h' ;;
  state <- foldM onCommandChunk (output run) (logOutput, EmptyString) ;;
  let '(logOutput, stderr) := state in
  match ending run with
  | Closed code =>
      if exitedZero (Closed code) then
        updateProgress (logUpdate (logOutput ++ [okMark +:+ " " +:+ description +:+ " completed"]))
      else
        updateProgress
          (logUpdate (logOutput ++ [failMark +:+ " " +:+ description +:+ " failed with code "
                                      +:+ showCode code])) ;;
        throw ("Command failed: " +:+ stderr)
  | Failed message =>
      updateProgress
        (logUpdate (logOutput ++ [failMark +:+ " " +:+ description +:+ " error: " +:+ message])) ;;
      throw message
  end.

Definition runElevatedCommand (command description : string) : M World unit :=
  capabilities <- checkSystemCapabilities ;;
  if negb (hasPrivilegeEscalation capabilities) then
    throw "No privilege escalation method available (pkexec or sudo required)"
  else
    let elevatedCommand :=
      match elevationMethod capabilities with
      | Some "pkexec" => "pkexec " +:+ command
      | _ => "sudo " +:+ command
      end in
    runCommand elevatedCommand description.

Definition aptCommands : Builder :=
  addCommand "apt-get install -y nodejs npm" "Installing Node.js and npm via apt" true
    (addCommand "apt-get update" "Updating package list" true create).

Definition installNodeJSWithApt : M World unit :=
  scriptPath <- saveToFile env aptCommands ;;
  runInstallScript env scriptPath "Installing Node.js via apt-get" ;;
  unlinkFile env scriptPath.

Definition nodeSourceCommands : Builder :=
  addCommand "apt-get install -y nodejs" "Installing Node.js from NodeSource" true
    (addCommand "curl -fsSL https://deb.nodesource.com/setup_lts.x | bash -"
       "Adding NodeSource repository" true create).

Definition installNodeJSWithNodeSource : M World unit :=
  scriptPath <- saveToFile env nodeSourceCommands ;;
  runInstallScript env scriptPath "Installing Node.js via NodeSource" ;;
  unlinkFile env scriptPath.

Definition claudeCommands : Builder :=
  addCommand "npm install -g @anthropic-ai/claude-code"
    "Installing Claude Code CLI globally" true create.

Definition installClaudeCode : M World unit :=
  updateProgress
    (mkProgress (Some "Installing Claude CLI") (Some 0%N) None
       (Some "Preparing Claude CLI installation...") None (Some [])) ;;
  tryCatch
    (runCommand "npm install -g @anthropic-ai/claude-code" "Installing Claude Code CLI" ;;
     _ <- execAsync "claude --version" ;;
     updateProgress
       (mkProgress (Some "Claude Code CLI installation complete") (Some 100%N)
          None None None None))
    (fun _ =>
       scriptPath <- saveToFile env claudeCommands ;;
       tryFinally
         (runInstallScript env scriptPath "Installing Claude Code CLI with sudo" ;;
          _ <- execAsync "claude --version" ;;
          updateProgress
            (mkProgress (Some "Claude Code CLI installation complete") (Some 100%N)
               None None None None))
         (unlinkFile env scriptPath)).

End Running.

End LinuxInstallers.

(** ** main/claude-auth.ts: [startAuthentication] *)

Module ClaudeLogin.
Import Js Eff Main ClaudeAuthManager.
Local Open Scope eff_scope.

Record AuthResult : Type := mkResult {
  success : bool;
  error : option string
}.

(** The session, and the ['claude:auth-progress'] messages sent to the
    renderer, oldest first. *)
Definition Login : Type := (Session * list string)%type.

Section Login.

(** [spawn('claude', ['login', '--browser'])]: what the process writes,
    how it ends and the machine it leaves (logged in or not). *)
Variable claudeLogin : Host -> ScriptRun * Host.

(** The [data] handlers; the accumulator is [errorOutput]. *)
Definition onLoginChunk (errorOutput : string) (chunk : Chunk) : M Login string :=
  match chunk with
  | Stdout text =>
      modifyLocal (fun sent : list string => sent ++ [text]) ;;
      ret errorOutput
  | Stderr text => ret (errorOutput +:+ text)
  end.

Definition startAuthentication : M Login AuthResult :=
  tryCatch
    (installed <- liftW (onWorld (tryCatch (_ <- execAsync "claude --version" ;; ret true)
                                           (fun _ => ret false))) ;;
     if negb installed then
       ret (mkResult false
              (Some "Claude Code CLI is not installed. Please install it first."))
     else
       liftW (onWorld (record (Spawn "claude" "login --browser"))) ;;
       h <- liftW (onWorld (ask host)) ;;
       let '(run, h') := claudeLogin h in
       liftW (onWorld (setHost h')) ;;
       errorOutput <- foldM onLoginChunk (output run) EmptyString ;;
       match ending run with
       | Closed code =>
           if exitedZero (Closed code) then
             authStatus <- liftW checkAuthentication ;;
             ret (mkResult (authenticated authStatus) None)
           else
             ret (mkResult false
                    (Some (if truthy errorOutput then errorOutput
                           else "Authentication failed")))
       | Failed message =>
           ret (mkResult false (Some ("Failed to start authentication: " +:+ message)))
       end)
    (fun message => ret (mkResult false (Some ("Authentication error: " +:+ message)))).

End Login.

(** The texts of the [stdout] chunks, in order. *)
Definition stdoutTexts (chunks : list Chunk) : list string :=
  flat_map (fun chunk => match chunk with Stdout text => [text] | Stderr _ => [] end) chunks.

(** What the say-yes probe of [checkAuthentication] makes of the machine:
    a non-empty answer. *)
Definition answers (h : Host) : bool :=
  match exec h sayYes with
  | Return reply => truthy reply
  | Throw _ => false
  end.

End ClaudeLogin.

(** ** main/system-setup.ts and renderer/components/SetupFlow.tsx: from the
    check to the plan *)

Module Planning.
Import Js Main SystemSetup.

(** [checkedRequirements.filter(req => req.status === 'missing')], what
    the renderer hands to ['system-setup:get-installation-plan']. *)
Definition missingRequirements (checkedRequirements : list SystemRequirement)
  : list SystemRequirement :=
  List.filter (fun req => Status_eqb (status req) missing) checkedRequirements.

(** The requirement called [reqName] came out missing. *)
Definition isMissing (reqName : string) (requirements : list SystemRequirement) : bool :=
  match statusOf reqName requirements with
  | Some st => Status_eqb st missing
  | None => false
  end.

End Planning.

(** ** main/bot-downloader.ts: the network *)

Module Network.
Import BotDownloader.

(** The environment [env] with another network behind [https.get]. *)
Definition withNetwork (get : string -> HttpResult) (getRedirect : string -> Response)
  (env : Env) : Env :=
  mkEnv (dirname env) (homedir env) (tmpdir env) (statLocalBundle env) (mkdir env)
        (readLocal env) get getRedirect (tarExtract env) (unlinkSync env) (chmodSync env).

(** What is on disk after a stream was piped into [destination]: the
    file, or nothing when the file's [error] listener removed it. *)
Definition afterTransfer (destination : string) (transfer : Transfer)
  (present : gmap string bool) : gmap string bool :=
  match transferEnd transfer with
  | Finished => <[destination := false]> present
  | Errored _ => delete destination present
  end.

End Network.

(** ** More example inputs *)

Module MoreExamples.
Import Js Eff.

(** The script is started and closes with code 1. *)
Definition failingEnv : Main.Env :=
  Main.mkEnv Examples.now 1705314600000 "/tmp"
    (fun _ => Return tt) (fun _ => Return tt)
    (fun _ h =>
       (Main.mkRun [Main.Stderr ("E: Unable to locate package nodejs" +:+ LF)]
                   (Main.Closed (Some 1%Z)), h)).

(** A script that reports success and changes nothing, on a machine
    whose clock has just started. *)
Definition earlyEnv : Main.Env :=
  Main.mkEnv Examples.now 1000 "/tmp"
    (fun _ => Return tt) (fun _ => Return tt)
    (fun _ h =>
       (Main.mkRun [Main.Stdout ("PROGRESS:100:Installation complete" +:+ LF)]
                   (Main.Closed (Some 0%Z)), h)).

(** The login process prints the address to open and closes with code
    zero; the machine is then the authenticated one. *)
Definition browserLogin (h : Main.Host) : Main.ScriptRun * Main.Host :=
  (Main.mkRun [Main.Stdout ("Opening https://claude.ai/login in your browser" +:+ LF)]
              (Main.Closed (Some 0%Z)),
   Examples.readyHost).

End MoreExamples.

(** ** renderer/components/SetupFlow.tsx: the listeners

    The state of the component is the six [useState] cells.  The
    listeners registered in [useEffect] only call the setters, so handling
    the messages of the main process is a fold over them. *)

Module SetupFlow.
Import Js.

Inductive SetupStep : Type :=
| step_welcome | step_checking | step_plan | step_installing
| step_dependencies_complete | step_bot_downloading | step_complete | step_error.

Record View : Type := mkView {
  currentStep : SetupStep;
  requirements : list Main.SystemRequirement;
  installationPlan : option Main.InstallationPlan;
  installProgress : option PlatformService.InstallProgress;
  downloadProgress : option BotDownloader.DownloadProgress;
  error : option string
}.

Definition setCurrentStep (s : SetupStep) (v : View) : View :=
  mkView s (requirements v) (installationPlan v) (installProgress v) (downloadProgress v)
         (error v).



Definition setDownloadProgress (p : option BotDownloader.DownloadProgress) (v : View) : View :=
  mkView (currentStep v) (requirements v) (installationPlan v) (installProgress v) p
         (error v).

Definition setError (e : option string) (v : View) : View :=
  mkView (currentStep v) (requirements v) (installationPlan v) (installProgress v)
         (downloadProgress v) e.




(** The template literal prints a missing [error] field as [undefined]. *)
Definition handleBotDownloadProgress (v : View) (progress : BotDownloader.DownloadProgress)
  : View :=
  let v := setDownloadProgress (Some progress) v in
  match BotDownloader.stage progress with
  | BotDownloader.complete => setCurrentStep step_complete v
  | BotDownloader.error =>
      setCurrentStep step_error
        (setError (Some ("Bot download failed: "
                           +:+ match BotDownloader.dp_error progress with
                               | Some text => text
                               | None => "undefined"
                               end)) v)
  | _ => v
  end.



(** A stage that leaves the step of the component alone. *)
Definition passing (s : BotDownloader.Stage) : bool :=
  match s with
  | BotDownloader.complete | BotDownloader.error => false
  | _ => true
  end.

End SetupFlow.

(** ** main/auth.ts: the stored session

    [AUTH_FILE] is one file of the user-data directory; [safeStorage],
    [JSON] and the three file-system calls are collaborators.  A failing
    write or removal is taken to leave the file as it was.  Console output
    is not modelled, and neither is [login], whose window events
    interleave with its timers. *)

Module AuthManager.
Import Js Eff.
Local Open Scope eff_scope.

Record UserInfo : Type := mkUser {
  id : string;
  username : string;
  discriminator : string;
  avatar : option string
}.

Record AuthData : Type := mkAuthData {
  access_token : string;
  refresh_token : option string;
  expires_in : option Z;
  user : UserInfo;
  timestamp : Z
}.

Record Env : Type := mkEnv {
  isEncryptionAvailable : bool;               (* safeStorage.isEncryptionAvailable() *)
  encryptString : string -> outcome string;   (* safeStorage.encryptString *)
  decryptString : string -> outcome string;   (* safeStorage.decryptString *)
  stringify : AuthData -> string;             (* JSON.stringify(data) *)
  stringifyIndented : AuthData -> string;     (* JSON.stringify(data, null, 2) *)
  parse : string -> outcome (option AuthData); (* JSON.parse; [None] is null *)
  fs_read : outcome unit;                     (* fs.readFileSync(AUTH_FILE) returns *)
  fs_write : outcome unit;                    (* fs.writeFileSync(AUTH_FILE, ...) returns *)
  fs_unlink : outcome unit                    (* fs.unlinkSync(AUTH_FILE) returns *)
}.

(** The field [authData] of the manager and the content of [AUTH_FILE],
    if it exists. *)
Record Store : Type := mkStore {
  authData : option AuthData;
  authFile : option string
}.

Definition setAuthData (data : option AuthData) (st : Store) : Store :=
  mkStore data (authFile st).

Definition setAuthFile (content : option string) (st : Store) : Store :=
  mkStore (authData st) content.

Definition getStore : M Store Store := fun st => (Return st, st).

Section Manager.
Variable env : Env.

Definition loadAuthData : M Store unit :=
  tryCatch
    (st <- getStore ;;
     match authFile st with
     | Some encryptedData =>
         settle (fs_read env) ;;
         when (isEncryptionAvailable env)
           (decrypted <- settle (decryptString env encryptedData) ;;
            data <- settle (parse env decrypted) ;;
            modify (setAuthData data))
     | None => ret tt
     end)
    (fun _ => modify (setAuthData None)).

Definition writeFileSync (content : string) : M Store unit :=
  settle (fs_write env) ;;
  modify (setAuthFile (Some content)).

Definition saveAuthData (data : AuthData) : M Store unit :=
  tryCatch
    ((if isEncryptionAvailable env then
        encrypted <- settle (encryptString env (stringify env data)) ;;
        writeFileSync encrypted
      else
        writeFileSync (stringifyIndented env data)) ;;
     modify (setAuthData (Some data)))
    (fun _ => ret tt).

Definition logout : M Store unit :=
  modify (setAuthData None) ;;
  tryCatch
    (st <- getStore ;;
     match authFile st with
     | Some _ =>
         settle (fs_unlink env) ;;
         modify (setAuthFile None)
     | None => ret tt
     end)
    (fun _ => ret tt).

(** [this.authData?.user || null] *)
Definition getUser (st : Store) : option UserInfo := option_map user (authData st).

(** [new AuthManager()] on a machine whose [AUTH_FILE] is [file]. *)
Definition construct (file : option string) : Store :=
  snd (loadAuthData (mkStore None file)).

End Manager.

End AuthManager.

Module StoreExamples.
Import Js Eff AuthManager.

Definition someone : AuthData :=
  mkAuthData "token-1" None (Some 604800%Z) (mkUser "42" "toji" "0001" None) 1705314600000.

(** A key ring that marks what it encrypts, and a JSON that knows one
    document. *)
Definition keyring : Env :=
  mkEnv true
        (fun text => Return ("v10" +:+ text))
        (fun bytes => if String.prefix "v10" bytes
                      then Return (String.substring 3 (String.length bytes - 3) bytes)
                      else Throw "Error while decrypting the ciphertext")
        (fun data => "{access_token:" +:+ access_token data +:+ "}")
        (fun data => "{ access_token: " +:+ access_token data +:+ " }")
        (fun text => if (text =? "{access_token:token-1}")%string
                     then Return (Some someone)
                     else Throw "SyntaxError: Unexpected token")
        (Return tt) (Return tt) (Return tt).

(** The same machine without a key ring. *)
Definition noKeyring : Env :=
  mkEnv false (encryptString keyring) (decryptString keyring) (stringify keyring)
        (stringifyIndented keyring) (parse keyring) (Return tt) (Return tt) (Return tt).

End StoreExamples.


(** * Properties *)

(** ** Lines of a text *)

Section Lines.
Import Js.











End Lines.

(** ** The script builder *)

Section BuilderFacts.
Import Js InstallScriptBuilder.

















(** With a privileged command, the script holds one here-document with
    all the privileged commands in the order they were added, then the one
    pkexec line and the removal of the sub-script. *)
Lemma privileged_commands_in_one_subscript (now : Instant) (commands : Builder) :
  let sudoCommands := List.filter (fun cmd => requiresSudo cmd) commands in
  sudoCommands <> [] ->
  exists before,
    buildScriptLines now commands
    = before
      ++ [mktempLine; heredocLine; "#!/bin/bash"; "set -e"]
      ++ forEachIndexed sudoStep sudoCommands 0
      ++ ["EOF"; EmptyString; "# Run with pkexec for GUI password prompt";
          elevationLine; cleanupLine]
      ++ trailer.
Proof.
  cbv zeta. intros Hsome. unfold buildScriptLines.
  destruct (List.filter (fun cmd => requiresSudo cmd) commands) as [|cmd rest] eqn:Hsudo;
    [contradiction|].
  unfold sudoBlock.
  exists (header now
          ++ regularBlock (List.filter (fun cmd => negb (requiresSudo cmd)) commands)
          ++ ["# Commands that require sudo";
              "echo " +:+ dq
                +:+ "The following operations require administrator privileges:" +:+ dq]
          ++ List.map (fun cmd => "echo " +:+ dq +:+ "  - " +:+ description cmd +:+ dq)
               (cmd :: rest)
          ++ [EmptyString; "# Create temporary sudo script"]).
  rewrite <- !app_assoc. reflexivity.
Qed.


End BuilderFacts.

Section BuilderExamples.
Import Js InstallScriptBuilder.



End BuilderExamples.

(** ** The sub-script under [set -e] *)

Section SubScript.
Import Js InstallScriptBuilder.

(** When the elevated run succeeds (and the caller's commands do), the
    script reaches its [rm -f] and the sub-script is gone. *)
Lemma sudo_script_removed_after_success :
  Shell.run Examples.consenting (buildScript Examples.now (addAll [Examples.aptUpdate])) ∅
  = (0%nat, ∅).
Proof. vm_compute. reflexivity. Qed.

(** Any failing status of the elevated run ends the script at that line. *)
Lemma sudo_script_kept_after_failure (status : nat) :
  status <> 0%nat ->
  let machine := Shell.mkMachine "/tmp/toji-sudo-a1B2c3.sh" status (fun _ => 0%nat) in
  Shell.run machine (buildScript Examples.now (addAll [Examples.aptUpdate])) ∅
  = (status, {[ "/tmp/toji-sudo-a1B2c3.sh" ]}).
Proof.
  intros Hfail. destruct status as [|n]; [contradiction|].
  vm_compute. reflexivity.
Qed.

(** C3: the script runs under [set -e] and removes the sub-script with a
    plain [rm -f] after the pkexec line.  With one privileged command and
    the consent dialog dismissed (pkexec exits 126), the script ends at the
    pkexec line with status 126 and the temporary sub-script still exists. *)
Theorem sudo_script_left_behind_when_elevation_fails :
  let script := buildScript Examples.now (addAll [Examples.aptUpdate]) in
  let result := Shell.run Examples.dismissed script ∅ in
  privilegedCount (addAll [Examples.aptUpdate]) = 1%nat /\
  fst result = 126%nat /\
  Shell.freshTemp Examples.dismissed ∈ snd result.
Proof.
  cbv zeta. split; [reflexivity|]. split; [vm_compute; reflexivity|].
  apply (bool_decide_unpack _). vm_compute. exact I.
Qed.

End SubScript.

(** ** The installation planner *)

Section PlannerFacts.
Import Js Main SystemSetup.

Lemma Status_eqb_eq (a b : Status) : Status_eqb a b = true <-> a = b.
Proof. destruct a, b; simpl; split; intros H; congruence. Qed.

(** The loop of [createInstallationPlan], from any values of its locals. *)
Lemma planLoop (reqs : list SystemRequirement) :
  forall items sudo minutes,
    exists minutes',
      fold_left planStep reqs (items, sudo, minutes)
      = (items ++ flat_map itemFor reqs,
         sudo || existsb isApt (flat_map itemFor reqs),
         minutes').
Proof.
  induction reqs as [|req rest IH]; intros items sudo minutes.
  - exists minutes. simpl. rewrite app_nil_r, orb_false_r. reflexivity.
  - cbn [fold_left flat_map]. unfold planStep at 2, itemFor at 1 3.
    destruct (name req =? "Node.js")%string.
    + destruct (IH (items ++ [nodeItem]) true (minutes + 3)%nat) as [m Hm].
      exists m. rewrite Hm, <- app_assoc. simpl. rewrite orb_true_r. reflexivity.
    + destruct (name req =? "Claude Code CLI")%string.
      * destruct (IH (items ++ [claudeItem]) sudo (minutes + 2)%nat) as [m Hm].
        exists m. rewrite Hm, <- app_assoc. reflexivity.
      * apply IH.
Qed.

Lemma plan_items (reqs : list SystemRequirement) :
  items (createInstallationPlan reqs)
  = flat_map itemFor (List.filter (fun r => Status_eqb (status r) missing) reqs).
Proof.
  unfold createInstallationPlan.
  destruct (planLoop (List.filter (fun r => Status_eqb (status r) missing) reqs) [] false 0)
    as [m Hm].
  rewrite Hm. reflexivity.
Qed.

(** What the planner's two flags say, by the planner's own table: sudo
    for an apt item, automatic installation for a plan with an item. *)
Lemma plan_flags (reqs : list SystemRequirement) :
  let plan := createInstallationPlan reqs in
  requiresSudo plan = existsb isApt (items plan)
  /\ (canAutoInstall plan = true <-> items plan <> []).
Proof.
  unfold createInstallationPlan.
  destruct (planLoop (List.filter (fun r => Status_eqb (status r) missing) reqs) [] false 0)
    as [m Hm].
  rewrite Hm. simpl. split; [reflexivity|].
  destruct (flat_map itemFor _); simpl; split; intros H;
    solve [discriminate | reflexivity | contradiction H; reflexivity].
Qed.

Lemma planStep_unknown (acc : list InstallationItem * bool * nat) (req : SystemRequirement) :
  knownName (name req) = false -> planStep acc req = acc.
Proof.
  unfold knownName, planStep. intros H. apply orb_false_iff in H as [Hn Hc].
  destruct acc as [[its sudo] minutes]. rewrite Hn, Hc. reflexivity.
Qed.

Lemma plan_without (pre post : list SystemRequirement) (req : SystemRequirement) :
  status req <> missing \/ knownName (name req) = false ->
  createInstallationPlan (pre ++ req :: post) = createInstallationPlan (pre ++ post).
Proof.
  intros Hreq. unfold createInstallationPlan.
  rewrite !List.filter_app. simpl List.filter.
  destruct (Status_eqb (status req) missing) eqn:Hstatus; [|reflexivity].
  destruct Hreq as [Hnot | Hunknown].
  - apply Status_eqb_eq in Hstatus. contradiction.
  - rewrite !fold_left_app. simpl fold_left.
    rewrite (planStep_unknown _ req Hunknown). reflexivity.
Qed.

Lemma itemFor_known (req : SystemRequirement) (item : InstallationItem) :
  In item (itemFor req) ->
  knownName (name req) = true /\ item_name item = name req.
Proof.
  unfold itemFor, knownName.
  destruct (name req =? "Node.js")%string eqn:Hn.
  - intros [<- | []]. apply String.eqb_eq in Hn. rewrite Hn. split; reflexivity.
  - destruct (name req =? "Claude Code CLI")%string eqn:Hc.
    + intros [<- | []]. apply String.eqb_eq in Hc. rewrite Hc. split; reflexivity.
    + intros [].
Qed.

(** C9: every item of a plan comes from an input requirement whose status
    is [missing] and whose name is Node.js or Claude Code CLI; and an input
    requirement with any other status, or with any other name, can be taken
    out of the input without changing the plan. *)
Theorem createInstallationPlan_only_missing_known (reqs : list SystemRequirement) :
  (forall item, In item (items (createInstallationPlan reqs)) ->
     exists req, In req reqs /\ status req = missing
                 /\ knownName (name req) = true /\ item_name item = name req)
  /\ (forall pre req post,
        reqs = pre ++ req :: post ->
        status req <> missing \/ knownName (name req) = false ->
        createInstallationPlan reqs = createInstallationPlan (pre ++ post)).
Proof.
  split.
  - intros item Hin. rewrite plan_items in Hin.
    apply in_flat_map in Hin as [req [Hreq Hitem]].
    apply List.filter_In in Hreq as [Hreq Hstatus].
    apply Status_eqb_eq in Hstatus.
    destruct (itemFor_known req item Hitem) as [Hknown Hname].
    exists req. auto.
  - intros pre req post -> Hreq. apply plan_without. exact Hreq.
Qed.

Lemma createInstallationPlan_only_missing_known_witness :
  let reqs := [Examples.osFound; Examples.nodeMissing; Examples.claudeMissing;
               Examples.authSkipped] in
  (exists req, In req reqs /\ status req = missing
               /\ knownName (name req) = true /\ item_name nodeItem = name req)
  /\ createInstallationPlan reqs
     = createInstallationPlan [Examples.osFound; Examples.nodeMissing; Examples.claudeMissing].
Proof.
  cbv zeta.
  destruct (createInstallationPlan_only_missing_known
              [Examples.osFound; Examples.nodeMissing; Examples.claudeMissing;
               Examples.authSkipped]) as [Hitems Hdrop].
  split.
  - apply Hitems. vm_compute. left. reflexivity.
  - apply (Hdrop [Examples.osFound; Examples.nodeMissing; Examples.claudeMissing]
                 Examples.authSkipped []).
    + reflexivity.
    + left. discriminate.
Defined.

(** C4: for a plan whose only item is the Claude Code CLI the planner
    answers [requiresSudo = false] (and [canAutoInstall = true]), while
    every command the executor builds for that plan has [requiresSudo]
    and its script goes through pkexec once. *)
Theorem claude_only_plan_elevates_without_requiresSudo :
  let plan := createInstallationPlan [Examples.claudeMissing] in
  let commands := LinuxPlatformService.installCommands (List.map item_name (items plan)) in
  List.map method (items plan) = [npm]
  /\ requiresSudo plan = false
  /\ canAutoInstall plan = true
  /\ List.map InstallScriptBuilder.requiresSudo commands = [true]
  /\ InstallScriptBuilder.elevationInvocations
       (InstallScriptBuilder.buildScript Examples.now commands) = 1%nat.
Proof. cbv zeta. repeat split; vm_compute; reflexivity. Qed.

End PlannerFacts.


(** ** Reasoning about promises: weakest preconditions *)

Section WpRules.
Import Eff.
Context {W : Type}.

Lemma bind_run {A B} (m : M W A) (k : A -> M W B) (w : W) :
  bind m k w = match m w with
               | (Return a, w') => k a w'
               | (Throw msg, w') => (Throw msg, w')
               end.
Proof. reflexivity. Qed.

Lemma wp_mono {A} (m : M W A) (Q Q' : outcome A -> W -> Prop) (w : W) :
  wp m Q w -> (forall o w', Q o w' -> Q' o w') -> wp m Q' w.
Proof. unfold wp. auto. Qed.

Lemma wp_ret {A} (a : A) (Q : outcome A -> W -> Prop) (w : W) :
  Q (Return a) w -> wp (ret a) Q w.
Proof. auto. Qed.

Lemma wp_throw {A} (msg : string) (Q : outcome A -> W -> Prop) (w : W) :
  Q (Throw msg) w -> wp (throw msg) Q w.
Proof. auto. Qed.

Lemma wp_settle {A} (o : outcome A) (Q : outcome A -> W -> Prop) (w : W) :
  Q o w -> wp (settle o) Q w.
Proof. auto. Qed.

Lemma wp_modify (f : W -> W) (Q : outcome unit -> W -> Prop) (w : W) :
  Q (Return tt) (f w) -> wp (modify f) Q w.
Proof. auto. Qed.

Lemma wp_bind {A B} (m : M W A) (k : A -> M W B) (Q : outcome B -> W -> Prop) (w : W) :
  wp m (fun o w' =>
          match o with
          | Return a => wp (k a) Q w'
          | Throw msg => Q (Throw msg) w'
          end) w ->
  wp (bind m k) Q w.
Proof. unfold wp, bind. destruct (m w) as [[a|msg] w']; auto. Qed.

Lemma wp_tryCatch {A} (body : M W A) (handler : string -> M W A)
  (Q : outcome A -> W -> Prop) (w : W) :
  wp body (fun o w' =>
             match o with
             | Return a => Q (Return a) w'
             | Throw msg => wp (handler msg) Q w'
             end) w ->
  wp (tryCatch body handler) Q w.
Proof. unfold wp, tryCatch. destruct (body w) as [[a|msg] w']; auto. Qed.

Lemma wp_tryFinally {A} (body : M W A) (cleanup : M W unit)
  (Q : outcome A -> W -> Prop) (w : W) :
  wp body (fun o w' =>
             wp cleanup (fun c w'' =>
                           match c with
                           | Return _ => Q o w''
                           | Throw msg => Q (Throw msg) w''
                           end) w') w ->
  wp (tryFinally body cleanup) Q w.
Proof.
  unfold wp, tryFinally. destruct (body w) as [o w']. simpl.
  destruct (cleanup w') as [[[]|msg] w'']; auto.
Qed.

Lemma wp_when (b : bool) (m : M W unit) (Q : outcome unit -> W -> Prop) (w : W) :
  (if b then wp m Q w else Q (Return tt) w) -> wp (when b m) Q w.
Proof. destruct b; auto. Qed.

(** A loop with an invariant: each turn returns and keeps it. *)
Lemma wp_foldM {A B} (body : B -> A -> M W B) (I : W -> Prop) (xs : list A) :
  (forall acc x w, I w -> wp (body acc x) (fun o w' => resolved o = true /\ I w') w) ->
  forall acc w, I w -> wp (foldM body xs acc) (fun o w' => resolved o = true /\ I w') w.
Proof.
  intros Hbody. induction xs as [|x rest IH]; intros acc w Hw; simpl.
  - apply wp_ret. auto.
  - apply wp_bind. eapply wp_mono; [apply (Hbody acc x w Hw)|].
    intros [acc'|msg] w' [Hres Hw']; [|discriminate]. apply IH. exact Hw'.
Qed.

End WpRules.

(** ** The requirement checker *)

Section CheckingFacts.
Import Js Eff PlatformService Main SystemSetup.
Context {platformService : Main.PlatformService}.

(** A platform computation inside the session leaves the count of
    authentication checks alone. *)
Lemma onWorld_authChecks {A} (m : M World A) (s : Session) :
  authChecks (snd (onWorld m s)) = authChecks s.
Proof. unfold onWorld. destruct (m (world s)). reflexivity. Qed.

(** [checkAuthentication] returns, and counts as one check. *)
Lemma checkAuthentication_spec (s : Session) :
  exists info s',
    ClaudeAuthManager.checkAuthentication s = (Return info, s')
    /\ authChecks s' = S (authChecks s).
Proof.
  unfold ClaudeAuthManager.checkAuthentication, ClaudeAuthManager.probeAuthentication.
  unfold bind, modify, onWorld, tryCatch, execAsync, record, ask, settle, ret. simpl.
  destruct (exec (host (world s)) "claude --version") as [out|msg]; simpl.
  - destruct (exec (host (world s)) ClaudeAuthManager.sayYes) as [reply|msg]; simpl.
    + destruct (truthy reply); eexists; eexists; split; reflexivity.
    + match goal with |- context [if ?b then _ else _] => destruct b end;
        eexists; eexists; split; reflexivity.
  - eexists; eexists; split; reflexivity.
Qed.

Lemma checkAt_os (s : Session) (st : Status) (v d : option string) (b : bool)
  (r1 r2 r3 : SystemRequirement) :
  exists st' v' d' s',
    checkAt 0 (s, [mkRequirement "Operating System" st v d b; r1; r2; r3])
    = (Return tt, (s', [mkRequirement "Operating System" st' v' d' b; r1; r2; r3]))
    /\ (st' = found_ \/ st' = error_)
    /\ authChecks s' = authChecks s.
Proof.
  unfold checkAt, checkRequirement, tryCatch, liftW, getLocal, sendUpdate, bind.
  cbn -[getOSInfo onWorld].
  pose proof (onWorld_authChecks getOSInfo s) as Hcount.
  destruct (onWorld getOSInfo s) as [[info|msg] s1]; cbn in *.
  - do 4 eexists. split; [reflexivity|]. split; [|exact Hcount].
    destruct (supported info); auto.
  - do 4 eexists. split; [reflexivity|]. split; [auto|exact Hcount].
Qed.

Lemma checkAt_node (s : Session) (st : Status) (v d : option string) (b : bool)
  (r0 r2 r3 : SystemRequirement) :
  exists st' v' d' s',
    checkAt 1 (s, [r0; mkRequirement "Node.js" st v d b; r2; r3])
    = (Return tt, (s', [r0; mkRequirement "Node.js" st' v' d' b; r2; r3]))
    /\ (st' = found_ \/ st' = missing \/ st' = error_)
    /\ authChecks s' = authChecks s.
Proof.
  unfold checkAt, checkRequirement, tryCatch, liftW, getLocal, sendUpdate, bind.
  cbn -[checkNodeJS onWorld].
  pose proof (onWorld_authChecks checkNodeJS s) as Hcount.
  destruct (onWorld checkNodeJS s) as [[info|msg] s1]; cbn in *.
  - do 4 eexists. split; [reflexivity|]. split; [|exact Hcount].
    unfold toolStatus. destruct (found info); auto.
  - do 4 eexists. split; [reflexivity|]. split; [auto|exact Hcount].
Qed.

Lemma checkAt_claude (s : Session) (st : Status) (v d : option string) (b : bool)
  (r0 r1 r3 : SystemRequirement) :
  exists st' v' d' s',
    checkAt 2 (s, [r0; r1; mkRequirement "Claude Code CLI" st v d b; r3])
    = (Return tt, (s', [r0; r1; mkRequirement "Claude Code CLI" st' v' d' b; r3]))
    /\ (st' = found_ \/ st' = missing \/ st' = error_)
    /\ authChecks s' = authChecks s.
Proof.
  unfold checkAt, checkRequirement, tryCatch, liftW, getLocal, sendUpdate, bind.
  cbn -[checkClaudeCode onWorld].
  pose proof (onWorld_authChecks checkClaudeCode s) as Hcount.
  destruct (onWorld checkClaudeCode s) as [[info|msg] s1]; cbn in *.
  - do 4 eexists. split; [reflexivity|]. split; [|exact Hcount].
    unfold toolStatus. destruct (found info); auto.
  - do 4 eexists. split; [reflexivity|]. split; [auto|exact Hcount].
Qed.

Lemma checkAt_auth (s : Session) (s0 s1 s2 st : Status)
  (v0 v1 v2 v d0 d1 d2 d : option string) (b0 b1 b2 b : bool) :
  exists st' v' d' s',
    checkAt 3 (s, [mkRequirement "Operating System" s0 v0 d0 b0;
                   mkRequirement "Node.js" s1 v1 d1 b1;
                   mkRequirement "Claude Code CLI" s2 v2 d2 b2;
                   mkRequirement "Claude Authentication" st v d b])
    = (Return tt,
       (s', [mkRequirement "Operating System" s0 v0 d0 b0;
             mkRequirement "Node.js" s1 v1 d1 b1;
             mkRequirement "Claude Code CLI" s2 v2 d2 b2;
             mkRequirement "Claude Authentication" st' v' d' b]))
    /\ (if Status_eqb s2 found_
        then (st' = found_ \/ st' = missing) /\ authChecks s' = S (authChecks s)
        else st' = skipped /\ authChecks s' = authChecks s).
Proof.
  unfold checkAt, checkRequirement, tryCatch, liftW, getLocal, sendUpdate, bind.
  cbn -[ClaudeAuthManager.checkAuthentication].
  destruct (Status_eqb s2 found_); cbn -[ClaudeAuthManager.checkAuthentication].
  - match goal with
    | |- context [ClaudeAuthManager.checkAuthentication ?x] =>
        destruct (checkAuthentication_spec x) as [info [s' [Hinfo Hcount]]]; rewrite Hinfo
    end.
    cbn. do 4 eexists. split; [reflexivity|]. split.
    + destruct (ClaudeAuthManager.authenticated info); auto.
    + simpl. simpl in Hcount. exact Hcount.
  - do 4 eexists. split; [reflexivity|]. split; reflexivity.
Qed.

(** One run of [checkAllRequirements], on any platform. *)
Lemma checkAllRequirements_shape (s : Session) :
  exists s0 s1 s2 s3 v0 v1 v2 v3 d0 d1 d2 d3 s',
    checkAllRequirements s
    = (Return [mkRequirement "Operating System" s0 v0 d0 true;
               mkRequirement "Node.js" s1 v1 d1 true;
               mkRequirement "Claude Code CLI" s2 v2 d2 true;
               mkRequirement "Claude Authentication" s3 v3 d3 true], s')
    /\ (s0 = found_ \/ s0 = error_)
    /\ (s1 = found_ \/ s1 = missing \/ s1 = error_)
    /\ (s2 = found_ \/ s2 = missing \/ s2 = error_)
    /\ (if Status_eqb s2 found_
        then (s3 = found_ \/ s3 = missing) /\ authChecks s' = S (authChecks s)
        else s3 = skipped /\ authChecks s' = authChecks s).
Proof.
  unfold checkAllRequirements, withLocal, initialRequirements.
  cbn -[checkAt]. rewrite bind_run.
  match goal with
  | |- context [checkAt 0 (?x, [mkRequirement _ ?st ?v ?d ?b; ?r1; ?r2; ?r3])] =>
      destruct (checkAt_os x st v d b r1 r2 r3) as (s0 & v0 & d0 & x1 & H0 & Hs0 & Hc0);
      rewrite H0
  end.
  cbn -[checkAt]. rewrite bind_run.
  match goal with
  | |- context [checkAt 1 (?x, [?r0; mkRequirement _ ?st ?v ?d ?b; ?r2; ?r3])] =>
      destruct (checkAt_node x st v d b r0 r2 r3) as (s1 & v1 & d1 & x2 & H1 & Hs1 & Hc1);
      rewrite H1
  end.
  cbn -[checkAt]. rewrite bind_run.
  match goal with
  | |- context [checkAt 2 (?x, [?r0; ?r1; mkRequirement _ ?st ?v ?d ?b; ?r3])] =>
      destruct (checkAt_claude x st v d b r0 r1 r3) as (s2 & v2 & d2 & x3 & H2 & Hs2 & Hc2);
      rewrite H2
  end.
  cbn -[checkAt]. rewrite bind_run.
  destruct (checkAt_auth x3 s0 s1 s2 checking v0 v1 v2 None d0 d1 d2 None true true true true)
    as (s3 & v3 & d3 & x4 & H3 & Hs3).
  rewrite H3. cbn.
  exists s0, s1, s2, s3, v0, v1, v2, v3, d0, d1, d2, d3, x4.
  split; [reflexivity|]. repeat split; try assumption.
  cbn in Hc0.
  destruct (Status_eqb s2 found_); destruct Hs3 as [Hs3 Hc3]; split; try assumption; lia.
Qed.

(** C5: on any platform, a run of [checkAllRequirements] returns its four
    requirements, each with status found, missing, error or skipped; only
    Claude Authentication can be skipped, and only when Claude Code CLI did
    not come out found; when it came out found, the authentication check
    was entered (once) and its requirement is not skipped; when it did not,
    the check was not entered and the requirement is skipped. *)
Theorem checkAllRequirements_statuses (s : Session) :
  exists reqs s',
    checkAllRequirements s = (Return reqs, s')
    /\ Forall (fun r => status r = found_ \/ status r = missing
                        \/ status r = error_ \/ status r = skipped) reqs
    /\ (forall r, In r reqs -> status r = skipped ->
          name r = "Claude Authentication"
          /\ statusOf "Claude Code CLI" reqs <> Some found_)
    /\ (statusOf "Claude Code CLI" reqs = Some found_ ->
          authChecks s' = S (authChecks s)
          /\ statusOf "Claude Authentication" reqs <> Some skipped)
    /\ (statusOf "Claude Code CLI" reqs <> Some found_ ->
          authChecks s' = authChecks s
          /\ statusOf "Claude Authentication" reqs = Some skipped).
Proof.
  destruct (checkAllRequirements_shape s)
    as (s0 & s1 & s2 & s3 & v0 & v1 & v2 & v3 & d0 & d1 & d2 & d3 & s'
        & Hrun & Hs0 & Hs1 & Hs2 & Hs3).
  eexists. exists s'. split; [exact Hrun|].
  unfold statusOf. cbn.
  split; [|split; [|split]].
  - assert (Hs3' : s3 = found_ \/ s3 = missing \/ s3 = skipped)
      by (destruct (Status_eqb s2 found_); tauto).
    repeat (apply List.Forall_cons; [cbn; tauto|]). apply List.Forall_nil.
  - intros r Hin Hskipped.
    destruct Hin as [<- | [<- | [<- | [<- | []]]]]; cbn in Hskipped.
    + destruct Hs0; congruence.
    + destruct Hs1 as [|[|]]; congruence.
    + destruct Hs2 as [|[|]]; congruence.
    + split; [reflexivity|]. intros Hfound. injection Hfound as ->.
      cbn in Hs3. destruct Hs3 as [[|] _]; congruence.
  - intros Hfound. injection Hfound as ->. cbn in Hs3.
    destruct Hs3 as [Hs3 Hcount]. split; [exact Hcount|].
    intros Hskipped. injection Hskipped as ->. destruct Hs3; discriminate.
  - intros Hnot. destruct Hs2 as [-> | [-> | ->]]; [congruence| |]; cbn in Hs3;
      destruct Hs3 as [-> Hcount]; split; (exact Hcount || reflexivity).
Qed.

End CheckingFacts.

Lemma checkAllRequirements_statuses_witness :
  exists reqs s',
    SystemSetup.checkAllRequirements
      (platformService := LinuxPlatformService.service Examples.idleEnv)
      (Examples.freshSession Examples.readyHost)
    = (Eff.Return reqs, s')
    /\ SystemSetup.statusOf "Claude Code CLI" reqs = Some Main.found_
    /\ Main.authChecks s' = 1%nat.
Proof.
  destruct (checkAllRequirements_statuses
              (platformService := LinuxPlatformService.service Examples.idleEnv)
              (Examples.freshSession Examples.readyHost))
    as (reqs & s' & Hrun & _ & _ & Hattempted & _).
  exists reqs, s'. split; [exact Hrun|].
  assert (Hfound : SystemSetup.statusOf "Claude Code CLI" reqs = Some Main.found_).
  { vm_compute in Hrun. injection Hrun as <- _. reflexivity. }
  split; [exact Hfound|]. exact (proj1 (Hattempted Hfound)).
Defined.

(** ** The installation executor *)

Section InstallingFacts.
Import Js Eff PlatformService Main InstallScriptBuilder LinuxPlatformService SystemSetup.
Variable env : Env.

Lemma updateProgress_keeps (update : InstallProgress) (w0 w : World) :
  sameMachine w0 w ->
  wp (updateProgress update) (fun o w' => o = Return tt /\ sameMachine w0 w') w.
Proof.
  intros Hw. unfold wp, updateProgress, bind, ask, setCurrentProgress, modify, when, send.
  simpl. destruct (onProgressCallback w); simpl; auto.
Qed.

Lemma onStdout_keeps (text : string) (log : list string) (w0 w : World) :
  sameMachine w0 w ->
  wp (onStdout text log) (fun o w' => resolved o = true /\ sameMachine w0 w') w.
Proof.
  intros Hw. unfold onStdout. apply wp_bind.
  assert (Hfirst : wp (match matchSentinel text with
                       | Some (percent, label) =>
                           updateProgress
                             (mkProgress None (option_map Z.to_N (parseInt percent))
                                (Some label) None None None)
                       | None => ret tt
                       end) (fun o w' => o = Return tt /\ sameMachine w0 w') w).
  { destruct (matchSentinel text) as [[percent label]|].
    - apply updateProgress_keeps. exact Hw.
    - apply wp_ret. auto. }
  eapply wp_mono; [exact Hfirst|]. intros o w1 [-> Hw1].
  apply wp_foldM with (I := sameMachine w0); [|exact Hw1].
  intros acc line w2 Hw2.
  destruct (String.prefix "PROGRESS:" line).
  - apply wp_ret. auto.
  - apply wp_bind. eapply wp_mono; [apply updateProgress_keeps; exact Hw2|].
    intros o2 w3 [-> Hw3]. apply wp_ret. auto.
Qed.

Lemma onStderr_keeps (text : string) (log : list string) (w0 w : World) :
  sameMachine w0 w ->
  wp (onStderr text log) (fun o w' => resolved o = true /\ sameMachine w0 w') w.
Proof.
  intros Hw. unfold onStderr.
  destruct (truthy (trim text) && negb (includesSub "[sudo]" text)).
  - apply wp_bind. eapply wp_mono; [apply updateProgress_keeps; exact Hw|].
    intros o w1 [-> Hw1]. apply wp_ret. auto.
  - apply wp_ret. auto.
Qed.

Lemma onChunk_keeps (state : list string * string) (chunk : Chunk) (w0 w : World) :
  sameMachine w0 w ->
  wp (onChunk state chunk) (fun o w' => resolved o = true /\ sameMachine w0 w') w.
Proof.
  intros Hw. destruct chunk as [text|text]; simpl; apply wp_bind.
  - eapply wp_mono; [apply onStdout_keeps; exact Hw|].
    intros [log|msg] w1 [Hres Hw1]; [|discriminate]. apply wp_ret. auto.
  - eapply wp_mono; [apply onStderr_keeps; exact Hw|].
    intros [log|msg] w1 [Hres Hw1]; [|discriminate]. apply wp_ret. auto.
Qed.

(** [runInstallScript] resolves exactly when the script closes with code
    zero; the machine is then the one the script left. *)
Lemma runInstallScript_spec (scriptPath description text : string) (w : World) :
  disk w !! scriptPath = Some text ->
  wp (runInstallScript env scriptPath description)
     (fun o w' =>
        host w' = snd (bash env text (host w))
        /\ disk w' = disk w
        /\ resolved o = exitedZero (ending (fst (bash env text (host w))))) w.
Proof.
  intros Hdisk. unfold runInstallScript.
  apply wp_bind. unfold ask at 1. unfold wp at 1. simpl.
  apply wp_bind. eapply wp_mono; [apply (updateProgress_keeps _ w w); split; reflexivity|].
  intros o w1 [-> [Hh1 Hd1]].
  apply wp_bind. apply wp_modify.
  apply wp_bind. unfold ask at 1. unfold wp at 1. simpl.
  apply wp_bind. unfold ask at 1. unfold wp at 1. simpl.
  rewrite Hd1, Hdisk, Hh1.
  destruct (bash env text (host w)) as [run h'] eqn:Hbash. simpl.
  apply wp_bind. apply wp_modify.
  apply wp_bind.
  set (w2 := mkWorld h' _ _ _ _ _).
  eapply wp_mono.
  { apply (wp_foldM onChunk (sameMachine w2)); [|split; reflexivity].
    intros acc chunk w3 Hw3. apply onChunk_keeps. exact Hw3. }
  intros [[log stderr]|msg] w3 [Hres [Hh3 Hd3]]; [|discriminate].
  subst w2. simpl in Hh3, Hd3.
  assert (Hfails : forall update message,
             wp (updateProgress update ;; throw message)%eff
                (fun (o : outcome unit) w' =>
                   host w' = h' /\ disk w' = disk w /\ resolved o = false) w3).
  { intros update message. apply wp_bind.
    eapply wp_mono; [apply (updateProgress_keeps _ w3 w3); split; reflexivity|].
    intros o4 w4 [-> [Hh4 Hd4]]. apply wp_throw. rewrite Hh4, Hd4, Hh3, Hd3. auto. }
  destruct (ending run) as [[code|]|message]; simpl.
  - destruct (code =? 0)%Z.
    + eapply wp_mono; [apply (updateProgress_keeps _ w3 w3); split; reflexivity|].
      intros o4 w4 [-> [Hh4 Hd4]]. rewrite Hh4, Hd4, Hh3, Hd3. auto.
    + apply Hfails.
  - apply Hfails.
  - apply Hfails.
Qed.


Lemma saveToFile_spec (builder : Builder) (w : World) :
  wp (saveToFile env builder)
     (fun o w' =>
        host w' = host w
        /\ match o with
           | Return path =>
               path = scriptPath env
               /\ disk w' !! path = Some (buildScript (newDate env) builder)
           | Throw _ => True
           end) w.
Proof.
  unfold wp, saveToFile, bind, settle, ask, setDisk, modify, ret. fold (scriptPath env).
  destruct (writeFile env (scriptPath env)) as [[]|msg]; simpl; [|auto].
  split; [reflexivity|]. split; [reflexivity|]. apply lookup_insert_eq.
Qed.

Lemma verify_spec (probe message : string) (w : World) :
  wp (verify probe message)
     (fun o w' => host w' = host w /\ resolved o = resolved (exec (host w) probe)) w.
Proof.
  unfold wp, verify, tryCatch, bind, execAsync, record, modify, ask, settle, ret, throw.
  simpl. destruct (exec (host w) probe); simpl; auto.
Qed.

(** Whatever the cleanup does, a body that throws makes the whole
    [try ... finally] throw. *)
Lemma wp_tryFinally_rejected {A} (body : M World A) (cleanup : M World unit) (w : World) :
  wp body (fun o _ => rejected o = true) w ->
  wp (tryFinally body cleanup) (fun o _ => rejected o = true) w.
Proof.
  intros Hbody. apply wp_tryFinally. eapply wp_mono; [exact Hbody|].
  intros o w' Ho. unfold wp. destruct (cleanup w') as [[[]|msg] w'']; simpl; auto.
Qed.

(** Once the script is over, a failing probe of a dependency that was to
    be installed rejects [installAllDependencies], whatever the exit code
    was. *)
Lemma installAllDependencies_verifies (missingDeps : list string) (w : World) :
  let script := buildScript (newDate env) (installCommands missingDeps) in
  let afterScript := snd (bash env script (host w)) in
  (includes missingDeps "Node.js" = true
   /\ resolved (exec afterScript "node --version") = false)
  \/ (includes missingDeps "Claude Code CLI" = true
      /\ resolved (exec afterScript "claude --version") = false) ->
  wp (installAllDependencies env missingDeps) (fun o _ => rejected o = true) w.
Proof.
  intros script afterScript Hprobe. unfold installAllDependencies.
  apply wp_bind.
  eapply wp_mono; [apply (updateProgress_keeps _ w w); split; reflexivity|].
  intros o w1 [-> [Hh1 Hd1]].
  apply wp_bind. eapply wp_mono; [apply saveToFile_spec|].
  intros [path|msg] w2 [Hh2 Hsaved]; [|reflexivity].
  destruct Hsaved as [-> Hsaved].
  apply wp_tryFinally_rejected.
  apply wp_bind. eapply wp_mono; [apply (runInstallScript_spec _ _ _ _ Hsaved)|].
  rewrite Hh2, Hh1. fold script. fold afterScript.
  intros [[]|msg] w3 (Hh3 & Hd3 & Hres); [|reflexivity].
  apply wp_bind. apply wp_when.
  destruct (includes missingDeps "Node.js") eqn:Hnode.
  - eapply wp_mono; [apply verify_spec|]. rewrite Hh3.
    intros [[]|msg] w4 [Hh4 Hres4]; [|reflexivity].
    apply wp_bind. apply wp_when.
    destruct Hprobe as [[_ Hfail] | [Hclaude Hfail]].
    { simpl in Hres4. rewrite Hfail in Hres4. discriminate. }
    rewrite Hclaude. eapply wp_mono; [apply verify_spec|].
    rewrite Hh4. intros [[]|msg] w5 [Hh5 Hres5]; [|reflexivity].
    simpl in Hres5. rewrite Hfail in Hres5. discriminate.
  - destruct Hprobe as [[Habs _] | [Hclaude Hfail]]; [discriminate|].
    apply wp_bind. apply wp_when. rewrite Hclaude.
    eapply wp_mono; [apply verify_spec|].
    rewrite Hh3. intros [[]|msg] w5 [Hh5 Hres5]; [|reflexivity].
    simpl in Hres5. rewrite Hfail in Hres5. discriminate.
Qed.

(** C2: when the combined script closes with code zero but the probe of a
    dependency that was to be installed fails on the machine the script
    left ([node --version] for Node.js, [claude --version] for the Claude
    Code CLI), [installAllDependencies] rejects and
    [executeInstallationPlan] returns false.  (The exit code is not what
    decides: [installAllDependencies_verifies] holds for any ending of the
    script.) *)
Theorem failed_verification_fails_the_run (missingDeps : list string) (s : Session) :
  let script := buildScript (newDate env) (installCommands missingDeps) in
  let afterScript := snd (bash env script (host (world s))) in
  ending (fst (bash env script (host (world s)))) = Closed (Some 0%Z) ->
  (includes missingDeps "Node.js" = true
   /\ resolved (exec afterScript "node --version") = false)
  \/ (includes missingDeps "Claude Code CLI" = true
      /\ resolved (exec afterScript "claude --version") = false) ->
  rejected (fst (installAllDependencies env missingDeps (world s))) = true
  /\ (forall plan, List.map item_name (items plan) = missingDeps ->
        fst (executeInstallationPlan (platformService := service env) plan s)
        = Return false).
Proof.
  intros script afterScript _ Hprobe. split.
  - exact (installAllDependencies_verifies missingDeps (world s) Hprobe).
  - intros plan <-. unfold executeInstallationPlan.
    rewrite bind_run. unfold onWorld at 1, onProgress, modify. cbn [fst snd world authChecks].
    set (w1 := mkWorld _ _ _ _ _ _). unfold tryCatch. rewrite bind_run.
    assert (Hhost : host w1 = host (world s)) by reflexivity.
    pose proof (installAllDependencies_verifies (List.map item_name (items plan)) w1) as Hrun.
    cbv zeta in Hrun. rewrite Hhost in Hrun. specialize (Hrun Hprobe).
    unfold wp in Hrun. unfold onWorld at 1. cbn [world Main.installAllDependencies service].
    destruct (installAllDependencies env (List.map item_name (items plan)) w1)
      as [[[]|msg] w2]; [discriminate|].
    reflexivity.
Qed.

End InstallingFacts.

Lemma failed_verification_fails_the_run_witness :
  Eff.rejected
    (fst (LinuxPlatformService.installAllDependencies Examples.idleEnv ["Node.js"]
            (Examples.freshWorld Examples.bareHost))) = true
  /\ fst (SystemSetup.executeInstallationPlan
            (platformService := LinuxPlatformService.service Examples.idleEnv)
            (SystemSetup.createInstallationPlan [Examples.nodeMissing])
            (Examples.freshSession Examples.bareHost)) = Eff.Return false.
Proof.
  destruct (failed_verification_fails_the_run Examples.idleEnv ["Node.js"]
              (Examples.freshSession Examples.bareHost)) as [Hrejects Hfalse].
  - reflexivity.
  - left. split; reflexivity.
  - split; [exact Hrejects|]. apply Hfalse. reflexivity.
Defined.

(** ** The bundle downloader *)

Section PercentFacts.
Import Js BotDownloader.
Local Open Scope Q_scope.

Lemma bytesQ_nonneg (n : N) : 0 <= bytesQ n.
Proof. unfold bytesQ. change 0 with (inject_Z 0). rewrite <- Zle_Qle. lia. Qed.

Lemma bytesQ_le (a b : N) : (a <= b)%N -> bytesQ a <= bytesQ b.
Proof. intros H. unfold bytesQ. rewrite <- Zle_Qle. lia. Qed.

Lemma Math_round_le (x y : Q) : x <= y -> (Math_round x <= Math_round y)%Z.
Proof.
  intros H. unfold Math_round. apply Qfloor_resp_le.
  apply Qplus_le_compat; [exact H | apply Qle_refl].
Qed.

Lemma Math_round_nonneg (x : Q) : 0 <= x -> (0 <= Math_round x)%Z.
Proof. intros H. apply (Math_round_le 0 x H). Qed.

Lemma ratio_nonneg (received total : N) : 0 <= bytesQ received / bytesQ total * 100.
Proof.
  apply Qmult_le_0_compat; [|discriminate].
  apply Qmult_le_0_compat; [apply bytesQ_nonneg|].
  apply Qinv_le_0_compat, bytesQ_nonneg.
Qed.

Lemma ratio_le (a b total : N) :
  (a <= b)%N -> bytesQ a / bytesQ total * 100 <= bytesQ b / bytesQ total * 100.
Proof.
  intros H. apply Qmult_le_compat_r; [|discriminate].
  apply Qmult_le_compat_r; [apply bytesQ_le, H|].
  apply Qinv_le_0_compat, bytesQ_nonneg.
Qed.

Lemma downloadPercent_le_50 (received total : N) : downloadPercent received total <= 50.
Proof.
  unfold downloadPercent. destruct (total =? 0)%N; [apply Qle_refl | apply Q.le_min_r].
Qed.

Lemma downloadPercent_nonneg (received total : N) : 0 <= downloadPercent received total.
Proof.
  unfold downloadPercent. destruct (total =? 0)%N; [discriminate|].
  apply Q.min_glb; [|discriminate].
  apply Qmult_le_0_compat; [|discriminate].
  change 0 with (inject_Z 0). rewrite <- Zle_Qle.
  apply Math_round_nonneg, ratio_nonneg.
Qed.

Lemma downloadPercent_mono (a b total : N) :
  (a <= b)%N -> downloadPercent a total <= downloadPercent b total.
Proof.
  intros H. unfold downloadPercent. destruct (total =? 0)%N; [apply Qle_refl|].
  apply Q.min_le_compat_r. apply Qmult_le_compat_r; [|discriminate].
  rewrite <- Zle_Qle. apply Math_round_le, ratio_le, H.
Qed.

Lemma climbs_weaken (lo hi : Q) (qs : list Q) : lo <= hi -> climbs hi qs -> climbs lo qs.
Proof.
  intros Hle. destruct qs as [|q rest]; simpl; [auto|].
  intros [Hq Hrest]. split; [eapply Qle_trans; eassumption | exact Hrest].
Qed.

Lemma climbs_app (lo hi : Q) (a b : list Q) :
  climbs lo a -> Forall (fun q => q <= hi) a -> lo <= hi -> climbs hi b ->
  climbs lo (a ++ b).
Proof.
  revert lo. induction a as [|q rest IH]; intros lo Ha Hbound Hle Hb; simpl.
  - exact (climbs_weaken lo hi b Hle Hb).
  - destruct Ha as [Hq Hrest]. inversion Hbound as [|? ? Hqhi Hresthi]; subst.
    split; [exact Hq|]. apply IH; assumption.
Qed.

Lemma climbs_nondecreasing (qs : list Q) : climbs 0 qs -> nondecreasing qs.
Proof. destruct qs as [|q rest]; simpl; tauto. Qed.

(** Two neighbours of a non-decreasing sequence. *)
Lemma climbs_neighbours (qs : list Q) :
  forall lo i a b,
    climbs lo qs -> nth_error qs i = Some a -> nth_error qs (S i) = Some b -> a <= b.
Proof.
  induction qs as [|q rest IH]; intros lo i a b Hclimbs Ha Hb.
  - destruct i; discriminate.
  - destruct Hclimbs as [_ Hrest]. destruct i as [|i].
    + injection Ha as <-. destruct rest as [|q' rest']; [discriminate|].
      injection Hb as <-. exact (proj1 Hrest).
    + exact (IH q i a b Hrest Ha Hb).
Qed.

Lemma nondecreasing_neighbours (qs : list Q) (i : nat) (a b : Q) :
  nondecreasing qs -> nth_error qs i = Some a -> nth_error qs (S i) = Some b -> a <= b.
Proof.
  destruct qs as [|q rest]; [destruct i; discriminate|].
  intros Hnd. apply (climbs_neighbours (q :: rest) q i a b).
  split; [apply Qle_refl | exact Hnd].
Qed.

End PercentFacts.

Section DownloadFacts.
Import Js Eff BotDownloader.
Local Open Scope Q_scope.
Variable env : Env.

Lemma chunkEvents_climb (verb : string) (total : N) (chunks : list positive) :
  forall received lo,
    (forall later, (received < later)%N -> lo <= downloadPercent later total) ->
    climbs lo (percents (chunkEvents verb total received chunks)).
Proof.
  induction chunks as [|chunk rest IH]; intros received lo Hlo; simpl; [exact I|].
  split.
  - apply Hlo. lia.
  - apply IH. intros later Hlater. apply downloadPercent_mono. lia.
Qed.

Lemma chunkEvents_staged (verb : string) (total : N) (chunks : list positive) :
  forall received,
    Forall (fun e => progress e <= 50) (chunkEvents verb total received chunks)
    /\ Forall wellStaged (chunkEvents verb total received chunks).
Proof.
  induction chunks as [|chunk rest IH]; intros received; simpl.
  - split; constructor.
  - destruct (IH (received + N.pos chunk)%N) as [Hbound Hstaged].
    split; constructor; try assumption.
    + apply downloadPercent_le_50.
    + unfold wellStaged, scaled. simpl. repeat split.
      * discriminate.
      * apply downloadPercent_nonneg.
      * intros H100. exfalso.
        pose proof (downloadPercent_le_50 (received + N.pos chunk) total) as H50.
        rewrite H100 in H50. apply H50. reflexivity.
      * apply downloadPercent_le_50.
      * right. eauto.
      * intros Hhigh. exfalso.
        apply (Qlt_not_le _ _ Hhigh), downloadPercent_le_50.
Qed.

Lemma Ascending_start : Ascending 0 [].
Proof. repeat split; try constructor. apply Qle_refl. Qed.

Lemma Ascending_app (hi hi' : Q) (events more : list DownloadProgress) :
  Ascending hi events ->
  hi <= hi' ->
  climbs hi (percents more) ->
  Forall (fun e => progress e <= hi') more ->
  Forall wellStaged more ->
  Ascending hi' (events ++ more).
Proof.
  intros (Hhi & Hclimb & Hbound & Hstaged) Hle Hmore Hmorebound Hmorestaged.
  repeat split.
  - eapply Qle_trans; eassumption.
  - unfold percents. rewrite List.map_app.
    apply (climbs_app 0 hi); try assumption.
    apply List.Forall_map. exact Hbound.
  - apply List.Forall_app. split; [|exact Hmorebound].
    eapply List.Forall_impl; [|exact Hbound]. simpl. intros e He.
    eapply Qle_trans; eassumption.
  - apply List.Forall_app. split; assumption.
Qed.

Lemma Ascending_snoc (hi : Q) (events : list DownloadProgress) (e : DownloadProgress) :
  Ascending hi events -> hi <= progress e -> wellStaged e ->
  Ascending (progress e) (events ++ [e]).
Proof.
  intros Hasc Hle He.
  apply (Ascending_app hi (progress e) events [e] Hasc Hle).
  - simpl. auto.
  - constructor; [apply Qle_refl | constructor].
  - constructor; [exact He | constructor].
Qed.

Lemma updateProgress_run (e : DownloadProgress) (w : World) :
  updateProgress e w = (Return tt, mkWorld (sent w ++ [e]) (files w)).
Proof. reflexivity. Qed.

Lemma foldM_onData (verb : string) (total : N) (chunks : list positive) :
  forall received w,
    exists received',
      foldM (onData verb total) chunks received w
      = (Return received',
         mkWorld (sent w ++ chunkEvents verb total received chunks) (files w)).
Proof.
  induction chunks as [|chunk rest IH]; intros received w; simpl.
  - exists received. rewrite app_nil_r. destruct w. reflexivity.
  - rewrite bind_run. unfold onData at 1. rewrite bind_run, updateProgress_run.
    unfold ret at 1.
    destruct (IH (received + N.pos chunk)%N
                 (mkWorld (sent w ++ [mkDownloadProgress downloading
                    (downloadPercent (received + N.pos chunk) total)
                    (Some total) (Some (received + N.pos chunk)%N)
                    (verb +:+ " " +:+ megabytes (received + N.pos chunk) +:+ "MB / "
                       +:+ megabytes total +:+ "MB") None]) (files w)))
      as [received' Hrest].
    exists received'. rewrite Hrest. simpl. rewrite <- app_assoc. reflexivity.
Qed.

Lemma handleDownloadResponse_sends (response : Response) (destination : string)
  (total : N) (w : World) :
  exists chunks,
    sent (snd (handleDownloadResponse response destination total w))
    = sent w ++ chunkEvents "Downloading..." total 0 chunks.
Proof.
  exists (chunks (body response)). unfold handleDownloadResponse.
  rewrite bind_run.
  destruct (foldM_onData "Downloading..." total (chunks (body response)) 0%N w)
    as [received Hfold].
  rewrite Hfold.
  destruct (transferEnd (body response)) as [|message]; reflexivity.
Qed.

Ltac via_response :=
  match goal with
  | |- context [handleDownloadResponse ?r ?d ?t ?x] =>
      destruct (handleDownloadResponse_sends r d t x) as [received Hsent];
      exists received; exact Hsent
  end.

Lemma downloadFile_sends (url destination : string) (total : N) (w : World) :
  exists verb chunks,
    sent (snd (downloadFile env url destination total w))
    = sent w ++ chunkEvents verb total 0 chunks.
Proof.
  unfold downloadFile. destruct (String.prefix "file://" url).
  - exists "Copying local bundle...", (chunks (readLocal env (dropString 7 url))).
    rewrite bind_run. unfold setFiles at 1, modify at 1. rewrite bind_run.
    match goal with
    | |- context [foldM (onData ?v ?t) ?c ?r ?x] =>
        destruct (foldM_onData v t c r x) as [received Hfold]; rewrite Hfold
    end.
    destruct (transferEnd _); reflexivity.
  - rewrite bind_run. unfold setFiles at 1, modify at 1.
    destruct (httpsGet env url) as [message|response].
    + exists "Downloading...", []. simpl. rewrite app_nil_r. reflexivity.
    + destruct ((statusCode response =? 301)%nat || (statusCode response =? 302)%nat).
      * destruct (location response) as [redirectUrl|].
        -- exists "Downloading...". via_response.
        -- exists "Downloading...", []. simpl. rewrite app_nil_r. reflexivity.
      * destruct (statusCode response =? 200)%nat.
        -- exists "Downloading...". via_response.
        -- exists "Downloading...", []. simpl. rewrite app_nil_r. reflexivity.
Qed.

Lemma extractArchive_silent (archivePath destination : string) :
  silent (extractArchive env archivePath destination).
Proof.
  intros w. unfold extractArchive.
  destruct ((NodePath.extname archivePath =? ".gz")%string
            || (NodePath.extname archivePath =? ".tar")%string).
  - destruct (tarExtract env archivePath destination) as [written result]. reflexivity.
  - destruct (NodePath.extname archivePath =? ".zip")%string; reflexivity.
Qed.


Ltac staged :=
  unfold wellStaged, scaled; simpl;
  repeat split; try discriminate;
  try (intros H; solve [discriminate H | exfalso; apply H; reflexivity
                        | vm_compute in H; discriminate H]);
  try (intros; first [reflexivity | left; reflexivity | right; reflexivity
                      | left; split; reflexivity]).

Lemma getLatestRelease_run (w : World) :
  exists release, getLatestRelease env w = (Return release, w).
Proof.
  unfold getLatestRelease. destruct (statLocalBundle env _); eexists; reflexivity.
Qed.

(** The [try] block keeps the events ascending; when it returns, it
    returns true and its last event is the [complete] one. *)
Lemma pipeline_ascends (present : gmap string bool) :
  let r := pipeline env (mkWorld [] present) in
  exists hi,
    Ascending hi (sent (snd r))
    /\ match fst r with
       | Return b => b = true /\ exists before, sent (snd r) = before ++ [completeEvent]
       | Throw _ => True
       end.
Proof.
  cbv zeta.
  destruct (pipeline env (mkWorld [] present)) as [o w'] eqn:Hrun. simpl fst. simpl snd.
  unfold pipeline in Hrun.
  rewrite bind_run, updateProgress_run in Hrun. cbn [sent files app] in Hrun.
  set (e0 := mkDownloadProgress checking 0 None None _ None) in Hrun.
  assert (A0 : Ascending 0 [e0]).
  { apply (Ascending_snoc 0 [] e0 Ascending_start); [apply Qle_refl | staged]. }
  rewrite bind_run in Hrun.
  destruct (getLatestRelease_run (mkWorld [e0] present)) as [release Hrelease].
  rewrite Hrelease in Hrun.
  rewrite bind_run in Hrun. unfold settle at 1 in Hrun.
  destruct (mkdir env (botDirectory env)) as [[]|msg];
    [|injection Hrun as <- <-; exists 0; auto].
  rewrite bind_run, updateProgress_run in Hrun. cbn [sent files app] in Hrun.
  set (e1 := mkDownloadProgress downloading 0 _ _ _ None) in Hrun.
  assert (A1 : Ascending 0 [e0; e1]).
  { apply (Ascending_snoc 0 [e0] e1 A0); [apply Qle_refl | staged]. }
  rewrite bind_run in Hrun.
  destruct (downloadFile_sends (downloadUrl release) (downloadPath env) (size release)
              (mkWorld [e0; e1] present)) as (verb & received & Hsent).
  destruct (downloadFile env _ _ _ _) as [o2 w2]. simpl in Hsent.
  assert (A2 : Ascending 50 (sent w2)).
  { rewrite Hsent.
    apply (Ascending_app 0 50 [e0; e1] _ A1); [discriminate| | |].
    - apply chunkEvents_climb. intros later _. apply downloadPercent_nonneg.
    - apply chunkEvents_staged.
    - apply chunkEvents_staged. }
  destruct o2 as [[]|msg]; [|injection Hrun as <- <-; exists 50; auto].
  rewrite bind_run, updateProgress_run in Hrun.
  set (e2 := mkDownloadProgress extracting 50 None None _ None) in Hrun.
  assert (A3 : Ascending 50 (sent w2 ++ [e2])).
  { apply (Ascending_snoc 50 _ e2 A2); [apply Qle_refl | staged]. }
  rewrite bind_run in Hrun.
  pose proof (extractArchive_silent (downloadPath env) (botDirectory env)
                (mkWorld (sent w2 ++ [e2]) (files w2))) as Hquiet.
  destruct (extractArchive env _ _ _) as [o3 w3]. simpl in Hquiet.
  destruct o3 as [[]|msg];
    [|injection Hrun as <- <-; exists 50; rewrite Hquiet; auto].
  rewrite bind_run in Hrun. unfold settle at 1 in Hrun.
  destruct (unlinkSync env (downloadPath env)) as [[]|msg];
    [|injection Hrun as <- <-; exists 50; rewrite Hquiet; auto].
  rewrite bind_run in Hrun. unfold setFiles at 1, modify at 1 in Hrun.
  rewrite bind_run, updateProgress_run in Hrun.
  cbn [sent files app] in Hrun. rewrite Hquiet in Hrun.
  set (e3 := mkDownloadProgress verifying 90 None None _ None) in Hrun.
  assert (A4 : Ascending 90 ((sent w2 ++ [e2]) ++ [e3])).
  { apply (Ascending_snoc 50 _ e3 A3); [discriminate | staged]. }
  rewrite bind_run in Hrun. unfold checkBotInstalled at 1 in Hrun.
  rewrite bind_run in Hrun. unfold ask at 1, ret at 1 in Hrun. simpl in Hrun.
  match type of Hrun with context [negb ?b] => destruct b end; simpl in Hrun;
    [|injection Hrun as <- <-; exists 90; auto].
  unfold settle at 1 in Hrun. rewrite bind_run in Hrun.
  destruct (chmodSync env (botExecutable env)) as [[]|msg];
    [|injection Hrun as <- <-; exists 90; auto].
  rewrite bind_run in Hrun. unfold setFiles at 1, modify at 1 in Hrun.
  rewrite bind_run, updateProgress_run in Hrun. simpl in Hrun.
  injection Hrun as <- <-. simpl sent.
  exists 100. split.
  - apply (Ascending_snoc 90 _ completeEvent A4); [discriminate | staged].
  - split; [reflexivity|]. eexists. reflexivity.
Qed.

Lemma Stage_eqb_eq (a b : Stage) : Stage_eqb a b = true <-> a = b.
Proof. destruct a, b; simpl; split; intros H; congruence. Qed.

Lemma beforeError_staged (events : list DownloadProgress) :
  Forall wellStaged events -> beforeError events = events.
Proof.
  induction 1 as [|e rest He _ IH]; simpl; [reflexivity|].
  unfold isError at 1. destruct (Stage_eqb (stage e) error) eqn:Hstage.
  - apply Stage_eqb_eq in Hstage. destruct He as [Hnot _]. contradiction.
  - simpl. fold (beforeError rest). rewrite IH. reflexivity.
Qed.

Lemma beforeError_failed (good : list DownloadProgress) (message : string) :
  Forall wellStaged good -> beforeError (good ++ [errorEvent message]) = good.
Proof.
  intros Hgood. unfold beforeError. rewrite List.filter_app. simpl.
  fold (beforeError good). rewrite (beforeError_staged good Hgood). apply app_nil_r.
Qed.

(** The two ways a run of [downloadBot] ends. *)
Lemma downloadBot_run (present : gmap string bool) :
  let run := downloadBot env (mkWorld [] present) in
  (fst run = Return true
   /\ exists hi before,
        sent (snd run) = before ++ [completeEvent] /\ Ascending hi (sent (snd run)))
  \/ (fst run = Return false
      /\ exists hi good message,
           fst (pipeline env (mkWorld [] present)) = Throw message
           /\ sent (snd run) = good ++ [errorEvent message]
           /\ Ascending hi good).
Proof.
  cbv zeta. unfold downloadBot, tryCatch.
  destruct (pipeline_ascends present) as (hi & Hasc & Hend).
  destruct (pipeline env (mkWorld [] present)) as [[b|message] w']; simpl in *.
  - destruct Hend as [-> [before Hlast]]. left. split; [reflexivity|]. eauto.
  - right. split; [reflexivity|]. exists hi, (sent w'), message. auto.
Qed.


Lemma events_staged (present : gmap string bool) (e : DownloadProgress) :
  In e (downloadEvents env present) ->
  wellStaged e \/ (exists message, e = errorEvent message).
Proof.
  unfold downloadEvents. intros Hin.
  destruct (downloadBot_run present)
    as [(_ & hi & before & _ & Hasc) | (_ & hi & good & message & _ & Hlast & Hasc)].
  - left. destruct Hasc as (_ & _ & _ & Hstaged).
    rewrite List.Forall_forall in Hstaged. apply Hstaged, Hin.
  - cbv zeta in Hlast. rewrite Hlast in Hin. apply in_app_or in Hin as [Hgood | [<- | []]].
    + left. destruct Hasc as (_ & _ & _ & Hstaged).
      rewrite List.Forall_forall in Hstaged. apply Hstaged, Hgood.
    + right. eauto.
Qed.


(** C6, as it holds: the percents of the events other than the [error]
    event never decrease, 100 is sent only with stage [complete], and an
    [error] event is the last event of its run and carries percent 0. *)
Theorem percent_nondecreasing_until_error (present : gmap string bool) :
  let events := downloadEvents env present in
  nondecreasing (percents (beforeError events))
  /\ (forall e, In e events -> progress e == 100 -> stage e = complete)
  /\ (forall e, In e events -> stage e = error ->
        progress e == 0 /\ events = beforeError events ++ [e]).
Proof.
  cbv zeta. split; [|split].
  - unfold downloadEvents.
    destruct (downloadBot_run present)
      as [(_ & hi & before & _ & Hasc) | (_ & hi & good & message & _ & Hlast & Hasc)].
    + destruct Hasc as (_ & Hclimb & _ & Hstaged).
      rewrite (beforeError_staged _ Hstaged). apply climbs_nondecreasing, Hclimb.
    + cbv zeta in Hlast. rewrite Hlast.
      destruct Hasc as (_ & Hclimb & _ & Hstaged).
      rewrite (beforeError_failed _ _ Hstaged). apply climbs_nondecreasing, Hclimb.
  - intros e Hin H100. destruct (events_staged present e Hin) as [He | [message ->]].
    + destruct He as (_ & _ & Hfull & _). auto.
    + vm_compute in H100. discriminate.
  - intros e Hin Herror. unfold downloadEvents in *.
    destruct (downloadBot_run present)
      as [(_ & hi & before & _ & Hasc) | (_ & hi & good & message & _ & Hlast & Hasc)].
    + destruct Hasc as (_ & _ & _ & Hstaged).
      rewrite List.Forall_forall in Hstaged. destruct (Hstaged e Hin) as [Hnot _].
      contradiction.
    + cbv zeta in Hlast. rewrite Hlast in *.
      destruct Hasc as (_ & _ & _ & Hstaged).
      rewrite (beforeError_failed _ _ Hstaged).
      apply in_app_or in Hin as [Hgood | [<- | []]].
      * rewrite List.Forall_forall in Hstaged. destruct (Hstaged e Hgood) as [Hnot _].
        contradiction.
      * split; reflexivity.
Qed.

(** C8, as it holds: for a path whose extension is neither [.gz] nor
    [.tar], [extractArchive] throws without calling the extractor and
    leaves the disk and the event log as they were; the message names ZIP
    for [.zip] and the extension otherwise. *)
Theorem extractArchive_rejects_other_extensions (archivePath destination : string)
  (w : World) :
  NodePath.extname archivePath <> ".gz" ->
  NodePath.extname archivePath <> ".tar" ->
  extractArchive env archivePath destination w
  = (Throw (if (NodePath.extname archivePath =? ".zip")%string
            then "ZIP extraction not yet implemented"
            else "Unsupported archive format: " +:+ NodePath.extname archivePath),
     w).
Proof.
  intros Hgz Htar. unfold extractArchive.
  apply String.eqb_neq in Hgz, Htar. rewrite Hgz, Htar. simpl.
  destruct (NodePath.extname archivePath =? ".zip")%string; reflexivity.
Qed.

End DownloadFacts.

Section DownloadExamples.
Import Js Eff BotDownloader.
Local Open Scope Q_scope.

Lemma downloadBot_examples :
  fst (downloadBot Examples.remoteEnv Examples.emptyDisk) = Return true
  /\ fst (downloadBot Examples.corruptEnv Examples.emptyDisk) = Return false.
Proof. split; vm_compute; reflexivity. Qed.


Lemma percent_nondecreasing_until_error_witness :
  let events := downloadEvents Examples.corruptEnv ∅ in
  let e := errorEvent "TAR_BAD_ARCHIVE: Unrecognized archive format" in
  nondecreasing (percents (beforeError events))
  /\ In e events
  /\ progress e == 0
  /\ events = beforeError events ++ [e].
Proof.
  cbv zeta.
  destruct (percent_nondecreasing_until_error Examples.corruptEnv ∅)
    as (Hrises & _ & Herror).
  assert (Hin : In (errorEvent "TAR_BAD_ARCHIVE: Unrecognized archive format")
                   (downloadEvents Examples.corruptEnv ∅))
    by (vm_compute; do 6 right; left; reflexivity).
  split; [exact Hrises|]. split; [exact Hin|].
  exact (Herror _ Hin eq_refl).
Defined.

(** C6 as stated fails on a run that ends in [error]: the archive does not
    unpack, the event before the failure carries 50 and the [error] event
    carries 0. *)
Lemma percent_drops_in_error_event :
  let events := downloadEvents Examples.corruptEnv ∅ in
  fst (downloadBot Examples.corruptEnv Examples.emptyDisk) = Return false
  /\ List.map stage events
     = [checking; downloading; downloading; downloading; downloading; extracting; error]
  /\ ~ nondecreasing (percents events).
Proof.
  cbv zeta. split; [vm_compute; reflexivity|]. split; [vm_compute; reflexivity|].
  intros Hrises.
  assert (Hdrop : 50 <= 0).
  { apply (nondecreasing_neighbours _ 5 50 0 Hrises); vm_compute; reflexivity. }
  apply Hdrop. reflexivity.
Qed.

Lemma extractArchive_rejects_other_extensions_witness :
  extractArchive Examples.localEnv "/tmp/toji-bot-download.zip" "/home/user/.toji/bot"
    Examples.emptyDisk
  = (Throw "ZIP extraction not yet implemented", Examples.emptyDisk).
Proof.
  apply (extractArchive_rejects_other_extensions Examples.localEnv
           "/tmp/toji-bot-download.zip" "/home/user/.toji/bot" Examples.emptyDisk).
  - vm_compute. discriminate.
  - vm_compute. discriminate.
Defined.

(** C8 as stated fails for [.tar]: it is not the extension of a
    gzip-compressed archive, yet [extractArchive] hands the path to the
    extractor, raises nothing and files appear in the destination. *)
Lemma extractArchive_accepts_plain_tar :
  let run := extractArchive Examples.localEnv "/tmp/toji-bot.tar" "/home/user/.toji/bot"
               Examples.emptyDisk in
  NodePath.extname "/tmp/toji-bot.tar" = ".tar"
  /\ fst run = Return tt
  /\ files (snd run) !! "/home/user/.toji/bot/toji-bot" = Some true.
Proof. cbv zeta. repeat split; vm_compute; reflexivity. Qed.

End DownloadExamples.

(** * Further properties of the code *)

(** ** The script builder: where a command ends up *)

Section BuilderOrder.
Import Js InstallScriptBuilder.



End BuilderOrder.


(** ** Numerals and progress lines *)


Section Numerals.
Import Js.








End Numerals.

Section ProgressLines.
Import Js Eff PlatformService Main InstallScriptBuilder LinuxPlatformService Sentinel.

Lemma append_cons (c : ascii) (a b : string) : String c a +:+ b = String c (a +:+ b).
Proof. reflexivity. Qed.

Lemma prefix_append (a b : string) : String.prefix a (a +:+ b) = true.
Proof.
  induction a as [|c a IH]; [destruct b; reflexivity|].
  rewrite append_cons. simpl. rewrite IH.
  destruct (ascii_dec c c); [reflexivity | contradiction].
Qed.

Lemma dropString_append (a b : string) : dropString (String.length a) (a +:+ b) = b.
Proof.
  induction a as [|c a IH]; [destruct b; reflexivity|].
  rewrite append_cons. simpl. exact IH.
Qed.










End ProgressLines.


(** ** The Linux probes *)

Section LinuxProbes.
Import Js Eff PlatformService Main LinuxPlatformService LinuxInstallers.



(** One run of [checkSystemCapabilities], by what the three probes answer. *)
Lemma checkSystemCapabilities_run (w : World) :
  let apt := resolved (exec (host w) "which apt") in
  let pkexec := resolved (exec (host w) "which pkexec") in
  let sudo := resolved (exec (host w) "which sudo") in
  exists w',
    checkSystemCapabilities w
    = (Return (mkCapabilities apt (pkexec || sudo) (apt && (pkexec || sudo))
                 (if apt then Some "apt" else None)
                 (if pkexec then Some "pkexec" else if sudo then Some "sudo" else None)),
       w')
    /\ calls w' = calls w ++ [Exec "which apt"; Exec "which pkexec"]
                   ++ (if pkexec then [] else [Exec "which sudo"])
    /\ host w' = host w /\ disk w' = disk w /\ ipc w' = ipc w.
Proof.
  cbv zeta.
  unfold checkSystemCapabilities, execAsync, record, tryCatch, modify, ask, settle, ret, bind.
  cbn.
  destruct (exec (host w) "which apt") as [out1|msg1]; cbn;
    destruct (exec (host w) "which pkexec") as [out2|msg2]; cbn;
    try (destruct (exec (host w) "which sudo") as [out3|msg3]; cbn);
    eexists; (split; [reflexivity|]);
    cbn; rewrite <- ?app_assoc; repeat split; reflexivity.
Qed.

(** X4: [checkSystemCapabilities] never throws.  It finds a package
    manager exactly when [which apt] succeeds; it prefers pkexec, asks for
    sudo only when pkexec is missing, and names the tool it found; system
    packages can be installed exactly when both were found.  It sends
    nothing and leaves the machine and the disk alone. *)
Theorem checkSystemCapabilities_prefers_pkexec (w : World) :
  let apt := resolved (exec (host w) "which apt") in
  let pkexec := resolved (exec (host w) "which pkexec") in
  let sudo := resolved (exec (host w) "which sudo") in
  exists w',
    checkSystemCapabilities w
    = (Return (mkCapabilities apt (pkexec || sudo) (apt && (pkexec || sudo))
                 (if apt then Some "apt" else None)
                 (if pkexec then Some "pkexec" else if sudo then Some "sudo" else None)),
       w')
    /\ calls w' = calls w ++ [Exec "which apt"; Exec "which pkexec"]
                   ++ (if pkexec then [] else [Exec "which sudo"])
    /\ host w' = host w /\ disk w' = disk w /\ ipc w' = ipc w.
Proof. exact (checkSystemCapabilities_run w). Qed.

End LinuxProbes.


(** ** Running one command *)

Section RunningCommands.
Import Js Eff PlatformService Main InstallScriptBuilder LinuxPlatformService LinuxInstallers.
Variable env : Env.
Variable sh : string -> Host -> ScriptRun * Host.

(** A progress update returns; it touches the progress record and the
    messages to the renderer only. *)
Lemma updateProgress_outside (update : InstallProgress) (w : World) :
  wp (updateProgress update)
     (fun o w' =>
        o = Return tt /\ host w' = host w /\ disk w' = disk w /\ calls w' = calls w
        /\ currentProgress w' = Some (spread (currentProgress w) update)) w.
Proof.
  unfold wp, updateProgress, setCurrentProgress, modify, when, send, ask, ret, bind.
  simpl. destruct (onProgressCallback w); simpl; auto.
Qed.

Lemma onCommandChunk_outside (state : list string * string) (chunk : Chunk) (w0 w : World) :
  host w = host w0 /\ disk w = disk w0 /\ calls w = calls w0 ->
  wp (onCommandChunk state chunk)
     (fun o w' => resolved o = true
                  /\ (host w' = host w0 /\ disk w' = disk w0 /\ calls w' = calls w0)) w.
Proof.
  intros (Hh & Hd & Hc). destruct chunk as [text|text]; simpl.
  - destruct (truthy (trim text)).
    + apply wp_bind. eapply wp_mono; [apply updateProgress_outside|].
      intros o w1 (-> & Hh1 & Hd1 & Hc1 & _). apply wp_ret.
      rewrite Hh1, Hd1, Hc1. auto.
    + apply wp_ret. auto.
  - apply wp_ret. auto.
Qed.

(** [runCommand] spawns the command through [sh], once, and resolves
    exactly when it closes with code zero. *)
Lemma runCommand_spec (command description : string) (w : World) :
  wp (runCommand sh command description)
     (fun o w' =>
        host w' = snd (sh command (host w))
        /\ disk w' = disk w
        /\ calls w' = calls w ++ [Spawn "sh" ("-c " +:+ command)]
        /\ resolved o = exitedZero (ending (fst (sh command (host w))))) w.
Proof.
  unfold runCommand.
  apply wp_bind. unfold ask at 1. unfold wp at 1. simpl.
  apply wp_bind. eapply wp_mono; [apply updateProgress_outside|].
  intros o w1 (-> & Hh1 & Hd1 & Hc1 & _).
  apply wp_bind. apply wp_modify.
  apply wp_bind. unfold ask at 1. unfold wp at 1. simpl. rewrite Hh1.
  destruct (sh command (host w)) as [run h'] eqn:Hrun. simpl.
  apply wp_bind. apply wp_modify.
  apply wp_bind.
  set (w2 := mkWorld h' _ _ _ _ _).
  eapply wp_mono.
  { apply (wp_foldM onCommandChunk
             (fun w' => host w' = host w2 /\ disk w' = disk w2 /\ calls w' = calls w2));
      [|repeat split; reflexivity].
    intros acc chunk w3 Hw3. apply onCommandChunk_outside. exact Hw3. }
  intros [[log stderr]|msg] w3 [Hres (Hh3 & Hd3 & Hc3)]; [|discriminate].
  subst w2. simpl in Hh3, Hd3, Hc3. rewrite Hd1 in Hd3. rewrite Hc1 in Hc3.
  assert (Hfails : forall update message,
             wp (updateProgress update ;; throw message)%eff
                (fun (o : outcome unit) w' =>
                   host w' = h' /\ disk w' = disk w
                   /\ calls w' = calls w ++ [Spawn "sh" ("-c " +:+ command)]
                   /\ resolved o = false) w3).
  { intros update message. apply wp_bind.
    eapply wp_mono; [apply updateProgress_outside|].
    intros o4 w4 (-> & Hh4 & Hd4 & Hc4 & _). apply wp_throw.
    rewrite Hh4, Hd4, Hc4, Hh3, Hd3, Hc3. auto. }
  destruct (ending run) as [[code|]|message]; simpl.
  - destruct (code =? 0)%Z.
    + eapply wp_mono; [apply updateProgress_outside|].
      intros o4 w4 (-> & Hh4 & Hd4 & Hc4 & _).
      rewrite Hh4, Hd4, Hc4, Hh3, Hd3, Hc3. auto.
    + apply Hfails.
  - apply Hfails.
  - apply Hfails.
Qed.

(** X5: [runElevatedCommand] throws without running anything when
    neither pkexec nor sudo is installed; otherwise it runs the command
    once through [sh], prefixed with pkexec when that exists and with sudo
    when not, and resolves exactly when that run closes with code zero. *)
Theorem runElevatedCommand_needs_a_tool (command description : string) (w : World) :
  let pkexec := resolved (exec (host w) "which pkexec") in
  let sudo := resolved (exec (host w) "which sudo") in
  let probes := [Exec "which apt"; Exec "which pkexec"]
                ++ (if pkexec then [] else [Exec "which sudo"]) in
  let r := runElevatedCommand sh command description w in
  if pkexec || sudo then
    let elevated := (if pkexec then "pkexec " else "sudo ") +:+ command in
    calls (snd r) = calls w ++ probes ++ [Spawn "sh" ("-c " +:+ elevated)]
    /\ resolved (fst r) = exitedZero (ending (fst (sh elevated (host w))))
  else
    fst r = Throw "No privilege escalation method available (pkexec or sudo required)"
    /\ calls (snd r) = calls w ++ probes.
Proof.
  cbv zeta. unfold runElevatedCommand. rewrite bind_run.
  destruct (checkSystemCapabilities_run w) as (w1 & Hrun & Hcalls & Hhost & _).
  cbv zeta in Hrun, Hcalls. rewrite Hrun.
  cbn [hasPrivilegeEscalation elevationMethod].
  destruct (resolved (exec (host w) "which pkexec")) eqn:Hpkexec.
  - cbn [orb negb].
    pose proof (runCommand_spec ("pkexec " +:+ command) description w1) as Hspec.
    unfold wp in Hspec. destruct Hspec as (_ & _ & Hc & Hres).
    rewrite Hc, Hres, Hcalls, Hhost, <- app_assoc. split; reflexivity.
  - destruct (resolved (exec (host w) "which sudo")) eqn:Hsudo; cbn [orb negb].
    + pose proof (runCommand_spec ("sudo " +:+ command) description w1) as Hspec.
      unfold wp in Hspec. destruct Hspec as (_ & _ & Hc & Hres).
      rewrite Hc, Hres, Hcalls, Hhost, <- app_assoc. split; reflexivity.
    + split; [reflexivity | exact Hcalls].
Qed.

Lemma installProgress_run (update : InstallProgress) (w : World) :
  exists w',
    updateProgress update w = (Return tt, w')
    /\ host w' = host w /\ disk w' = disk w /\ calls w' = calls w
    /\ currentProgress w' = Some (spread (currentProgress w) update).
Proof.
  pose proof (updateProgress_outside update w) as H. unfold wp in H.
  destruct (updateProgress update w) as [o w']. simpl in H.
  destruct H as (-> & H). exists w'. split; [reflexivity | exact H].
Qed.






End RunningCommands.


(** ** The installers of the Linux service *)

Section Installers.
Import Js Eff PlatformService Main InstallScriptBuilder LinuxPlatformService LinuxInstallers.
Variable env : Env.
Variable sh : string -> Host -> ScriptRun * Host.

Lemma saveToFile_run (builder : Builder) (w : World) :
  exists w',
    saveToFile env builder w
    = (match writeFile env (scriptPath env) with
       | Return _ => Return (scriptPath env)
       | Throw message => Throw message
       end, w')
    /\ host w' = host w /\ calls w' = calls w
    /\ disk w' = match writeFile env (scriptPath env) with
                 | Return _ => <[scriptPath env := buildScript (newDate env) builder]> (disk w)
                 | Throw _ => disk w
                 end.
Proof.
  unfold saveToFile, setDisk, modify, ask, settle, ret, bind. fold (scriptPath env).
  destruct (writeFile env (scriptPath env)) as [[]|message]; simpl; eexists; eauto.
Qed.

Lemma runInstallScript_run (scriptPath description text : string) (w : World) :
  disk w !! scriptPath = Some text ->
  exists o w',
    runInstallScript env scriptPath description w = (o, w')
    /\ host w' = snd (bash env text (host w))
    /\ disk w' = disk w
    /\ resolved o = exitedZero (ending (fst (bash env text (host w)))).
Proof.
  intros Hdisk. pose proof (runInstallScript_spec env scriptPath description text w Hdisk) as H.
  unfold wp in H. destruct (runInstallScript env scriptPath description w) as [o w'].
  exists o, w'. split; [reflexivity | exact H].
Qed.

Lemma execAsync_run (cmd : string) (w : World) :
  exists w',
    execAsync cmd w = (exec (host w) cmd, w')
    /\ host w' = host w /\ disk w' = disk w /\ calls w' = calls w ++ [Exec cmd].
Proof.
  unfold execAsync, record, modify, ask, settle, bind. simpl. eexists. eauto.
Qed.

Lemma verify_run (probe message : string) (w : World) :
  exists o w',
    verify probe message w = (o, w')
    /\ host w' = host w /\ disk w' = disk w
    /\ resolved o = resolved (exec (host w) probe).
Proof.
  unfold verify, tryCatch. rewrite bind_run.
  destruct (execAsync_run probe w) as (w' & -> & Hh & Hd & _).
  destruct (exec (host w) probe) as [out|msg]; simpl; eexists; eexists; eauto.
Qed.

Lemma unlinkFile_run (path : string) (w : World) :
  exists w',
    unlinkFile env path w
    = (match unlink env path with
       | Return _ => Return tt
       | Throw message => Throw message
       end, w')
    /\ host w' = host w
    /\ disk w' = match unlink env path with
                 | Return _ => delete path (disk w)
                 | Throw _ => disk w
                 end.
Proof.
  unfold unlinkFile, setDisk, modify, ask, settle, bind.
  destruct (unlink env path) as [[]|message]; simpl; eexists; eauto.
Qed.

(** The body of the [try] of [installAllDependencies], once the script is
    on disk. *)
Lemma installing_run (missingDeps : list string) (path text : string) (w : World) :
  disk w !! path = Some text ->
  let afterScript := snd (bash env text (host w)) in
  exists o w',
    (runInstallScript env path "Installing all dependencies" ;;
     when (includes missingDeps "Node.js")
       (verify "node --version" "Node.js installation verification failed") ;;
     when (includes missingDeps "Claude Code CLI")
       (verify "claude --version" "Claude Code CLI installation verification failed") ;;
     updateProgress
       (mkProgress (Some "Installation complete") (Some 100%N) None
          (Some "All dependencies installed successfully") None None))%eff w
    = (o, w')
    /\ host w' = afterScript /\ disk w' = disk w
    /\ resolved o
       = exitedZero (ending (fst (bash env text (host w))))
         && (negb (includes missingDeps "Node.js")
             || resolved (exec afterScript "node --version"))
         && (negb (includes missingDeps "Claude Code CLI")
             || resolved (exec afterScript "claude --version")).
Proof.
  intros Hdisk. cbv zeta. rewrite bind_run.
  destruct (runInstallScript_run path "Installing all dependencies" text w Hdisk)
    as (o1 & w1 & -> & Hh1 & Hd1 & Hres1).
  rewrite <- Hres1, <- Hh1.
  destruct o1 as [[]|msg1]; [|simpl; eexists; eexists; eauto].
  cbn [resolved andb]. rewrite bind_run.
  assert (Hnode : exists o2 w2,
             when (includes missingDeps "Node.js")
               (verify "node --version" "Node.js installation verification failed") w1
             = (o2, w2)
             /\ host w2 = host w1 /\ disk w2 = disk w1
             /\ resolved o2 = negb (includes missingDeps "Node.js")
                              || resolved (exec (host w1) "node --version")).
  { destruct (includes missingDeps "Node.js"); cbn [when negb orb].
    - apply verify_run.
    - exists (Return tt), w1. auto. }
  destruct Hnode as (o2 & w2 & -> & Hh2 & Hd2 & Hres2). rewrite <- Hres2.
  destruct o2 as [[]|msg2]; [|simpl; eexists; eexists; rewrite Hh2, Hd2; eauto].
  cbn [resolved andb]. rewrite bind_run.
  assert (Hclaude : exists o3 w3,
             when (includes missingDeps "Claude Code CLI")
               (verify "claude --version" "Claude Code CLI installation verification failed")
               w2
             = (o3, w3)
             /\ host w3 = host w2 /\ disk w3 = disk w2
             /\ resolved o3 = negb (includes missingDeps "Claude Code CLI")
                              || resolved (exec (host w2) "claude --version")).
  { destruct (includes missingDeps "Claude Code CLI"); cbn [when negb orb].
    - apply verify_run.
    - exists (Return tt), w2. auto. }
  destruct Hclaude as (o3 & w3 & -> & Hh3 & Hd3 & Hres3).
  rewrite <- Hh2, <- Hres3.
  destruct o3 as [[]|msg3]; [|simpl; eexists; eexists; rewrite Hh3, Hd3, Hd2; eauto].
  destruct (installProgress_run
              (mkProgress (Some "Installation complete") (Some 100%N) None
                 (Some "All dependencies installed successfully") None None) w3)
    as (w4 & -> & Hh4 & Hd4 & _).
  exists (Return tt), w4. rewrite Hh4, Hd4, Hh3, Hd3, Hd2. auto.
Qed.

(** One run of [installAllDependencies]. *)
Lemma installAllDependencies_run (missingDeps : list string) (w : World) :
  let path := scriptPath env in
  let script := buildScript (newDate env) (installCommands missingDeps) in
  let afterScript := snd (bash env script (host w)) in
  exists o w',
    installAllDependencies env missingDeps w = (o, w')
    /\ match writeFile env path with
       | Throw message => o = Throw message /\ disk w' = disk w /\ host w' = host w
       | Return _ =>
           host w' = afterScript
           /\ resolved o
              = exitedZero (ending (fst (bash env script (host w))))
                && (negb (includes missingDeps "Node.js")
                    || resolved (exec afterScript "node --version"))
                && (negb (includes missingDeps "Claude Code CLI")
                    || resolved (exec afterScript "claude --version"))
                && resolved (unlink env path)
           /\ match unlink env path with
              | Return _ => disk w' = delete path (disk w)
              | Throw message => o = Throw message /\ disk w' = <[path := script]> (disk w)
              end
       end.
Proof.
  cbv zeta. unfold installAllDependencies. rewrite bind_run.
  destruct (installProgress_run
              (mkProgress (Some "Preparing installation") (Some 0%N) None
                 (Some "Building installation script...") None (Some [])) w)
    as (w1 & -> & Hh1 & Hd1 & _).
  rewrite bind_run.
  destruct (saveToFile_run (installCommands missingDeps) w1) as (w2 & -> & Hh2 & _ & Hd2).
  destruct (writeFile env (scriptPath env)) as [[]|message].
  - assert (Hsaved : disk w2 !! scriptPath env
                     = Some (buildScript (newDate env) (installCommands missingDeps)))
      by (rewrite Hd2; apply lookup_insert_eq).
    unfold tryFinally.
    destruct (installing_run missingDeps _ _ w2 Hsaved) as (o3 & w3 & -> & Hh3 & Hd3 & Hres3).
    cbv zeta in Hh3, Hres3. rewrite Hh2, Hh1 in Hh3, Hres3.
    destruct (unlinkFile_run (scriptPath env) w3) as (w4 & -> & Hh4 & Hd4).
    destruct (unlink env (scriptPath env)) as [[]|message].
    + exists o3, w4. split; [reflexivity|]. rewrite Hh4, Hh3. split; [reflexivity|].
      split; [rewrite andb_true_r; exact Hres3|].
      rewrite Hd4, Hd3, Hd2, Hd1. apply delete_insert_eq.
    + exists (Throw message), w4. split; [reflexivity|]. rewrite Hh4, Hh3.
      split; [reflexivity|]. split; [rewrite andb_false_r; reflexivity|].
      split; [reflexivity|]. rewrite Hd4, Hd3, Hd2, Hd1. reflexivity.
  - exists (Throw message), w2. split; [reflexivity|]. rewrite Hd2, Hh2. auto.
Qed.

(** X7: once the script is written, [installAllDependencies] always
    goes through its [finally]: when the removal succeeds the disk ends
    without the script file, whether the installation resolved or threw;
    when the removal fails, the call throws the removal's error, whatever
    the installation did, and the script stays. *)
Theorem installAllDependencies_removes_its_script (missingDeps : list string) (w : World) :
  writeFile env (scriptPath env) = Return tt ->
  let r := installAllDependencies env missingDeps w in
  match unlink env (scriptPath env) with
  | Return _ => disk (snd r) = delete (scriptPath env) (disk w)
  | Throw message =>
      fst r = Throw message
      /\ disk (snd r)
         = <[scriptPath env := buildScript (newDate env) (installCommands missingDeps)]> (disk w)
  end.
Proof.
  intros Hwritten. cbv zeta.
  destruct (installAllDependencies_run missingDeps w) as (o & w' & -> & Hrun).
  cbv zeta in Hrun. rewrite Hwritten in Hrun. destruct Hrun as (_ & _ & Hdisk).
  exact Hdisk.
Qed.

(** X8: [installAllDependencies] resolves exactly when the script file
    could be written, the script closed with code zero, each dependency
    that was to be installed answers its version probe on the machine the
    script left, and the script file could be removed. *)
Theorem installAllDependencies_resolves_iff (missingDeps : list string) (w : World) :
  let script := buildScript (newDate env) (installCommands missingDeps) in
  let afterScript := snd (bash env script (host w)) in
  resolved (fst (installAllDependencies env missingDeps w))
  = resolved (writeFile env (scriptPath env))
    && exitedZero (ending (fst (bash env script (host w))))
    && (negb (includes missingDeps "Node.js")
        || resolved (exec afterScript "node --version"))
    && (negb (includes missingDeps "Claude Code CLI")
        || resolved (exec afterScript "claude --version"))
    && resolved (unlink env (scriptPath env)).
Proof.
  cbv zeta.
  destruct (installAllDependencies_run missingDeps w) as (o & w' & -> & Hrun).
  cbv zeta in Hrun. cbn [fst].
  destruct (writeFile env (scriptPath env)) as [[]|message].
  - destruct Hrun as (_ & Hres & _). exact Hres.
  - destruct Hrun as (-> & _). reflexivity.
Qed.

(** [installNodeJSWithApt] and [installNodeJSWithNodeSource]: the script
    is removed after the run, outside any [finally]. *)
Lemma scriptInstaller_run (builder : Builder) (description : string) (w : World) :
  writeFile env (scriptPath env) = Return tt ->
  let script := buildScript (newDate env) builder in
  exists o w',
    (scriptPath <- saveToFile env builder ;;
     runInstallScript env scriptPath description ;;
     unlinkFile env scriptPath)%eff w = (o, w')
    /\ if exitedZero (ending (fst (bash env script (host w))))
       then resolved o = resolved (unlink env (scriptPath env))
            /\ (resolved (unlink env (scriptPath env)) = true ->
                  disk w' = delete (scriptPath env) (disk w))
       else rejected o = true /\ disk w' = <[scriptPath env := script]> (disk w).
Proof.
  intros Hwritten. cbv zeta. rewrite bind_run.
  destruct (saveToFile_run builder w) as (w1 & -> & Hh1 & _ & Hd1).
  rewrite Hwritten in *.
  assert (Hsaved : disk w1 !! scriptPath env = Some (buildScript (newDate env) builder))
    by (rewrite Hd1; apply lookup_insert_eq).
  rewrite bind_run.
  destruct (runInstallScript_run (scriptPath env) description _ w1 Hsaved)
    as (o2 & w2 & -> & Hh2 & Hd2 & Hres2).
  rewrite Hh1 in Hres2. rewrite <- Hres2.
  destruct o2 as [[]|msg]; cbn [resolved].
  - destruct (unlinkFile_run (scriptPath env) w2) as (w3 & -> & Hh3 & Hd3).
    exists (match unlink env (scriptPath env) with
            | Return _ => Return tt
            | Throw message => Throw message
            end), w3.
    split; [reflexivity|].
    destruct (unlink env (scriptPath env)) as [[]|message]; split; try reflexivity.
    + intros _. rewrite Hd3, Hd2, Hd1. apply delete_insert_eq.
    + discriminate.
  - exists (Throw msg), w2. split; [reflexivity|]. split; [reflexivity|].
    rewrite Hd2, Hd1. reflexivity.
Qed.

(** X9: the two script installers of Node.js remove their script only
    after a successful run: when the script does not close with code zero
    the call throws and the script file stays on disk. *)
Theorem node_installers_leave_script_after_failure (w : World) :
  writeFile env (scriptPath env) = Return tt ->
  (exitedZero (ending (fst (bash env (buildScript (newDate env) aptCommands) (host w))))
   = false ->
   rejected (fst (installNodeJSWithApt env w)) = true
   /\ disk (snd (installNodeJSWithApt env w))
      = <[scriptPath env := buildScript (newDate env) aptCommands]> (disk w))
  /\ (exitedZero
        (ending (fst (bash env (buildScript (newDate env) nodeSourceCommands) (host w))))
      = false ->
      rejected (fst (installNodeJSWithNodeSource env w)) = true
      /\ disk (snd (installNodeJSWithNodeSource env w))
         = <[scriptPath env := buildScript (newDate env) nodeSourceCommands]> (disk w)).
Proof.
  intros Hwritten. split; intros Hfails.
  - unfold installNodeJSWithApt.
    destruct (scriptInstaller_run aptCommands "Installing Node.js via apt-get" w Hwritten)
      as (o & w' & -> & Hrun).
    cbv zeta in Hrun. rewrite Hfails in Hrun. exact Hrun.
  - unfold installNodeJSWithNodeSource.
    destruct (scriptInstaller_run nodeSourceCommands "Installing Node.js via NodeSource" w
                Hwritten) as (o & w' & -> & Hrun).
    cbv zeta in Hrun. rewrite Hfails in Hrun. exact Hrun.
Qed.

Lemma runCommand_run (command description : string) (w : World) :
  exists o w',
    runCommand sh command description w = (o, w')
    /\ host w' = snd (sh command (host w))
    /\ disk w' = disk w
    /\ calls w' = calls w ++ [Spawn "sh" ("-c " +:+ command)]
    /\ resolved o = exitedZero (ending (fst (sh command (host w)))).
Proof.
  pose proof (runCommand_spec sh command description w) as H.
  unfold wp in H. destruct (runCommand sh command description w) as [o w'].
  exists o, w'. split; [reflexivity | exact H].
Qed.

(** The first attempt of [installClaudeCode]: npm without privileges, then
    the probe. *)
Lemma installClaudeCode_direct (w : World) :
  let npm := "npm install -g @anthropic-ai/claude-code" in
  let afterNpm := snd (sh npm (host w)) in
  exists o w',
    (runCommand sh npm "Installing Claude Code CLI" ;;
     _ <- execAsync "claude --version" ;;
     updateProgress
       (mkProgress (Some "Claude Code CLI installation complete") (Some 100%N)
          None None None None))%eff w = (o, w')
    /\ host w' = afterNpm /\ disk w' = disk w
    /\ resolved o = exitedZero (ending (fst (sh npm (host w))))
                    && resolved (exec afterNpm "claude --version")
    /\ calls w' = calls w ++ [Spawn "sh" ("-c " +:+ npm)]
                   ++ (if exitedZero (ending (fst (sh npm (host w))))
                       then [Exec "claude --version"] else []).
Proof.
  cbv zeta. rewrite bind_run.
  destruct (runCommand_run "npm install -g @anthropic-ai/claude-code"
              "Installing Claude Code CLI" w) as (o1 & w1 & -> & Hh1 & Hd1 & Hc1 & Hres1).
  rewrite <- Hres1, <- Hh1.
  destruct o1 as [[]|msg1]; cbn [resolved andb].
  - rewrite bind_run.
    destruct (execAsync_run "claude --version" w1) as (w2 & -> & Hh2 & Hd2 & Hc2).
    destruct (exec (host w1) "claude --version") as [out|msg2]; cbn [resolved].
    + destruct (installProgress_run
                  (mkProgress (Some "Claude Code CLI installation complete") (Some 100%N)
                     None None None None) w2) as (w3 & -> & Hh3 & Hd3 & Hc3 & _).
      exists (Return tt), w3.
      rewrite Hh3, Hd3, Hc3, Hh2, Hd2, Hc2, Hd1, Hc1, <- app_assoc. auto.
    + exists (Throw msg2), w2. rewrite Hh2, Hd2, Hc2, Hd1, Hc1, <- app_assoc. auto.
  - exists (Throw msg1), w1. rewrite Hd1, Hc1, app_nil_r. auto.
Qed.

(** X10: [installClaudeCode] first tries npm without privileges.  When
    that run closes with code zero and [claude --version] then answers, it
    resolves there: nothing was written to disk and bash was never
    started, so nobody was asked for a password.  Otherwise it falls back
    to the single privileged script, on the machine the first attempt
    left, and resolves exactly when that script could be written, closed
    with code zero, the probe then answers and the script file could be
    removed. *)
Theorem installClaudeCode_tries_without_privileges_first (w : World) :
  let npm := "npm install -g @anthropic-ai/claude-code" in
  let afterNpm := snd (sh npm (host w)) in
  let direct := exitedZero (ending (fst (sh npm (host w))))
                && resolved (exec afterNpm "claude --version") in
  let script := buildScript (newDate env) claudeCommands in
  let afterScript := snd (bash env script afterNpm) in
  let r := installClaudeCode env sh w in
  if direct then
    fst r = Return tt
    /\ disk (snd r) = disk w
    /\ calls (snd r) = calls w ++ [Spawn "sh" ("-c " +:+ npm); Exec "claude --version"]
  else
    resolved (fst r)
    = resolved (writeFile env (scriptPath env))
      && exitedZero (ending (fst (bash env script afterNpm)))
      && resolved (exec afterScript "claude --version")
      && resolved (unlink env (scriptPath env)).
Proof.
  cbv zeta. unfold installClaudeCode. rewrite bind_run.
  destruct (installProgress_run
              (mkProgress (Some "Installing Claude CLI") (Some 0%N) None
                 (Some "Preparing Claude CLI installation...") None (Some [])) w)
    as (w0 & -> & Hh0 & Hd0 & Hc0 & _).
  unfold tryCatch.
  destruct (installClaudeCode_direct w0) as (o1 & w1 & -> & Hh1 & Hd1 & Hres1 & Hc1).
  cbv zeta in Hh1, Hres1, Hc1. rewrite Hh0 in Hh1, Hres1, Hc1.
  rewrite <- Hres1.
  destruct o1 as [[]|msg1]; cbn [resolved].
  - cbn [fst snd]. split; [reflexivity|]. split; [rewrite Hd1, Hd0; reflexivity|].
    rewrite Hc1, Hc0. symmetry in Hres1. apply andb_true_iff in Hres1 as [-> _]. reflexivity.
  - rewrite bind_run.
    destruct (saveToFile_run claudeCommands w1) as (w2 & -> & Hh2 & _ & Hd2).
    destruct (writeFile env (scriptPath env)) as [[]|message]; [|reflexivity].
    cbn [resolved andb]. unfold tryFinally.
    assert (Hsaved : disk w2 !! scriptPath env = Some (buildScript (newDate env) claudeCommands))
      by (rewrite Hd2; apply lookup_insert_eq).
    rewrite bind_run.
    destruct (runInstallScript_run (scriptPath env) "Installing Claude Code CLI with sudo"
                _ w2 Hsaved) as (o3 & w3 & -> & Hh3 & Hd3 & Hres3).
    rewrite Hh2, Hh1 in Hh3, Hres3. rewrite <- Hres3, <- Hh3.
    destruct o3 as [[]|msg3]; cbn [resolved andb].
    + rewrite bind_run.
      destruct (execAsync_run "claude --version" w3) as (w4 & -> & Hh4 & Hd4 & _).
      destruct (exec (host w3) "claude --version") as [out|msg4]; cbn [resolved andb].
      * destruct (installProgress_run
                    (mkProgress (Some "Claude Code CLI installation complete") (Some 100%N)
                       None None None None) w4) as (w5 & -> & _).
        destruct (unlinkFile_run (scriptPath env) w5) as (w6 & -> & _).
        destruct (unlink env (scriptPath env)) as [[]|message]; reflexivity.
      * destruct (unlinkFile_run (scriptPath env) w4) as (w6 & -> & _).
        destruct (unlink env (scriptPath env)) as [[]|message]; reflexivity.
    + destruct (unlinkFile_run (scriptPath env) w3) as (w6 & -> & _).
      destruct (unlink env (scriptPath env)) as [[]|message]; reflexivity.
Qed.

End Installers.

Lemma installAllDependencies_removes_its_script_witness :
  Main.disk (snd (LinuxPlatformService.installAllDependencies MoreExamples.failingEnv
                    ["Node.js"] (Examples.freshWorld Examples.bareHost)))
  = delete (LinuxPlatformService.scriptPath MoreExamples.failingEnv)
           (Main.disk (Examples.freshWorld Examples.bareHost)).
Proof.
  exact (installAllDependencies_removes_its_script MoreExamples.failingEnv ["Node.js"]
           (Examples.freshWorld Examples.bareHost) eq_refl).
Defined.

Lemma node_installers_leave_script_after_failure_witness :
  Eff.rejected
    (fst (LinuxInstallers.installNodeJSWithApt MoreExamples.failingEnv
            (Examples.freshWorld Examples.bareHost))) = true
  /\ Main.disk (snd (LinuxInstallers.installNodeJSWithApt MoreExamples.failingEnv
                       (Examples.freshWorld Examples.bareHost)))
     = <[LinuxPlatformService.scriptPath MoreExamples.failingEnv
         := InstallScriptBuilder.buildScript (Main.newDate MoreExamples.failingEnv)
              LinuxInstallers.aptCommands]>
         (Main.disk (Examples.freshWorld Examples.bareHost)).
Proof.
  exact (proj1 (node_installers_leave_script_after_failure MoreExamples.failingEnv
                  (Examples.freshWorld Examples.bareHost) eq_refl) eq_refl).
Defined.

(** ** Claude authentication *)

Section Authentication.
Import Js Eff Main ClaudeAuthManager ClaudeLogin.

Lemma probeAuthentication_run (w : World) :
  let installed := resolved (exec (host w) "claude --version") in
  exists info w',
    probeAuthentication w = (Return info, w')
    /\ authenticated info = installed && answers (host w)
    /\ calls w' = calls w ++ [Exec "claude --version"]
                  ++ (if installed then [Exec sayYes] else [])
    /\ host w' = host w /\ disk w' = disk w /\ ipc w' = ipc w.
Proof.
  cbv zeta. unfold answers.
  unfold probeAuthentication, execAsync, record, tryCatch, modify, ask, settle, ret, bind.
  cbn.
  destruct (exec (host w) "claude --version") as [out|msg]; cbn.
  - destruct (exec (host w) sayYes) as [reply|msg]; cbn.
    + destruct (truthy reply); do 2 eexists; (split; [reflexivity|]); cbn;
        rewrite <- ?app_assoc; repeat split; reflexivity.
    + match goal with |- context [if ?b then _ else _] => destruct b end;
        do 2 eexists; (split; [reflexivity|]); cbn;
        rewrite <- ?app_assoc; repeat split; reflexivity.
  - do 2 eexists. split; [reflexivity|]. cbn. repeat split; reflexivity.
Qed.

(** X11: [checkAuthentication] never throws.  It answers
    [authenticated] exactly when [claude --version] succeeds and the
    say-yes prompt then comes back with a non-empty answer; the prompt is
    run only when the CLI is installed, and nothing is sent to the
    renderer or changed on the machine. *)
Theorem checkAuthentication_characterised (s : Session) :
  let h := host (world s) in
  let installed := resolved (exec h "claude --version") in
  exists info s',
    checkAuthentication s = (Return info, s')
    /\ authenticated info = installed && answers h
    /\ calls (world s') = calls (world s) ++ [Exec "claude --version"]
                          ++ (if installed then [Exec sayYes] else [])
    /\ host (world s') = h /\ disk (world s') = disk (world s)
    /\ ipc (world s') = ipc (world s).
Proof.
  cbv zeta. unfold checkAuthentication. rewrite bind_run.
  unfold modify at 1. unfold onWorld. cbn [world authChecks].
  destruct (probeAuthentication_run (world s)) as (info & w' & -> & Hrun).
  exists info. eexists. split; [reflexivity|]. exact Hrun.
Qed.

Section LoggingIn.
Variable claudeLogin : Host -> ScriptRun * Host.

Lemma onLoginChunks_run (chunks : list Chunk) :
  forall (errorOutput : string) (s : Session) (sent : list string),
    foldM onLoginChunk chunks errorOutput (s, sent)
    = (Return (LinuxInstallers.gatherStderr errorOutput chunks),
       (s, sent ++ stdoutTexts chunks)).
Proof.
  induction chunks as [|chunk rest IH]; intros errorOutput s sent.
  - simpl. rewrite app_nil_r. reflexivity.
  - cbn [foldM]. rewrite bind_run. destruct chunk as [text|text].
    + unfold onLoginChunk, modifyLocal, ret, bind. cbn [fst snd].
      rewrite IH. cbn [stdoutTexts flat_map LinuxInstallers.gatherStderr fold_left].
      rewrite <- app_assoc. reflexivity.
    + unfold onLoginChunk, ret. rewrite IH. reflexivity.
Qed.

(** X12: [startAuthentication] never rejects.  It reports success
    exactly when the CLI is installed, the login process closes with code
    zero and, on the machine it left, [checkAuthentication] finds the CLI
    authenticated.  When the CLI is not installed no process is started
    and the error says so; when it is, each stdout chunk of the login
    process is forwarded to the renderer, in order. *)
Theorem startAuthentication_never_rejects (st : Login) :
  let h := host (world (fst st)) in
  let installed := resolved (exec h "claude --version") in
  let run := fst (claudeLogin h) in
  let h' := snd (claudeLogin h) in
  exists result st',
    startAuthentication claudeLogin st = (Return result, st')
    /\ success result
       = installed && exitedZero (ending run)
         && resolved (exec h' "claude --version") && answers h'
    /\ (if installed
        then snd st' = snd st ++ stdoutTexts (output run)
             /\ exists later,
                  calls (world (fst st'))
                  = calls (world (fst st))
                    ++ [Exec "claude --version"; Spawn "claude" "login --browser"] ++ later
        else snd st' = snd st
             /\ calls (world (fst st')) = calls (world (fst st)) ++ [Exec "claude --version"]
             /\ error result
                = Some "Claude Code CLI is not installed. Please install it first.").
Proof.
  cbv zeta. destruct st as [s sent]. cbn [fst snd].
  unfold startAuthentication. unfold tryCatch at 1. rewrite bind_run.
  unfold liftW at 1, onWorld at 1. cbn [fst snd].
  unfold tryCatch at 1. rewrite bind_run.
  unfold execAsync, record, modify, ask, settle, bind at 1 2. cbn [fst snd host logCall].
  destruct (exec (host (world s)) "claude --version") as [out|msg]; cbn.
  - destruct (claudeLogin (host (world s))) as [run h'] eqn:Hlogin. cbn [fst snd].
    rewrite bind_run. unfold liftW at 1, onWorld at 1, setHost at 1, modify at 1.
    cbn [fst snd world authChecks host disk ipc calls currentProgress onProgressCallback
         logCall].
    rewrite bind_run, onLoginChunks_run. cbn [app].
    set (s1 := mkSession _ _).
    assert (Hcalls1 : calls (world s1)
                      = calls (world s)
                        ++ [Exec "claude --version"; Spawn "claude" "login --browser"])
      by (subst s1; cbn; rewrite <- app_assoc; reflexivity).
    assert (Hhost1 : host (world s1) = h') by reflexivity.
    clearbody s1.
    destruct (ending run) as [[code|]|message]; cbn [exitedZero andb resolved].
    + destruct (code =? 0)%Z; cbn [andb].
      * rewrite bind_run. unfold liftW at 1. cbn [fst snd].
        unfold checkAuthentication. rewrite bind_run. unfold modify at 1.
        unfold onWorld. cbn [world authChecks].
        destruct (probeAuthentication_run (world s1)) as (info & w' & -> & Hauth & Hcalls & _).
        cbv zeta in Hauth, Hcalls. rewrite Hhost1 in Hauth, Hcalls.
        do 2 eexists. split; [reflexivity|]. cbn [success fst snd world].
        split; [exact Hauth|]. split; [reflexivity|].
        rewrite Hcalls, Hcalls1, <- !app_assoc. eexists. reflexivity.
      * do 2 eexists. split; [reflexivity|]. cbn [success fst snd].
        split; [reflexivity|]. split; [reflexivity|].
        exists []. rewrite Hcalls1. reflexivity.
    + do 2 eexists. split; [reflexivity|]. cbn [success fst snd].
      split; [reflexivity|]. split; [reflexivity|].
      exists []. rewrite Hcalls1. reflexivity.
    + do 2 eexists. split; [reflexivity|]. cbn [success fst snd].
      split; [reflexivity|]. split; [reflexivity|].
      exists []. rewrite Hcalls1. reflexivity.
  - do 2 eexists. split; [reflexivity|]. cbn. repeat split; reflexivity.
Qed.

End LoggingIn.

End Authentication.

(** ** The setup, on any platform *)

Section SetupFacts.
Import Js Eff PlatformService Main SystemSetup.
Context {platformService : Main.PlatformService}.

(** [every(req => found || skipped || !required)] over [finalCheck]. *)
Lemma executeInstallationPlan_run (plan : InstallationPlan) (s : Session) :
  exists b s',
    executeInstallationPlan plan s = (Return b, s')
    /\ exists earlier,
         (exists s0 s1 s2 s3 v0 v1 v2 v3 d0 d1 d2 d3,
            let reqs := [mkRequirement "Operating System" s0 v0 d0 true;
                         mkRequirement "Node.js" s1 v1 d1 true;
                         mkRequirement "Claude Code CLI" s2 v2 d2 true;
                         mkRequirement "Claude Authentication" s3 v3 d3 true] in
            ipc (world s') = earlier ++ [InstallationComplete b reqs]
            /\ b = forallb (fun req => Status_eqb (status req) found_
                                       || Status_eqb (status req) skipped
                                       || negb (required req)) reqs
            /\ (s0 = found_ \/ s0 = error_)
            /\ (s1 = found_ \/ s1 = missing \/ s1 = error_)
            /\ (s2 = found_ \/ s2 = missing \/ s2 = error_)
            /\ (if Status_eqb s2 found_ then s3 = found_ \/ s3 = missing else s3 = skipped))
         \/ (b = false
             /\ exists message before,
                  fst (onWorld (installAllDependencies (List.map item_name (items plan)))
                         before) = Throw message
                  /\ ipc (world s') = earlier ++ [InstallationError message true]).
Proof.
  unfold executeInstallationPlan. rewrite bind_run.
  destruct (onWorld onProgress s) as [o0 s0] eqn:Hsub.
  assert (Ho0 : o0 = Return tt).
  { unfold onWorld, onProgress, modify in Hsub. injection Hsub as <- _. reflexivity. }
  subst o0. unfold tryCatch. rewrite bind_run.
  destruct (onWorld (installAllDependencies (List.map item_name (items plan))) s0)
    as [[[]|message] s1] eqn:Hinstall.
  - rewrite bind_run.
    destruct (checkAllRequirements_shape s1)
      as (st0 & st1 & st2 & st3 & v0 & v1 & v2 & v3 & d0 & d1 & d2 & d3 & s2
          & -> & H0 & H1 & H2 & H3).
    rewrite bind_run. unfold onWorld at 1, send, modify. cbn [fst snd world authChecks].
    unfold ret. eexists. eexists. split; [reflexivity|].
    exists (ipc (world s2)). left.
    exists st0, st1, st2, st3, v0, v1, v2, v3, d0, d1, d2, d3. cbv zeta.
    split; [reflexivity|]. split; [reflexivity|].
    repeat split; try assumption.
    destruct (Status_eqb st2 found_); tauto.
  - rewrite bind_run. unfold onWorld at 1, send, modify. cbn [fst snd world authChecks].
    unfold ret. eexists. eexists. split; [reflexivity|].
    exists (ipc (world s1)). right. split; [reflexivity|].
    exists message, s0. rewrite Hinstall. split; reflexivity.
Qed.


(** X14: on any platform, [executeInstallationPlan] returns true only
    when the re-check found all four requirements, Claude Authentication
    included: the [skipped] status that its test lets pass can never be
    what makes it pass, since authentication is skipped only when the CLI
    is not found. *)
Theorem executeInstallationPlan_true_means_all_found (plan : InstallationPlan) (s : Session) :
  fst (executeInstallationPlan plan s) = Return true ->
  exists earlier reqs,
    ipc (world (snd (executeInstallationPlan plan s)))
    = earlier ++ [InstallationComplete true reqs]
    /\ List.map name reqs
       = ["Operating System"; "Node.js"; "Claude Code CLI"; "Claude Authentication"]
    /\ Forall (fun req => status req = found_) reqs.
Proof.
  destruct (executeInstallationPlan_run plan s) as (b & s' & -> & earlier & Hend).
  cbn [fst snd]. intros Htrue. injection Htrue as ->.
  destruct Hend as [(s0 & s1 & s2 & s3 & v0 & v1 & v2 & v3 & d0 & d1 & d2 & d3 & Hend)
                   | (Hb & _)]; [|discriminate].
  cbv zeta in Hend. destruct Hend as (Hipc & Hb & H0 & H1 & H2 & H3).
  exists earlier. eexists. split; [exact Hipc|]. split; [reflexivity|].
  cbn in Hb.
  destruct H0 as [-> | ->]; [|discriminate Hb].
  destruct H1 as [-> | [-> | ->]]; [|discriminate Hb|discriminate Hb].
  destruct H2 as [-> | [-> | ->]]; [|discriminate Hb|discriminate Hb].
  cbn in H3. destruct H3 as [-> | ->]; [|discriminate Hb].
  repeat constructor.
Qed.

Lemma sendUpdate_run (s : Session) (reqs : list SystemRequirement) :
  sendUpdate (s, reqs)
  = (Return tt, (mkSession (deliver (RequirementsUpdate reqs) (world s)) (authChecks s), reqs)).
Proof. reflexivity. Qed.

Lemma assign_run (i : nat) (change : SystemRequirement -> SystemRequirement)
  (s : Session) (reqs : list SystemRequirement) :
  exists reqs', assign i change (s, reqs) = (Return tt, (s, reqs')).
Proof. unfold assign, modifyLocal. eexists. reflexivity. Qed.

(** One turn of the loop ends by telling the renderer where the
    requirements stand. *)
Lemma checkAt_reports (i : nat) (s : Session) (reqs : list SystemRequirement)
  (req : SystemRequirement) :
  reqs !! i = Some req ->
  exists s' reqs' earlier,
    checkAt i (s, reqs) = (Return tt, (s', reqs'))
    /\ ipc (world s') = earlier ++ [RequirementsUpdate reqs'].
Proof.
  intros Hreq. unfold checkAt. rewrite bind_run. unfold getLocal at 1. cbn [snd].
  rewrite Hreq. rewrite bind_run. unfold tryCatch.
  destruct (checkRequirement i (name req) (s, reqs)) as [[[]|message] [s1 reqs1]].
  - rewrite sendUpdate_run. do 3 eexists. split; reflexivity.
  - rewrite bind_run.
    destruct (assign_run i (withStatus error_) s1 reqs1) as (reqs2 & ->).
    destruct (assign_run i (withDetails (Some ("Check failed: " +:+ message))) s1 reqs2)
      as (reqs3 & ->).
    rewrite sendUpdate_run. do 3 eexists. split; reflexivity.
Qed.

(** X15: on any platform, the list [checkAllRequirements] returns is the
    one it sent to the renderer last. *)
Theorem checkAllRequirements_returns_what_it_sent_last (s : Session) :
  exists reqs s' earlier,
    checkAllRequirements s = (Return reqs, s')
    /\ ipc (world s') = earlier ++ [RequirementsUpdate reqs].
Proof.
  unfold checkAllRequirements, withLocal, initialRequirements.
  cbn -[checkAt]. rewrite bind_run.
  match goal with
  | |- context [checkAt 0 (?x, [mkRequirement _ ?st ?v ?d ?b; ?r1; ?r2; ?r3])] =>
      destruct (checkAt_os x st v d b r1 r2 r3) as (s0 & v0 & d0 & x1 & H0 & _);
      rewrite H0
  end.
  cbn -[checkAt]. rewrite bind_run.
  match goal with
  | |- context [checkAt 1 (?x, [?r0; mkRequirement _ ?st ?v ?d ?b; ?r2; ?r3])] =>
      destruct (checkAt_node x st v d b r0 r2 r3) as (s1 & v1 & d1 & x2 & H1 & _);
      rewrite H1
  end.
  cbn -[checkAt]. rewrite bind_run.
  match goal with
  | |- context [checkAt 2 (?x, [?r0; ?r1; mkRequirement _ ?st ?v ?d ?b; ?r3])] =>
      destruct (checkAt_claude x st v d b r0 r1 r3) as (s2 & v2 & d2 & x3 & H2 & _);
      rewrite H2
  end.
  cbn -[checkAt]. rewrite bind_run.
  match goal with
  | |- context [checkAt 3 (?x, ?l)] =>
      destruct (checkAt_reports 3 x l (mkRequirement "Claude Authentication" checking
                                         None None true) eq_refl)
        as (x4 & reqs & earlier & H3 & Hipc);
      rewrite H3
  end.
  cbn. exists reqs, x4, earlier. split; [reflexivity | exact Hipc].
Qed.

(** X16: on any platform, the plan the renderer obtains for the
    requirements that [checkAllRequirements] returned as missing is one of
    four: an apt item for Node.js when that is missing, an npm item for the
    Claude Code CLI when that is missing, in this order; the total time is
    0-2, 2-4, 3-5 or 5-7 minutes; [requiresSudo] says that Node.js is
    missing and [canAutoInstall] that one of the two is.  A missing
    Claude Authentication alone gives the empty plan, which cannot be
    installed. *)
Theorem plan_after_check (s : Session) :
  exists reqs s',
    checkAllRequirements s = (Return reqs, s')
    /\ let node := Planning.isMissing "Node.js" reqs in
       let claude := Planning.isMissing "Claude Code CLI" reqs in
       createInstallationPlan (Planning.missingRequirements reqs)
       = mkPlan ((if node then [nodeItem] else []) ++ (if claude then [claudeItem] else []))
           (match node, claude with
            | true, true => "5-7 minutes"
            | true, false => "3-5 minutes"
            | false, true => "2-4 minutes"
            | false, false => "0-2 minutes"
            end)
           node (node || claude).
Proof.
  destruct (checkAllRequirements_shape s)
    as (s0 & s1 & s2 & s3 & v0 & v1 & v2 & v3 & d0 & d1 & d2 & d3 & s'
        & Hrun & H0 & H1 & H2 & H3).
  eexists. exists s'. split; [exact Hrun|].
  destruct H0 as [-> | ->]; destruct H1 as [-> | [-> | ->]]; destruct H2 as [-> | [-> | ->]];
    cbn in H3; try (destruct H3 as [[-> | ->] _]); try (destruct H3 as [-> _]);
    reflexivity.
Qed.

End SetupFacts.

Lemma executeInstallationPlan_true_means_all_found_witness :
  exists earlier reqs,
    Main.ipc (Main.world (snd (SystemSetup.executeInstallationPlan
                                 (platformService := LinuxPlatformService.service MoreExamples.earlyEnv)
                                 (SystemSetup.createInstallationPlan [Examples.claudeMissing])
                                 (Examples.freshSession Examples.readyHost))))
    = earlier ++ [Main.InstallationComplete true reqs]
    /\ List.map Main.name reqs
       = ["Operating System"; "Node.js"; "Claude Code CLI"; "Claude Authentication"]
    /\ Forall (fun req => Main.status req = Main.found_) reqs.
Proof.
  apply (executeInstallationPlan_true_means_all_found
           (platformService := LinuxPlatformService.service MoreExamples.earlyEnv)).
  vm_compute. reflexivity.
Defined.

(** ** The placeholder platforms *)

Section Placeholders.
Import Js Eff PlatformService Main SystemSetup.

(** X17: with the Windows or the macOS service the setup cannot
    succeed.  [checkAllRequirements] returns the operating system as
    error, Node.js and the Claude Code CLI as missing and the
    authentication as skipped, without running anything; and
    [executeInstallationPlan] returns false for every plan, its only
    message being the ['installation-error'] that says the installation is
    not implemented. *)
Theorem placeholder_platforms_cannot_install (plan : InstallationPlan) (s : Session) :
  let outcomeOf (service : Main.PlatformService) (notice : string) :=
    (exists reqs s',
       checkAllRequirements (platformService := service) s = (Return reqs, s')
       /\ List.map status reqs = [error_; missing; missing; skipped]
       /\ calls (world s') = calls (world s) /\ authChecks s' = authChecks s)
    /\ (exists s',
          executeInstallationPlan (platformService := service) plan s = (Return false, s')
          /\ ipc (world s') = ipc (world s) ++ [InstallationError notice true]
          /\ calls (world s') = calls (world s) /\ disk (world s') = disk (world s)) in
  outcomeOf WindowsPlatformService.service
    "Windows dependency installation not yet implemented"
  /\ outcomeOf MacOSPlatformService.service
       "macOS dependency installation not yet implemented".
Proof.
  cbv zeta. destruct s as [[h d i c p cb] n].
  split; split.
  - do 2 eexists. split; [vm_compute; reflexivity|]. repeat split; reflexivity.
  - eexists. split; [vm_compute; reflexivity|]. repeat split; reflexivity.
  - do 2 eexists. split; [vm_compute; reflexivity|]. repeat split; reflexivity.
  - eexists. split; [vm_compute; reflexivity|]. repeat split; reflexivity.
Qed.

End Placeholders.

(** ** The bundle downloader: files and the network *)

Section DownloadFiles.
Import Js Eff BotDownloader Network.
Variable env : Env.

Lemma onData_run (verb : string) (total : N) (chunks : list positive) (received : N)
  (w : World) :
  exists received',
    foldM (onData verb total) chunks received w
    = (Return received', mkWorld (sent w ++ chunkEvents verb total received chunks) (files w)).
Proof. apply foldM_onData. Qed.

(** [handleDownloadResponse] looks at the body of the response only. *)
Lemma handleDownloadResponse_run (response : Response) (destination : string) (total : N)
  (w : World) :
  handleDownloadResponse response destination total w
  = (match transferEnd (body response) with
     | Finished => Return tt
     | Errored message => Throw message
     end,
     mkWorld (sent w ++ chunkEvents "Downloading..." total 0 (chunks (body response)))
             (match transferEnd (body response) with
              | Finished => files w
              | Errored _ => delete destination (files w)
              end)).
Proof.
  unfold handleDownloadResponse. rewrite bind_run.
  destruct (onData_run "Downloading..." total (chunks (body response)) 0%N w)
    as [received ->].
  destruct (transferEnd (body response)) as [|message]; reflexivity.
Qed.

(** One run of [downloadFile] on an address that is no [file://] one. *)
Lemma downloadFile_remote (url destination : string) (total : N) (w : World) :
  String.prefix "file://" url = false ->
  downloadFile env url destination total w
  = match httpsGet env url with
    | RequestError message =>
        (Throw message, mkWorld (sent w) (delete destination (files w)))
    | Answered response =>
        let created := mkWorld (sent w) (<[destination := false]> (files w)) in
        if ((statusCode response =? 301) || (statusCode response =? 302))%nat then
          match location response with
          | None => (Throw "Redirect without location header", created)
          | Some redirectUrl =>
              let second := body (httpsGetRedirect env redirectUrl) in
              (match transferEnd second with
               | Finished => Return tt
               | Errored message => Throw message
               end,
               mkWorld (sent w ++ chunkEvents "Downloading..." total 0 (chunks second))
                       (afterTransfer destination second (files w)))
          end
        else if (statusCode response =? 200)%nat then
          (match transferEnd (body response) with
           | Finished => Return tt
           | Errored message => Throw message
           end,
           mkWorld (sent w ++ chunkEvents "Downloading..." total 0 (chunks (body response)))
                   (afterTransfer destination (body response) (files w)))
        else
          (Throw ("Download failed with status " +:+ showNat (statusCode response)), created)
    end.
Proof.
  intros Hremote. unfold downloadFile. rewrite Hremote.
  rewrite bind_run. unfold setFiles at 1, modify at 1.
  destruct (httpsGet env url) as [message|response].
  - rewrite bind_run. unfold setFiles, modify, throw. cbn [sent files].
    rewrite delete_insert_eq. reflexivity.
  - cbv zeta.
    destruct ((statusCode response =? 301)%nat || (statusCode response =? 302)%nat).
    + destruct (location response) as [redirectUrl|]; [|reflexivity].
      rewrite handleDownloadResponse_run. cbn [sent files]. unfold afterTransfer.
      destruct (transferEnd (body (httpsGetRedirect env redirectUrl)));
        rewrite ?delete_insert_eq; reflexivity.
    + destruct (statusCode response =? 200)%nat; [|reflexivity].
      rewrite handleDownloadResponse_run. cbn [sent files]. unfold afterTransfer.
      destruct (transferEnd (body response)); rewrite ?delete_insert_eq; reflexivity.
Qed.


Lemma downloadFile_local (path destination : string) (total : N) (w : World) :
  downloadFile env ("file://" +:+ path) destination total w
  = (match transferEnd (readLocal env path) with
     | Finished => Return tt
     | Errored message => Throw message
     end,
     mkWorld (sent w ++ chunkEvents "Copying local bundle..." total 0
                          (chunks (readLocal env path)))
             (<[destination := false]> (files w))).
Proof.
  unfold downloadFile. rewrite (prefix_append "file://" path).
  change 7%nat with (String.length "file://"). rewrite dropString_append.
  rewrite bind_run. unfold setFiles at 1, modify at 1. rewrite bind_run.
  match goal with
  | |- context [foldM (onData ?v ?t) ?c ?r ?x] =>
      destruct (onData_run v t c r x) as [received ->]
  end.
  destruct (transferEnd (readLocal env path)); reflexivity.
Qed.

Lemma downloadFile_created (url destination : string) (total : N) (w w' : World) :
  downloadFile env url destination total w = (Return tt, w') ->
  files w' = <[destination := false]> (files w).
Proof.
  destruct (String.prefix "file://" url) eqn:Hlocal.
  - unfold downloadFile. rewrite Hlocal.
    rewrite bind_run. unfold setFiles at 1, modify at 1. rewrite bind_run.
    match goal with
    | |- context [foldM (onData ?v ?t) ?c ?r ?x] =>
        destruct (onData_run v t c r x) as [received ->]
    end.
    destruct (transferEnd _); [|discriminate].
    intros H. injection H as <-. reflexivity.
  - rewrite (downloadFile_remote url destination total w Hlocal).
    destruct (httpsGet env url) as [message|response]; [discriminate|].
    cbv zeta.
    destruct ((statusCode response =? 301)%nat || (statusCode response =? 302)%nat).
    + destruct (location response) as [redirectUrl|]; [|discriminate].
      unfold afterTransfer.
      destruct (transferEnd _); [|discriminate]. intros H. injection H as <-. reflexivity.
    + destruct (statusCode response =? 200)%nat; [|discriminate].
      unfold afterTransfer.
      destruct (transferEnd _); [|discriminate]. intros H. injection H as <-. reflexivity.
Qed.

Lemma chunkEvents_stages (verb : string) (total : N) (chunks : list positive) :
  forall received,
    List.map stage (chunkEvents verb total received chunks)
    = repeat downloading (length chunks).
Proof.
  induction chunks as [|chunk rest IH]; intros received; simpl; [reflexivity|].
  rewrite IH. reflexivity.
Qed.

Lemma list_ascii_append (a b : string) :
  list_ascii_of_string (a +:+ b) = list_ascii_of_string a ++ list_ascii_of_string b.
Proof.
  induction a as [|c a IH]; [reflexivity|].
  rewrite append_cons. simpl. rewrite IH. reflexivity.
Qed.

(** The installed executable and the downloaded archive are two files. *)
Lemma botExecutable_is_not_the_archive : botExecutable env <> downloadPath env.
Proof.
  unfold botExecutable, downloadPath, path_join. intros Hsame.
  apply (f_equal (fun s => List.last (list_ascii_of_string s) "0"%char)) in Hsame.
  rewrite !list_ascii_append in Hsame.
  change (list_ascii_of_string "toji-bot")
    with (list_ascii_of_string "toji-bo" ++ ["t"%char]) in Hsame.
  change (list_ascii_of_string "toji-bot-download.tar.gz")
    with (list_ascii_of_string "toji-bot-download.tar.g" ++ ["z"%char]) in Hsame.
  rewrite !app_assoc, !last_last in Hsame. discriminate.
Qed.

Lemma extractArchive_adds (archivePath destination : string) (w : World) (p : string) :
  files w !! p <> None ->
  files (snd (extractArchive env archivePath destination w)) !! p <> None.
Proof.
  intros Hthere. unfold extractArchive.
  destruct ((NodePath.extname archivePath =? ".gz")%string
            || (NodePath.extname archivePath =? ".tar")%string).
  - destruct (tarExtract env archivePath destination) as [written result].
    rewrite bind_run. unfold setFiles, modify, settle. cbn [snd files].
    generalize dependent (files w). induction written as [|entry rest IH]; intros present Hp.
    + exact Hp.
    + simpl. apply IH.
      destruct (decide (path_join destination entry.1 = p)) as [<- | Hother].
      * rewrite lookup_insert_eq. discriminate.
      * rewrite lookup_insert_ne by exact Hother. exact Hp.
  - destruct (NodePath.extname archivePath =? ".zip")%string; exact Hthere.
Qed.

Lemma last_repeat {A} (x d : A) (n : nat) : List.last (repeat x (S n)) d = x.
Proof. induction n as [|n IH]; [reflexivity|]. exact IH. Qed.

Lemma last_cons_repeat {A} (y x d : A) (n : nat) :
  List.last (y :: repeat x (S n)) d = x.
Proof. change (List.last (repeat x (S n)) d = x). apply last_repeat. Qed.

Lemma last_two {A} (l : list A) (a b d : A) : List.last (l ++ [a; b]) d = b.
Proof. change (l ++ [a; b]) with (l ++ [a] ++ [b]). rewrite app_assoc. apply last_last. Qed.

(** One run of the [try] block of [downloadBot]: the stages it went
    through, and what it leaves on disk. *)
Lemma pipeline_trace (present : gmap string bool) :
  let r := pipeline env (mkWorld [] present) in
  exists n,
    let before := checking :: repeat downloading (S n) ++ [extracting; verifying] in
    match fst r with
    | Return b =>
        b = true
        /\ List.map stage (sent (snd r)) = before ++ [complete]
        /\ files (snd r) !! botExecutable env = Some true
        /\ files (snd r) !! downloadPath env = None
    | Throw _ =>
        exists pre,
          pre <> [] /\ pre `prefix_of` before /\ List.map stage (sent (snd r)) = pre
          /\ (List.last pre checking = extracting ->
                files (snd r) !! downloadPath env <> None)
    end.
Proof.
  cbv zeta.
  destruct (pipeline env (mkWorld [] present)) as [o w'] eqn:Hrun. simpl fst. simpl snd.
  unfold pipeline in Hrun.
  rewrite bind_run, updateProgress_run in Hrun. cbn [sent files app] in Hrun.
  set (e0 := mkDownloadProgress checking 0 None None _ None) in Hrun.
  rewrite bind_run in Hrun.
  destruct (getLatestRelease_run env (mkWorld [e0] present)) as [release Hrelease].
  rewrite Hrelease in Hrun.
  rewrite bind_run in Hrun. unfold settle at 1 in Hrun.
  destruct (mkdir env (botDirectory env)) as [[]|msg].
  2:{ injection Hrun as <- <-. exists 0%nat, [checking].
      split; [discriminate|]. split; [eexists; reflexivity|].
      split; [reflexivity | discriminate]. }
  rewrite bind_run, updateProgress_run in Hrun. cbn [sent files app] in Hrun.
  set (e1 := mkDownloadProgress downloading 0 _ _ _ None) in Hrun.
  rewrite bind_run in Hrun.
  destruct (downloadFile_sends env (downloadUrl release) (downloadPath env) (size release)
              (mkWorld [e0; e1] present)) as (verb & received & Hsent).
  destruct (downloadFile env _ _ _ _) as [o2 w2] eqn:Hdownload. simpl in Hsent.
  exists (length received).
  assert (Hstages2 : List.map stage (sent w2)
                     = checking :: repeat downloading (S (length received))).
  { rewrite Hsent. cbn [List.map]. rewrite chunkEvents_stages. reflexivity. }
  destruct o2 as [[]|msg].
  2:{ injection Hrun as <- <-. exists (checking :: repeat downloading (S (length received))).
      split; [discriminate|]. split; [eexists; reflexivity|].
      split; [exact Hstages2|]. rewrite last_cons_repeat. discriminate. }
  pose proof (downloadFile_created _ _ _ _ _ Hdownload) as Hfiles2. cbn [files] in Hfiles2.
  rewrite bind_run, updateProgress_run in Hrun.
  set (e2 := mkDownloadProgress extracting 50 None None _ None) in Hrun.
  rewrite bind_run in Hrun.
  pose proof (extractArchive_silent env (downloadPath env) (botDirectory env)
                (mkWorld (sent w2 ++ [e2]) (files w2))) as Hquiet.
  assert (Hkept : files (snd (extractArchive env (downloadPath env) (botDirectory env)
                                (mkWorld (sent w2 ++ [e2]) (files w2))))
                  !! downloadPath env <> None).
  { apply extractArchive_adds. cbn [files]. rewrite Hfiles2, lookup_insert_eq. discriminate. }
  destruct (extractArchive env _ _ _) as [o3 w3]. simpl in Hquiet. cbn [snd] in Hkept.
  assert (Hstages3 : List.map stage (sent w3)
                     = checking :: repeat downloading (S (length received)) ++ [extracting]).
  { rewrite Hquiet, List.map_app, Hstages2. reflexivity. }
  destruct o3 as [[]|msg].
  2:{ injection Hrun as <- <-. eexists. split; [|split; [|split; [exact Hstages3|]]].
      - discriminate.
      - exists [verifying]. cbn [app]. rewrite <- app_assoc. reflexivity.
      - intros _. exact Hkept. }
  rewrite bind_run in Hrun. unfold settle at 1 in Hrun.
  destruct (unlinkSync env (downloadPath env)) as [[]|msg].
  2:{ injection Hrun as <- <-. eexists. split; [|split; [|split; [exact Hstages3|]]].
      - discriminate.
      - exists [verifying]. cbn [app]. rewrite <- app_assoc. reflexivity.
      - intros _. exact Hkept. }
  rewrite bind_run in Hrun. unfold setFiles at 1, modify at 1 in Hrun.
  rewrite bind_run, updateProgress_run in Hrun.
  cbn [sent files app] in Hrun.
  set (e3 := mkDownloadProgress verifying 90 None None _ None) in Hrun.
  assert (Hstages4 : List.map stage (sent w3 ++ [e3])
                     = (checking :: repeat downloading (S (length received)))
                       ++ [extracting; verifying]).
  { rewrite List.map_app, Hstages3. cbn [app]. rewrite <- app_assoc. reflexivity. }
  rewrite bind_run in Hrun. unfold checkBotInstalled at 1 in Hrun.
  rewrite bind_run in Hrun. unfold ask at 1, ret at 1 in Hrun. cbn [files] in Hrun.
  match type of Hrun with context [negb ?b] => destruct b end; cbn [negb] in Hrun.
  2:{ injection Hrun as <- <-. eexists. split; [|split; [|split; [exact Hstages4|]]].
      - discriminate.
      - exists []. rewrite app_nil_r. reflexivity.
      - rewrite last_two. discriminate. }
  unfold settle at 1 in Hrun. rewrite bind_run in Hrun.
  destruct (chmodSync env (botExecutable env)) as [[]|msg].
  2:{ injection Hrun as <- <-. eexists. split; [|split; [|split; [exact Hstages4|]]].
      - discriminate.
      - exists []. rewrite app_nil_r. reflexivity.
      - rewrite last_two. discriminate. }
  rewrite bind_run in Hrun. unfold setFiles at 1, modify at 1 in Hrun.
  rewrite bind_run, updateProgress_run in Hrun. cbn [sent files] in Hrun.
  injection Hrun as <- <-. cbn [sent files].
  split; [reflexivity|]. split; [|split].
  - rewrite List.map_app, Hstages4. cbn [app]. rewrite <- !app_assoc. reflexivity.
  - apply lookup_insert_eq.
  - rewrite lookup_insert_ne by apply botExecutable_is_not_the_archive.
    apply lookup_delete_eq.
Qed.

(** X19: the progress events of a run of [downloadBot] go through the
    stages in order: [checking], then [downloading] (the opening event and
    one per chunk), [extracting], [verifying], [complete]; a failed run
    stops somewhere on that path, after at least the [checking] event,
    before [complete], and adds its one [error] event. *)
Theorem downloadBot_stages_in_order (present : gmap string bool) :
  let run := downloadBot env (mkWorld [] present) in
  exists n,
    let before := checking :: repeat downloading (S n) ++ [extracting; verifying] in
    (fst run = Return true /\ List.map stage (sent (snd run)) = before ++ [complete])
    \/ (fst run = Return false
        /\ exists pre,
             pre <> [] /\ pre `prefix_of` before
             /\ List.map stage (sent (snd run)) = pre ++ [error]).
Proof.
  cbv zeta. destruct (pipeline_trace present) as (n & Htrace). exists n.
  cbv zeta in Htrace. unfold downloadBot, tryCatch.
  destruct (pipeline env (mkWorld [] present)) as [[b|message] w']; cbn [fst snd] in *.
  - destruct Htrace as (-> & Hstages & _). left. auto.
  - destruct Htrace as (pre & Hsome & Hprefix & Hstages & _). right.
    rewrite bind_run, updateProgress_run. unfold ret. cbn [fst snd sent].
    split; [reflexivity|]. exists pre. split; [exact Hsome|]. split; [exact Hprefix|].
    rewrite List.map_app, Hstages. reflexivity.
Qed.

(** X20: a run of [downloadBot] that returns true leaves the bot
    executable on disk with its executable bit, and has removed the
    downloaded archive from the temporary directory. *)
Theorem downloadBot_success_leaves_the_executable (present : gmap string bool) :
  fst (downloadBot env (mkWorld [] present)) = Return true ->
  files (snd (downloadBot env (mkWorld [] present))) !! botExecutable env = Some true
  /\ files (snd (downloadBot env (mkWorld [] present))) !! downloadPath env = None.
Proof.
  destruct (pipeline_trace present) as (n & Htrace).
  cbv zeta in Htrace. unfold downloadBot, tryCatch.
  destruct (pipeline env (mkWorld [] present)) as [[b|message] w']; cbn [fst snd] in *.
  - intros _. destruct Htrace as (_ & _ & Hexe & Harchive). auto.
  - rewrite bind_run, updateProgress_run. unfold ret. cbn [fst]. discriminate.
Qed.

(** X21: a run of [downloadBot] whose last event before the [error]
    event is the [extracting] one (the archive did not unpack, or could
    not be removed) leaves the downloaded archive in the temporary
    directory: it is removed only on the way to [verifying]. *)
Theorem downloadBot_failed_extraction_leaves_the_archive (present : gmap string bool)
  (earlier : list Stage) :
  List.map stage (sent (snd (downloadBot env (mkWorld [] present))))
  = earlier ++ [extracting; error] ->
  fst (downloadBot env (mkWorld [] present)) = Return false
  /\ files (snd (downloadBot env (mkWorld [] present))) !! downloadPath env <> None.
Proof.
  destruct (pipeline_trace present) as (n & Htrace).
  cbv zeta in Htrace. unfold downloadBot, tryCatch.
  destruct (pipeline env (mkWorld [] present)) as [[b|message] w']; cbn [fst snd] in *.
  - destruct Htrace as (_ & Hstages & _). rewrite Hstages. intros Hends. exfalso.
    change (earlier ++ [extracting; error]) with (earlier ++ [extracting] ++ [error]) in Hends.
    rewrite app_assoc in Hends. apply app_inj_tail in Hends as [_ Hlast]. discriminate.
  - destruct Htrace as (pre & _ & _ & Hstages & Hkept).
    rewrite bind_run, updateProgress_run. unfold ret. cbn [fst snd sent files].
    rewrite List.map_app, Hstages. cbn [List.map app]. intros Hends.
    split; [reflexivity|]. apply Hkept.
    change (earlier ++ [extracting; error]) with (earlier ++ [extracting] ++ [error]) in Hends.
    rewrite app_assoc in Hends. apply app_inj_tail in Hends as [-> _].
    apply last_last.
Qed.

End DownloadFiles.

Section LocalBundle.
Import Js Eff BotDownloader Network.
Variable env : Env.

Ltac to_the_copy Hlocal :=
  unfold pipeline; rewrite bind_run, updateProgress_run; cbv iota beta;
  rewrite bind_run; unfold getLatestRelease at 1;
  rewrite Hlocal; unfold ret at 1; cbv iota beta;
  rewrite bind_run; unfold settle at 1.

(** X22: when the bundle lies next to the application,
    [getLatestRelease] names it with a [file://] address and [downloadBot]
    copies it from exactly that path: the run is the same whatever the
    network would answer. *)
Theorem local_bundle_needs_no_network (bytes : N) (get : string -> HttpResult)
  (getRedirect : string -> Response) (w : World) :
  statLocalBundle env (path_join (path_join (dirname env) "bot") "toji-bot-linux-x64.tar.gz")
  = Some bytes ->
  downloadBot (withNetwork get getRedirect env) w = downloadBot env w.
Proof.
  intros Hlocal. unfold downloadBot, tryCatch.
  enough (Hsame : pipeline (withNetwork get getRedirect env) w = pipeline env w)
    by (rewrite Hsame; reflexivity).
  assert (Hlocal' : statLocalBundle (withNetwork get getRedirect env)
                      (path_join (path_join (dirname (withNetwork get getRedirect env)) "bot")
                         "toji-bot-linux-x64.tar.gz") = Some bytes) by exact Hlocal.
  remember (pipeline env w) as rhs eqn:Hrhs.
  to_the_copy Hlocal'.
  change (mkdir (withNetwork get getRedirect env) (botDirectory (withNetwork get getRedirect env)))
    with (mkdir env (botDirectory env)).
  subst rhs.
  remember (match mkdir env (botDirectory env) with Return a => _ | Throw msg => _ end)
    as lhs eqn:Hlhs.
  to_the_copy Hlocal.
  subst lhs.
  destruct (mkdir env (botDirectory env)) as [[]|message]; [|reflexivity].
  rewrite !bind_run, !updateProgress_run. cbv iota beta.
  rewrite !bind_run. cbn [downloadUrl size version].
  rewrite (downloadFile_local (withNetwork get getRedirect env)).
  rewrite (downloadFile_local env).
  reflexivity.
Qed.

End LocalBundle.

(** ** Example runs of the downloader *)

Section DownloadRuns.
Import Js Eff BotDownloader Network.


Lemma local_bundle_needs_no_network_witness :
  downloadBot
    (withNetwork (fun _ => RequestError "getaddrinfo EAI_AGAIN github.com")
       (fun _ => mkResponse 503 None (mkTransfer [] Finished)) Examples.localEnv)
    Examples.emptyDisk
  = downloadBot Examples.localEnv Examples.emptyDisk.
Proof.
  exact (local_bundle_needs_no_network Examples.localEnv 3145728 _ _ Examples.emptyDisk eq_refl).
Defined.

Lemma downloadBot_success_leaves_the_executable_witness :
  files (snd (downloadBot Examples.localEnv (mkWorld [] ∅)))
    !! botExecutable Examples.localEnv = Some true
  /\ files (snd (downloadBot Examples.localEnv (mkWorld [] ∅)))
       !! downloadPath Examples.localEnv = None.
Proof.
  apply (downloadBot_success_leaves_the_executable Examples.localEnv ∅).
  vm_compute. reflexivity.
Defined.

Lemma downloadBot_failed_extraction_leaves_the_archive_witness :
  fst (downloadBot Examples.corruptEnv (mkWorld [] ∅)) = Return false
  /\ files (snd (downloadBot Examples.corruptEnv (mkWorld [] ∅)))
       !! downloadPath Examples.corruptEnv <> None.
Proof.
  apply (downloadBot_failed_extraction_leaves_the_archive Examples.corruptEnv ∅
           (checking :: repeat downloading 4)).
  vm_compute. reflexivity.
Defined.

End DownloadRuns.

(** ** The name of the downloaded archive *)

Section ArchiveName.
Import Js Eff NodePath BotDownloader.
Open Scope Z_scope.

Lemma indexedRev_append (a b : string) (i : Z) (acc : list (Z * ascii)) :
  indexedRev (a +:+ b) i acc
  = indexedRev b (i + Z.of_nat (String.length a)) (indexedRev a i acc).
Proof.
  revert i acc. induction a as [|x a IH]; intros i acc.
  - change (indexedRev b i acc = indexedRev b (i + 0) acc). rewrite Z.add_0_r. reflexivity.
  - change (indexedRev (a +:+ b) (i + 1) ((i, x) :: acc)
            = indexedRev b (i + Z.of_nat (S (String.length a)))
                (indexedRev a (i + 1) ((i, x) :: acc))).
    rewrite IH. f_equal. lia.
Qed.

Lemma scan_stopped (l : list (Z * ascii)) (st : Scan) :
  stopped st = true ->
  fold_left (fun st ic => scanStep st (fst ic) (snd ic)) l st = st.
Proof.
  intros Hstopped. induction l as [|ic l IH]; [reflexivity|].
  cbn [fold_left]. unfold scanStep at 2. rewrite Hstopped. exact IH.
Qed.

Lemma scan_first (i : Z) (c : ascii) :
  Ascii.eqb c "/" = false -> Ascii.eqb c "." = false ->
  scanStep scanStart i c = mkScan (-1) 0 (i + 1) false 0 false.
Proof. intros Hslash Hdot. unfold scanStep, scanStart. cbn. rewrite Hslash, Hdot. reflexivity. Qed.

Lemma scan_plain (sp e p i : Z) (ms : bool) (c : ascii) :
  e <> -1 -> Ascii.eqb c "/" = false -> Ascii.eqb c "." = false ->
  scanStep (mkScan (-1) sp e ms p false) i c = mkScan (-1) sp e ms p false.
Proof.
  intros He Hslash Hdot. unfold scanStep. cbn -[Z.eqb].
  rewrite Hslash, Hdot, (proj2 (Z.eqb_neq e (-1)) He). reflexivity.
Qed.

Lemma scan_dot_first (sp e p i : Z) (ms : bool) :
  e <> -1 ->
  scanStep (mkScan (-1) sp e ms p false) i "." = mkScan i sp e ms p false.
Proof.
  intros He. unfold scanStep. cbn -[Z.eqb].
  rewrite (proj2 (Z.eqb_neq e (-1)) He). reflexivity.
Qed.

Lemma scan_after_dot (sd sp e p i : Z) (ms : bool) (c : ascii) :
  sd <> -1 -> e <> -1 -> Ascii.eqb c "/" = false -> Ascii.eqb c "." = false ->
  scanStep (mkScan sd sp e ms p false) i c = mkScan sd sp e ms (-1) false.
Proof.
  intros Hsd He Hslash Hdot. unfold scanStep. cbn -[Z.eqb].
  rewrite Hslash, Hdot, (proj2 (Z.eqb_neq e (-1)) He). cbn -[Z.eqb].
  rewrite (proj2 (Z.eqb_neq sd (-1)) Hsd). reflexivity.
Qed.

Lemma scan_dot_again (sd sp e p i : Z) (ms : bool) :
  sd <> -1 -> e <> -1 -> p <> 1 ->
  scanStep (mkScan sd sp e ms p false) i "." = mkScan sd sp e ms 1 false.
Proof.
  intros Hsd He Hp. unfold scanStep. cbn -[Z.eqb].
  rewrite (proj2 (Z.eqb_neq e (-1)) He). cbn -[Z.eqb].
  rewrite (proj2 (Z.eqb_neq sd (-1)) Hsd), (proj2 (Z.eqb_neq p 1) Hp). reflexivity.
Qed.

Lemma scan_slash (sd sp e p i : Z) :
  scanStep (mkScan sd sp e false p false) i "/" = mkScan sd (i + 1) e false p true.
Proof. reflexivity. Qed.

Lemma substring_append (a b : string) (n m : nat) :
  String.substring (String.length a + n) m (a +:+ b) = String.substring n m b.
Proof.
  induction a as [|x a IH]; [reflexivity|].
  change (String.substring (S (String.length a + n)) m (String x (a +:+ b))
          = String.substring n m b).
  exact IH.
Qed.

Lemma scan_next (i : Z) (c : ascii) (l : list (Z * ascii)) (st : Scan) :
  fold_left (fun st ic => scanStep st (fst ic) (snd ic)) ((i, c) :: l) st
  = fold_left (fun st ic => scanStep st (fst ic) (snd ic)) l (scanStep st i c).
Proof. reflexivity. Qed.

Lemma scan_of_the_archive (k : Z) (before : list (Z * ascii)) :
  0 <= k ->
  fold_left (fun st ic => scanStep st (fst ic) (snd ic))
    (indexedRev "/toji-bot-download.tar.gz" k before) scanStart
  = mkScan (k + 22) (k + 1) (k + 25) false (-1) true.
Proof.
  intros Hk.
  cbn [indexedRev].
  rewrite scan_next, scan_first by reflexivity.
  rewrite scan_next, scan_plain by (try reflexivity; lia).
  rewrite scan_next, scan_dot_first by lia.
  do 3 (rewrite scan_next, scan_after_dot by (try reflexivity; lia)).
  rewrite scan_next, scan_dot_again by lia.
  do 17 (rewrite scan_next, scan_after_dot by (try reflexivity; lia)).
  rewrite scan_next, scan_slash.
  rewrite scan_stopped by reflexivity.
  f_equal; lia.
Qed.

Lemma extname_of_the_archive (tmp : string) :
  extname (path_join tmp "toji-bot-download.tar.gz") = ".gz"%string.
Proof.
  unfold extname, path_join.
  rewrite indexedRev_append.
  change ("/" +:+ "toji-bot-download.tar.gz")%string with "/toji-bot-download.tar.gz"%string.
  rewrite scan_of_the_archive by lia.
  cbn [startDot endAt preDotState startPart].
  set (k := 0 + Z.of_nat (String.length tmp)).
  assert (Hk : 0 <= k) by (subst k; lia).
  rewrite (proj2 (Z.eqb_neq (k + 22) (-1))) by lia.
  rewrite (proj2 (Z.eqb_neq (k + 25) (-1))) by lia.
  change (-1 =? 0) with false. change (-1 =? 1) with false.
  cbn [orb andb]. unfold slice.
  replace (Z.to_nat (k + 22)) with (String.length tmp + 22)%nat by (subst k; lia).
  replace (Z.to_nat (k + 25 - (k + 22))) with 3%nat by lia.
  rewrite substring_append. reflexivity.
Qed.

(** X23: whatever the temporary directory is called (dots in its name
    included), the extension of the archive path [downloadBot] uses is
    [.gz], so the extraction of a run always goes to the tar extractor and
    never to the unsupported-format errors. *)
Theorem downloaded_archive_goes_to_tar (env : Env) (w : World) :
  extname (downloadPath env) = ".gz"%string
  /\ extractArchive env (downloadPath env) (botDirectory env) w
     = (let '(written, result) := tarExtract env (downloadPath env) (botDirectory env) in
        setFiles (fun present =>
                    fold_left (fun acc entry =>
                                 <[path_join (botDirectory env) (fst entry) := snd entry]> acc)
                              written present) ;;
        settle result)%eff w.
Proof.
  pose proof (extname_of_the_archive (tmpdir env)) as Hextension.
  change (extname (downloadPath env) = ".gz"%string) in Hextension.
  split; [exact Hextension|].
  unfold extractArchive. rewrite Hextension. reflexivity.
Qed.
End ArchiveName.

(** ** The renderer after a run of the main process *)

Section RendererAfterInstallation.
Import Js Eff PlatformService Main SystemSetup SetupFlow.
Context {platformService : Main.PlatformService}.


End RendererAfterInstallation.

Section RendererAfterDownload.
Import Js Eff BotDownloader SetupFlow.
Variable env : Env.

Lemma passing_events (events : list DownloadProgress) (v : View) :
  forallb passing (List.map stage events) = true ->
  currentStep (fold_left handleBotDownloadProgress events v) = currentStep v
  /\ SetupFlow.error (fold_left handleBotDownloadProgress events v) = SetupFlow.error v.
Proof.
  revert v. induction events as [|e events IH]; intros v Hpassing; [split; reflexivity|].
  cbn [List.map forallb] in Hpassing. apply andb_prop in Hpassing as [He Hrest].
  cbn [fold_left]. destruct (IH (handleBotDownloadProgress v e) Hrest) as [-> ->].
  unfold handleBotDownloadProgress. destruct (stage e); try discriminate; split; reflexivity.
Qed.

Lemma passing_repeat (n : nat) (rest : list Stage) :
  forallb passing (repeat downloading n ++ rest) = forallb passing rest.
Proof. induction n as [|n IH]; [reflexivity|]. exact IH. Qed.

(** X25: once the component has handled the events of a run of
    [downloadBot], it stands on [complete] exactly when the run returned
    true, and then no event of the run has touched its error text; when
    the run returned false it stands on [error] and shows [Bot download
    failed: ] followed by the message of the error the run caught. *)
Theorem screen_after_download (present : gmap string bool) (v : View) :
  let run := downloadBot env (mkWorld [] present) in
  let shown := fold_left handleBotDownloadProgress (sent (snd run)) v in
  (fst run = Return true
   /\ currentStep shown = step_complete
   /\ SetupFlow.error shown = SetupFlow.error v)
  \/ (fst run = Return false
      /\ currentStep shown = step_error
      /\ exists message,
           fst (pipeline env (mkWorld [] present)) = Throw message
           /\ SetupFlow.error shown = Some ("Bot download failed: " +:+ message)).
Proof.
  cbv zeta. destruct (pipeline_trace env present) as (n & Htrace).
  cbv zeta in Htrace. unfold downloadBot, tryCatch.
  destruct (pipeline env (mkWorld [] present)) as [[b|message] w']; cbn [fst snd] in *.
  - destruct Htrace as (-> & Hstages & _). left. split; [reflexivity|].
    destruct (sent w') as [|e0 events] using rev_ind.
    { destruct (repeat downloading (S n) ++ [extracting; verifying]); discriminate. }
    clear IHevents. rewrite List.map_app in Hstages. cbn [List.map] in Hstages.
    apply app_inj_tail in Hstages as [Hbefore Hlast].
    rewrite fold_left_app. cbn [fold_left].
    destruct (passing_events events v) as [Hstep Herror].
    { rewrite Hbefore. cbn [forallb passing andb]. rewrite passing_repeat. reflexivity. }
    unfold handleBotDownloadProgress. rewrite Hlast. split; [reflexivity|]. exact Herror.
  - right. rewrite bind_run, updateProgress_run. unfold ret. cbn [fst snd sent].
    split; [reflexivity|]. rewrite fold_left_app. cbn [fold_left].
    split; [reflexivity|]. exists message. split; reflexivity.
Qed.

End RendererAfterDownload.

(** ** The stored session *)

Section StoredSession.
Import Js Eff AuthManager.
Variable env : Env.

(** X26: with a key ring, a session that [saveAuthData] stored is the
    session a newly constructed manager holds, as long as the file can be
    written and read, [decryptString] undoes [encryptString] and
    [JSON.parse] undoes [JSON.stringify] on it. *)
Theorem saved_session_is_restored (data : AuthData) (st : Store) (encrypted : string) :
  isEncryptionAvailable env = true ->
  encryptString env (stringify env data) = Return encrypted ->
  fs_write env = Return tt ->
  fs_read env = Return tt ->
  decryptString env encrypted = Return (stringify env data) ->
  parse env (stringify env data) = Return (Some data) ->
  authData (snd (saveAuthData env data st)) = Some data
  /\ authData (construct env (authFile (snd (saveAuthData env data st)))) = Some data.
Proof.
  intros Havailable Hencrypt Hwrite Hread Hdecrypt Hparse.
  assert (Hsaved : saveAuthData env data st = (Return tt, mkStore (Some data) (Some encrypted))).
  { unfold saveAuthData, tryCatch, writeFileSync. rewrite Havailable, !bind_run.
    unfold settle at 1. rewrite Hencrypt, bind_run. unfold settle at 1. rewrite Hwrite.
    reflexivity. }
  rewrite Hsaved. cbn [snd authData authFile]. split; [reflexivity|].
  unfold construct, loadAuthData, tryCatch. rewrite bind_run. unfold getStore at 1.
  cbn [authFile]. rewrite bind_run. unfold settle at 1. rewrite Hread, Havailable.
  unfold when. rewrite bind_run. unfold settle at 1. rewrite Hdecrypt, bind_run.
  unfold settle at 1. rewrite Hparse. reflexivity.
Qed.

(** X27: without a key ring [saveAuthData] falls back to writing the
    indented JSON in the clear, and the running manager holds the session;
    a manager constructed on the same machine does not read it back and
    holds no session. *)
Theorem unencrypted_session_is_not_restored (data : AuthData) (st : Store) :
  isEncryptionAvailable env = false ->
  fs_write env = Return tt ->
  snd (saveAuthData env data st)
  = mkStore (Some data) (Some (stringifyIndented env data))
  /\ authData (construct env (authFile (snd (saveAuthData env data st)))) = None.
Proof.
  intros Havailable Hwrite.
  assert (Hsaved : saveAuthData env data st
                   = (Return tt, mkStore (Some data) (Some (stringifyIndented env data)))).
  { unfold saveAuthData, tryCatch, writeFileSync. rewrite Havailable, !bind_run.
    unfold settle at 1. rewrite Hwrite. reflexivity. }
  rewrite Hsaved. cbn [snd authFile]. split; [reflexivity|].
  unfold construct, loadAuthData, tryCatch. rewrite bind_run. unfold getStore at 1.
  cbn [authFile]. rewrite bind_run. unfold settle at 1.
  destruct (fs_read env) as [[]|message]; [|reflexivity].
  rewrite Havailable. reflexivity.
Qed.

Lemma logout_run (st : Store) :
  logout env st
  = (Return tt,
     mkStore None
       match authFile st, fs_unlink env with
       | Some content, Throw _ => Some content
       | _, _ => None
       end).
Proof.
  unfold logout, tryCatch, bind, modify, getStore, settle, ret. destruct st as [data [content|]].
  - cbn [setAuthData setAuthFile authFile authData].
    destruct (fs_unlink env) as [[]|message]; reflexivity.
  - cbn [setAuthData setAuthFile authFile authData]. destruct (fs_unlink env); reflexivity.
Qed.

(** X28: [logout] never throws and always forgets the session in
    memory.  When the file is removed, no later start finds a session;
    when the removal fails the file stays as it was, so the next start
    loads what the start before would have loaded. *)
Theorem logout_and_the_file (st : Store) :
  fst (logout env st) = Return tt
  /\ authData (snd (logout env st)) = None
  /\ match fs_unlink env with
     | Return _ =>
         authFile (snd (logout env st)) = None
         /\ authData (construct env (authFile (snd (logout env st)))) = None
     | Throw _ =>
         authFile (snd (logout env st)) = authFile st
         /\ construct env (authFile (snd (logout env st))) = construct env (authFile st)
     end.
Proof.
  rewrite logout_run. cbn [fst snd authData authFile].
  split; [reflexivity|]. split; [reflexivity|].
  destruct (fs_unlink env) as [[]|message].
  - destruct (authFile st); split; reflexivity.
  - destruct (authFile st); split; reflexivity.
Qed.

End StoredSession.

Section StoredSessionExamples.
Import Js Eff AuthManager StoreExamples.

Lemma saved_session_is_restored_witness :
  authData (snd (saveAuthData keyring someone (mkStore None None))) = Some someone
  /\ authData (construct keyring
                 (authFile (snd (saveAuthData keyring someone (mkStore None None)))))
     = Some someone.
Proof.
  apply (saved_session_is_restored keyring someone (mkStore None None)
           ("v10" +:+ stringify keyring someone)); reflexivity.
Defined.

Lemma unencrypted_session_is_not_restored_witness :
  snd (saveAuthData noKeyring someone (mkStore None None))
  = mkStore (Some someone) (Some (stringifyIndented noKeyring someone))
  /\ authData (construct noKeyring
                 (authFile (snd (saveAuthData noKeyring someone (mkStore None None)))))
     = None.
Proof.
  apply (unencrypted_session_is_not_restored noKeyring someone (mkStore None None));
    reflexivity.
Defined.

End StoredSessionExamples.
